(** * Technical-indicator engine and screener of [backend/python/app.py]

    A shallow embedding of the fallback (pandas) indicator functions
    [calculate_rsi], [calculate_macd], [calculate_bollinger_bands], of the
    volume-spike computation and of the [run_screener] loop.

    Numbers.  A float64 is modelled by [num]: a rational, one of the two
    infinities, or NaN.  Arithmetic on finite values is exact (rounding is not
    modelled) and the special values follow IEEE 754; the two signed zeros are
    identified.  pandas operations are modelled by their documented meaning
    ([diff], [where], [rolling(window).mean()/.std()] with the default
    [min_periods = window], [ewm(span, adjust=False).mean()]).  Price and
    volume samples handed to the engine are finite numbers.

    Collaborators.  TA-Lib, the series provider and the square root are
    outside the repository: [calculate_rsi] branches on [TALIB_AVAILABLE] and
    takes TA-Lib's RSI as a parameter, the screener takes the provider as a
    parameter, and the rolling standard deviation takes the square root on
    the rationals as a parameter.  Exceptions are results of type [pyres];
    the console that the screener's error line is printed to is a parameter
    of [run_screener_endpoint]. *)

From Stdlib Require Import String.
From Stdlib Require Import QArith Qabs Qround ZArith List Bool Arith Lia Lqa.
From Stdlib Require Import Permutation Sorted.
Import ListNotations.
Open Scope Q_scope.

(** ** float64 values up to rounding *)

Inductive num : Type :=
| Fin (q : Q)
| PInf
| NInf
| NaN.

Definition Qlt_bool (a b : Q) : bool := negb (Qle_bool b a).

Definition is_nan (x : num) : bool :=
  match x with NaN => true | _ => false end.

(** [np.isnan] negated: the value is "defined" in the sense of the spec. *)
Definition is_defined (x : num) : bool := negb (is_nan x).

Definition nneg (x : num) : num :=
  match x with
  | Fin q => Fin (- q)
  | PInf => NInf
  | NInf => PInf
  | NaN => NaN
  end.

Definition nabs (x : num) : num :=
  match x with
  | Fin q => Fin (Qabs q)
  | PInf | NInf => PInf
  | NaN => NaN
  end.

Definition nadd (x y : num) : num :=
  match x, y with
  | NaN, _ | _, NaN => NaN
  | Fin a, Fin b => Fin (a + b)
  | PInf, NInf | NInf, PInf => NaN
  | PInf, _ | _, PInf => PInf
  | NInf, _ | _, NInf => NInf
  end.

Definition nsub (x y : num) : num := nadd x (nneg y).

(** Sign of an infinity scaled by a finite factor ([inf * 0] is NaN). *)
Definition scale_inf (positive : bool) (a : Q) : num :=
  match a ?= 0 with
  | Eq => NaN
  | Gt => if positive then PInf else NInf
  | Lt => if positive then NInf else PInf
  end.

Definition nmul (x y : num) : num :=
  match x, y with
  | NaN, _ | _, NaN => NaN
  | Fin a, Fin b => Fin (a * b)
  | Fin a, PInf | PInf, Fin a => scale_inf true a
  | Fin a, NInf | NInf, Fin a => scale_inf false a
  | PInf, PInf | NInf, NInf => PInf
  | PInf, NInf | NInf, PInf => NInf
  end.

(** numpy/pandas division: a zero divisor gives an infinity or NaN, never an
    exception. *)
Definition ndiv (x y : num) : num :=
  match x, y with
  | NaN, _ | _, NaN => NaN
  | Fin a, Fin b =>
      if Qeq_bool b 0 then scale_inf true a else Fin (a / b)
  | Fin _, PInf | Fin _, NInf => Fin 0
  | PInf, Fin b => if Qle_bool 0 b then PInf else NInf
  | NInf, Fin b => if Qle_bool 0 b then NInf else PInf
  | PInf, PInf | PInf, NInf | NInf, PInf | NInf, NInf => NaN
  end.

(** Comparisons: every comparison with NaN is false. *)
Definition num_ltb (x y : num) : bool :=
  match x, y with
  | NaN, _ | _, NaN => false
  | Fin a, Fin b => Qlt_bool a b
  | NInf, Fin _ | NInf, PInf | Fin _, PInf => true
  | _, _ => false
  end.

Definition num_leb (x y : num) : bool :=
  match x, y with
  | NaN, _ | _, NaN => false
  | Fin a, Fin b => Qle_bool a b
  | NInf, _ | _, PInf => true
  | _, _ => false
  end.

Definition num_gtb (x y : num) : bool := num_ltb y x.
Definition num_geb (x y : num) : bool := num_leb y x.

(** Numerical equality of two values (rationals compared by value). *)
Definition num_eq (x y : num) : Prop :=
  match x, y with
  | Fin a, Fin b => a == b
  | PInf, PInf | NInf, NInf | NaN, NaN => True
  | _, _ => False
  end.

(** Square root, over a given rational square-root function [sqrtQ]. *)
Definition nsqrt (sqrtQ : Q -> Q) (x : num) : num :=
  match x with
  | Fin a => if Qlt_bool a 0 then NaN else Fin (sqrtQ a)
  | PInf => PInf
  | NInf | NaN => NaN
  end.

Definition Qnat (n : nat) : Q := inject_Z (Z.of_nat n).

(** Sum and arithmetic mean of finite values. *)
Definition Qsum (xs : list Q) : Q := fold_right Qplus 0 xs.

Definition avgQ (w : list Q) : Q := Qsum w / Qnat (length w).

(** ** pandas Series operations *)

Fixpoint map2 {A B C : Type} (f : A -> B -> C) (l1 : list A) (l2 : list B)
  : list C :=
  match l1, l2 with
  | a :: l1', b :: l2' => f a b :: map2 f l1' l2'
  | _, _ => []
  end.

(** [s.diff()]: NaN at position 0, then [s[i] - s[i-1]]. *)
Definition diff (xs : list num) : list num :=
  match xs with
  | [] => []
  | _ :: t => NaN :: map2 nsub t xs
  end.

(** [s.where(cond, other)]: keep the value where [cond] holds. *)
Definition where_ (xs : list num) (cond : list bool) (other : num) : list num :=
  map2 (fun x (c : bool) => if c then x else other) xs cond.

(** The trailing window of at most [P] samples that ends at position [i]. *)
Definition window {A : Type} (P i : nat) (xs : list A) : list A :=
  skipn (i + 1 - P) (firstn (i + 1) xs).

Definition observations (w : list num) : list num := filter is_defined w.

Definition nsum (w : list num) : num := fold_right nadd (Fin 0) w.

(** Mean of a window: NaN unless it holds at least [minp] (and at least one)
    observations. *)
Definition calc_mean (minp : nat) (w : list num) : num :=
  let obs := observations w in
  let nobs := length obs in
  if ((minp <=? nobs)%nat && (0 <? nobs)%nat)%bool
  then ndiv (nsum obs) (Fin (Qnat nobs))
  else NaN.

(** Sample variance (ddof = 1) of a window: NaN unless it holds at least
    [minp] and more than one observation. *)
Definition calc_var (minp : nat) (w : list num) : num :=
  let obs := observations w in
  let nobs := length obs in
  if ((minp <=? nobs)%nat && (1 <? nobs)%nat)%bool
  then
    let m := ndiv (nsum obs) (Fin (Qnat nobs)) in
    ndiv (nsum (map (fun x => nmul (nsub x m) (nsub x m)) obs))
         (Fin (Qnat (nobs - 1)))
  else NaN.

Definition rolling {B : Type} (P : nat) (agg : list num -> B) (xs : list num)
  : list B :=
  map (fun i => agg (window P i xs)) (seq 0 (length xs)).

(** [s.rolling(window=P).mean()] *)
Definition rolling_mean (P : nat) (xs : list num) : list num :=
  rolling P (calc_mean P) xs.

(** [s.rolling(window=P).std()] *)
Definition rolling_std (sqrtQ : Q -> Q) (P : nat) (xs : list num) : list num :=
  map (nsqrt sqrtQ) (rolling P (calc_var P) xs).

(** [s.ewm(span=span, adjust=False).mean()] on a series of finite values:
    the running value [weighted] is seeded with the first sample and updated
    as [(1 - alpha) * weighted + alpha * cur]. *)
Definition alpha_of_span (span : nat) : Q := 2 / (Qnat span + 1).

Fixpoint ewm_loop (alpha weighted : Q) (xs : list Q) : list Q :=
  match xs with
  | [] => []
  | cur :: rest =>
      let weighted' := (1 - alpha) * weighted + alpha * cur in
      weighted' :: ewm_loop alpha weighted' rest
  end.

Definition ewm_mean (span : nat) (xs : list Q) : list Q :=
  match xs with
  | [] => []
  | x0 :: rest => x0 :: ewm_loop (alpha_of_span span) x0 rest
  end.

(** ** The fallback indicators *)

(** Lines 28-30 of [calculate_rsi]: the price changes and their rolling
    average gain and loss. *)
Definition rsi_delta (prices : list Q) : list num := diff (map Fin prices).

Definition rsi_gain (prices : list Q) (period : nat) : list num :=
  let delta := rsi_delta prices in
  rolling_mean period
    (where_ delta (map (fun d => num_gtb d (Fin 0)) delta) (Fin 0)).

Definition rsi_loss (prices : list Q) (period : nat) : list num :=
  let delta := rsi_delta prices in
  rolling_mean period
    (map nneg (where_ delta (map (fun d => num_ltb d (Fin 0)) delta) (Fin 0))).

(** Lines 31-32: [rs = gain / loss], [rsi = 100 - 100 / (1 + rs)]. *)
Definition rsi_of_rs (rs : num) : num :=
  nsub (Fin 100) (ndiv (Fin 100) (nadd (Fin 1) rs)).

Definition calculate_rsi_fallback (prices : list Q) (period : nat) : list num :=
  let gain := rsi_gain prices period in
  let loss := rsi_loss prices period in
  let rs := map2 ndiv gain loss in
  map rsi_of_rs rs.

Record MACD : Type := mkMACD {
  macd : list Q;
  signal : list Q;
  histogram : list Q
}.

Definition calculate_macd_fallback (prices : list Q) : MACD :=
  let exp1 := ewm_mean 12 prices in
  let exp2 := ewm_mean 26 prices in
  let macd := map2 Qminus exp1 exp2 in
  let signal := ewm_mean 9 macd in
  let histogram := map2 Qminus macd signal in
  mkMACD macd signal histogram.

Record Bollinger : Type := mkBollinger {
  upper : list num;
  middle : list num;
  lower : list num
}.

Definition calculate_bollinger_bands_fallback (sqrtQ : Q -> Q)
  (prices : list Q) (period : nat) (std_dev : Q) : Bollinger :=
  let sma := rolling_mean period (map Fin prices) in
  let std := rolling_std sqrtQ period (map Fin prices) in
  let upper := map2 nadd sma (map (fun s => nmul s (Fin std_dev)) std) in
  let lower := map2 nsub sma (map (fun s => nmul s (Fin std_dev)) std) in
  mkBollinger upper sma lower.

(** The same gain and loss series written over the rationals: the price
    changes, and the gain and the loss of one change. *)
Definition Qdeltas (prices : list Q) : list Q := map2 Qminus (tl prices) prices.

Definition gain_of (d : Q) : Q := if Qlt_bool 0 d then d else 0.
Definition loss_of (d : Q) : Q := - (if Qlt_bool d 0 then d else 0).

Definition gainsQ (prices : list Q) : list Q :=
  match prices with
  | [] => []
  | _ :: _ => 0 :: map gain_of (Qdeltas prices)
  end.

Definition lossesQ (prices : list Q) : list Q :=
  match prices with
  | [] => []
  | _ :: _ => (- 0) :: map loss_of (Qdeltas prices)
  end.

(** A defined RSI value inside the closed interval [0, 100]. *)
Definition in_0_100 (v : num) : Prop :=
  exists q, v = Fin q /\ 0 <= q /\ q <= 100.

(** Sample variance of a window of finite values, as [calc_var] computes it. *)
Definition varQ (w : list Q) : Q :=
  Qsum (map (fun x => (x + - avgQ w) * (x + - avgQ w)) w)
  / Qnat (length w - 1).

(** A square root on the rationals, rounded down to six decimals. *)
Definition sqrt_down (q : Q) : Q :=
  Z.sqrt (Qfloor (q * 1000000000000)) # 1000000.

(** The EMA as the spec words it: [ema[0] = x[0]] and
    [ema[i] = alpha * x[i] + (1 - alpha) * ema[i-1]] with
    [alpha = 2 / (span + 1)]. *)
Fixpoint ema_spec (span : nat) (x : list Q) (i : nat) : Q :=
  match i with
  | O => nth 0 x 0
  | S j =>
      (2 / (Qnat span + 1)) * nth i x 0
      + (1 - 2 / (Qnat span + 1)) * ema_spec span x j
  end.

(** The spec's scenario series (15 samples). *)
Definition scenario_series : list Q :=
  [10; 10.5; 10.2; 10.8; 11; 10.9; 11.2; 11.5; 11.3; 11.6; 11.8; 11.9; 12;
   12.2; 12.1].

Definition flat_series : list Q := repeat 10 14.

(** ** Python exceptions *)

Inductive exn : Type :=
| IndexError
| ZeroDivisionError
| TypeError
| UnicodeEncodeError
| LibraryError (msg : string).

Inductive pyres (A : Type) : Type :=
| Ret (a : A)
| Raise (e : exn).

Arguments Ret {A} a.
Arguments Raise {A} e.

Definition bind {A B : Type} (c : pyres A) (k : A -> pyres B) : pyres B :=
  match c with
  | Ret a => k a
  | Raise e => Raise e
  end.

Notation "x <- c ;; k" := (bind c (fun x => k))
  (at level 61, c at next level, right associativity).

(** [s.iloc[-1]]: the last element, [IndexError] on an empty series. *)
Fixpoint iloc_last {A : Type} (l : list A) : pyres A :=
  match l with
  | [] => Raise IndexError
  | [x] => Ret x
  | _ :: rest => iloc_last rest
  end.

(** Division of two Python floats: a zero divisor raises. *)
Definition py_truediv (x y : num) : pyres num :=
  match y with
  | Fin b => if Qeq_bool b 0 then Raise ZeroDivisionError else Ret (ndiv x y)
  | _ => Ret (ndiv x y)
  end.

(** [float(s.mean())] of a series of finite values; NaN when it is empty. *)
Definition series_mean (xs : list Q) : num :=
  match xs with
  | [] => NaN
  | _ => Fin (avgQ xs)
  end.

(** Lines 101-103 and 149-151: the volume-spike ratio of a volume series. *)
Definition volume_spike_ratio (volumes : list Q) : pyres num :=
  let avg_volume := series_mean volumes in
  latest_volume <- iloc_last volumes ;;
  if num_gtb avg_volume (Fin 0)
  then py_truediv (Fin latest_volume) avg_volume
  else Ret (Fin 0).

(** ** The screener *)

(** A criteria value decoded from the JSON request body by [json.loads]:
    a finite number, the literals [Infinity], [-Infinity] and [NaN] that the
    decoder accepts, a boolean, a string, null, an array or an object. *)
#[local] Set Warnings "-register-all".
Inductive json : Type :=
| JNum (q : Q)
| JInfinity (positive : bool)
| JNaN
| JBool (b : bool)
| JStr (s : string)
| JNull
| JArray (items : list json)
| JObject (fields : list (string * json)).

(** The float a request value stands for in [<=] and [>=] against a float:
    numbers as they are, [True] as 1 and [False] as 0; a string, [None], a
    list or a dict cannot be ordered against a float. *)
Definition as_float (a : json) : option num :=
  match a with
  | JNum q => Some (Fin q)
  | JInfinity true => Some PInf
  | JInfinity false => Some NInf
  | JNaN => Some NaN
  | JBool true => Some (Fin 1)
  | JBool false => Some (Fin 0)
  | JStr _ | JNull | JArray _ | JObject _ => None
  end.

(** The [criteria] object: a key is absent ([None]) or bound to a value. *)
Record Criteria : Type := mkCriteria {
  crit_rsi_min : option json;
  crit_rsi_max : option json;
  crit_volume_spike : option json
}.

(** [d.get(key, default)] *)
Definition dict_get (entry : option json) (default : Q) : json :=
  match entry with
  | Some v => v
  | None => JNum default
  end.

(** Ordering comparisons between a request value and a float: a value that
    cannot be ordered against a float raises [TypeError]. *)
Definition json_le_num (a : json) (x : num) : pyres bool :=
  match as_float a with
  | Some y => Ret (num_leb y x)
  | None => Raise TypeError
  end.

Definition num_le_json (x : num) (a : json) : pyres bool :=
  match as_float a with
  | Some y => Ret (num_leb x y)
  | None => Raise TypeError
  end.

Definition num_ge_json (x : num) (a : json) : pyres bool :=
  match as_float a with
  | Some y => Ret (num_geb x y)
  | None => Raise TypeError
  end.

(** One row of the history frame returned by the series provider. *)
Record bar : Type := mkBar {
  Close : Q;
  Volume : Q
}.

Definition DataFrame : Type := list bar.

Definition empty (hist : DataFrame) : bool :=
  match hist with [] => true | _ => false end.

Record ScreenerMatch : Type := mkMatch {
  ticker : string;
  price : Q;
  rsi : num;
  volume_spike : num;
  score : num
}.

Record ScreenerReport : Type := mkReport {
  results : list ScreenerMatch;
  total_scanned : nat;
  matches : nat
}.

(** [l.sort(key=key, reverse=True)]: the stable descending sort, by
    insertion; an element goes in front of the first one whose key is not
    greater than its own. *)
Fixpoint insert_desc {A : Type} (key : A -> num) (x : A) (l : list A) : list A :=
  match l with
  | [] => [x]
  | y :: l' =>
      if num_ltb (key x) (key y) then y :: insert_desc key x l'
      else x :: y :: l'
  end.

Definition sort_desc {A : Type} (key : A -> num) (l : list A) : list A :=
  fold_right (insert_desc key) [] l.

Section Screener.

(** The start-up probe for TA-Lib and its RSI, which may raise. *)
Variable TALIB_AVAILABLE : bool.
Variable talib_RSI : list Q -> nat -> pyres (list num).

(** The series provider: [yf.Ticker(symbol).history(period=p)]. *)
Variable history : string -> string -> pyres DataFrame.

Definition calculate_rsi (prices : list Q) (period : nat)
  : pyres (list num) :=
  if TALIB_AVAILABLE then talib_RSI prices period
  else Ret (calculate_rsi_fallback prices period).

Definition match_score (latest_rsi vol_spike : num) : num :=
  nadd (nsub (Fin 100) (nabs (nsub (Fin 50) latest_rsi)))
       (nmul vol_spike (Fin 10)).

(** Line 154: [rsi_min <= latest_rsi <= rsi_max and vol_spike >= volume_spike],
    evaluated left to right with Python's short-circuiting. *)
Definition check_criteria (rsi_min rsi_max volume_spike : json)
  (latest_rsi vol_spike : num) : pyres bool :=
  c1 <- json_le_num rsi_min latest_rsi ;;
  if c1 then
    c2 <- num_le_json latest_rsi rsi_max ;;
    if c2 then num_ge_json vol_spike volume_spike else Ret false
  else Ret false.

(** The body of the inner [try] (lines 138-161): [Ret None] when the ticker
    is passed over, [Ret (Some m)] when [m] is appended to [results]. *)
Definition screen_ticker (rsi_min rsi_max volume_spike : json)
  (ticker : string) : pyres (option ScreenerMatch) :=
  let ticker_symbol := (ticker ++ ".OL")%string in
  hist <- history ticker_symbol "3mo" ;;
  if empty hist then Ret None
  else
    let prices := map Close hist in
    rsi <- calculate_rsi prices 14 ;;
    latest_rsi <- iloc_last rsi ;;
    vol_spike <- volume_spike_ratio (map Volume hist) ;;
    pass <- check_criteria rsi_min rsi_max volume_spike
                  latest_rsi vol_spike ;;
    if pass then
      last_price <- iloc_last prices ;;
      Ret (Some (mkMatch ticker last_price latest_rsi vol_spike
                   (match_score latest_rsi vol_spike)))
    else Ret None.

(** The [for] loop (lines 136-165) when every error line of line 164 is
    printed: an exception of one ticker is caught and the loop goes on with
    the next one.  [screener_loop_logged] below adds the [print], which may
    raise. *)
Fixpoint screener_loop (rsi_min rsi_max volume_spike : json)
  (tickers : list string) (results : list ScreenerMatch)
  : list ScreenerMatch :=
  match tickers with
  | [] => results
  | ticker :: rest =>
      match screen_ticker rsi_min rsi_max volume_spike ticker with
      | Ret (Some m) =>
          screener_loop rsi_min rsi_max volume_spike rest (results ++ [m])
      | Ret None =>
          screener_loop rsi_min rsi_max volume_spike rest results
      | Raise _ =>
          screener_loop rsi_min rsi_max volume_spike rest results
      end
  end.

(** The matches of a batch, in the order of the input tickers: what one
    pass of [screen_ticker] over the list appends. *)
Definition accepted_matches (rsi_min rsi_max volume_spike : json)
  (tickers : list string) : list ScreenerMatch :=
  flat_map (fun ticker =>
              match screen_ticker rsi_min rsi_max volume_spike ticker with
              | Ret (Some m) => [m]
              | _ => []
              end) tickers.

(** Whether the pass over one ticker appends a match. *)
Definition matched (rsi_min rsi_max volume_spike : json) (ticker : string)
  : bool :=
  match screen_ticker rsi_min rsi_max volume_spike ticker with
  | Ret (Some _) => true
  | _ => false
  end.

(** The body of the 200 response (lines 130-174).  The outer handler and its
    500 response are in [run_screener_endpoint] below. *)
Definition run_screener (tickers : list string) (criteria : Criteria)
  : ScreenerReport :=
  let rsi_min := dict_get (crit_rsi_min criteria) 30 in
  let rsi_max := dict_get (crit_rsi_max criteria) 70 in
  let volume_spike := dict_get (crit_volume_spike criteria) 1.5 in
  let results := screener_loop rsi_min rsi_max volume_spike tickers [] in
  let results := sort_desc score results in
  mkReport (firstn 10 results) (length tickers) (length results).

End Screener.

(** Equality test of two scores ([==] on floats: false on NaN). *)
Definition num_eqb (x y : num) : bool :=
  match x, y with
  | Fin a, Fin b => Qeq_bool a b
  | PInf, PInf | NInf, NInf => true
  | _, _ => false
  end.

(** Descending order by a key, and the keys that are not NaN. *)
Definition key_ge {A : Type} (key : A -> num) (a b : A) : Prop :=
  num_geb (key a) (key b) = true.

Definition defined_key {A : Type} (key : A -> num) (x : A) : Prop :=
  is_defined (key x) = true.

(** Descending order of two matches by score. *)
Definition score_ge : ScreenerMatch -> ScreenerMatch -> Prop := key_ge score.

(** ** The spec's two-ticker scenario

    Ticker A: fourteen closes whose gains sum to 9 and losses to 11 (RSI 45)
    and a last volume twice the mean; ticker B: gains 4, losses 1 (RSI 80).
    Symbol X cannot be retrieved; any other symbol has no data. *)
Definition scenario_hist_A : DataFrame :=
  map2 mkBar
    [100; 109; 98; 98; 98; 98; 98; 98; 98; 98; 98; 98; 98; 98]
    [12; 12; 12; 12; 12; 12; 12; 12; 12; 12; 12; 12; 12; 26].

Definition scenario_hist_B : DataFrame :=
  map2 mkBar
    [100; 104; 103; 103; 103; 103; 103; 103; 103; 103; 103; 103; 103; 103]
    [10; 10; 10; 10; 10; 10; 10; 10; 10; 10; 10; 10; 10; 10].

Definition scenario_history (symbol period : string) : pyres DataFrame :=
  if String.eqb symbol "A.OL" then Ret scenario_hist_A
  else if String.eqb symbol "B.OL" then Ret scenario_hist_B
  else if String.eqb symbol "X.OL" then Raise (LibraryError "request failed")
  else Ret [].

Definition no_talib (prices : list Q) (period : nat) : pyres (list num) :=
  Raise (LibraryError "TA-Lib not available").

(** A TA-Lib whose RSI raises on every input. *)
Definition raising_talib (prices : list Q) (period : nat) : pyres (list num) :=
  Raise (LibraryError "input array has wrong dimensions").

(** A history of three bars: too short for the 14-sample RSI. *)
Definition short_hist : DataFrame :=
  map2 mkBar [50; 51; 52] [10; 10; 40].

Definition short_history (symbol period : string) : pyres DataFrame :=
  if String.eqb symbol "S.OL" then Ret short_hist
  else scenario_history symbol period.

Definition scenario_criteria : Criteria :=
  mkCriteria (Some (JNum 30)) (Some (JNum 70)) (Some (JNum 1.5)).

(** Whether a request value can be ordered against a float. *)
Definition orderable (a : json) : bool :=
  match as_float a with
  | Some _ => true
  | None => false
  end.

(** ** The indicator endpoint [get_indicators] *)

(** [s.endswith(suffix)]: some tail of [s] is [suffix]. *)
Fixpoint endswith (s suffix : string) : bool :=
  if String.eqb s suffix then true
  else
    match s with
    | EmptyString => false
    | String _ rest => endswith rest suffix
    end.

(** Line 71: the Oslo suffix is added unless the ticker already carries it. *)
Definition indicator_symbol (ticker : string) : string :=
  if negb (endswith ticker ".OL") then (ticker ++ ".OL")%string else ticker.

(** A history frame with its index: each row with the ISO form of its
    timestamp. *)
Definition TimedFrame : Type := list (string * bar).

Definition frame_empty (hist : TimedFrame) : bool :=
  match hist with [] => true | _ => false end.

(** The dict returned by [calculate_macd]. *)
Record MacdSeries : Type := mkMacdSeries {
  s_macd : list num;
  s_signal : list num;
  s_histogram : list num
}.

(** [float(x) if not np.isnan(x) else None] *)
Definition nan_to_none (x : num) : option num :=
  if negb (is_nan x) then Some x else None.

(** The latest value of a series, as the response reports it. *)
Definition latest (s : list num) : pyres (option num) :=
  x <- iloc_last s ;; Ret (nan_to_none x).

Record LatestMacd : Type := mkLatestMacd {
  l_macd : option num;
  l_signal : option num;
  l_histogram : option num
}.

Record LatestBands : Type := mkLatestBands {
  l_upper : option num;
  l_middle : option num;
  l_lower : option num
}.

Record VolumeReport : Type := mkVolumeReport {
  v_current : Q;
  v_average : num;
  v_spike_ratio : num
}.

Record IndicatorReport : Type := mkIndicatorReport {
  i_ticker : string;
  i_latest_price : Q;
  i_rsi : option num;
  i_macd : LatestMacd;
  i_bollinger_bands : LatestBands;
  i_volume : VolumeReport;
  i_timestamp : string
}.

(** An HTTP response: 200 with a body, 404 with a message, or 500 carrying
    the exception whose text is reported. *)
Inductive response (A : Type) : Type :=
| Ok200 (body : A)
| NotFound404 (error : string)
| ServerError500 (error : exn).

Arguments Ok200 {A} body.
Arguments NotFound404 {A} error.
Arguments ServerError500 {A} error.

Section Indicators.

Variable TALIB_AVAILABLE : bool.
Variable talib_RSI : list Q -> nat -> pyres (list num).
Variable talib_MACD :
  list Q -> nat -> nat -> nat -> pyres (list num * list num * list num).
Variable talib_BBANDS :
  list Q -> nat -> Q -> Q -> pyres (list num * list num * list num).
Variable sqrtQ : Q -> Q.
Variable history : string -> string -> pyres TimedFrame.

Definition calculate_macd (prices : list Q) : pyres MacdSeries :=
  if TALIB_AVAILABLE then
    r <- talib_MACD prices 12 26 9 ;;
    let '(macd, signal, hist) := r in
    Ret (mkMacdSeries macd signal hist)
  else
    let r := calculate_macd_fallback prices in
    Ret (mkMacdSeries (map Fin (macd r)) (map Fin (signal r))
           (map Fin (histogram r))).

Definition calculate_bollinger_bands (prices : list Q) (period : nat)
  (std_dev : Q) : pyres Bollinger :=
  if TALIB_AVAILABLE then
    r <- talib_BBANDS prices period std_dev std_dev ;;
    let '(upper, middle, lower) := r in
    Ret (mkBollinger upper middle lower)
  else Ret (calculate_bollinger_bands_fallback sqrtQ prices period std_dev).

(** The body of the [try] of [get_indicators] (lines 70-117). *)
Definition indicators_body (ticker : string)
  : pyres (response IndicatorReport) :=
  let ticker_symbol := indicator_symbol ticker in
  hist <- history ticker_symbol "6mo" ;;
  if frame_empty hist then Ret (NotFound404 "No data available")
  else
    let prices := map (fun row => Close (snd row)) hist in
    rsi <- calculate_rsi TALIB_AVAILABLE talib_RSI prices 14 ;;
    macd_data <- calculate_macd prices ;;
    bb <- calculate_bollinger_bands prices 20 2 ;;
    latest_rsi <- latest rsi ;;
    latest_macd <- latest (s_macd macd_data) ;;
    latest_signal <- latest (s_signal macd_data) ;;
    latest_histogram <- latest (s_histogram macd_data) ;;
    latest_upper <- latest (upper bb) ;;
    latest_middle <- latest (middle bb) ;;
    latest_lower <- latest (lower bb) ;;
    let volumes := map (fun row => Volume (snd row)) hist in
    let avg_volume := series_mean volumes in
    latest_volume <- iloc_last volumes ;;
    volume_spike <- (if num_gtb avg_volume (Fin 0)
                     then py_truediv (Fin latest_volume) avg_volume
                     else Ret (Fin 0)) ;;
    latest_price <- iloc_last prices ;;
    timestamp <- iloc_last (map fst hist) ;;
    Ret (Ok200
           (mkIndicatorReport ticker latest_price latest_rsi
              (mkLatestMacd latest_macd latest_signal latest_histogram)
              (mkLatestBands latest_upper latest_middle latest_lower)
              (mkVolumeReport latest_volume avg_volume volume_spike)
              timestamp)).

(** [get_indicators]: any exception of the body becomes a 500 response. *)
Definition get_indicators (ticker : string) : response IndicatorReport :=
  match indicators_body ticker with
  | Ret r => r
  | Raise e => ServerError500 e
  end.

End Indicators.

(** A six-sample frame for the examples, and a provider that knows it as
    EQNR.OL, fails on X.OL and has no data otherwise. *)
Definition example_frame : TimedFrame :=
  [("2024-01-02T00:00:00", mkBar 300 1000);
   ("2024-01-03T00:00:00", mkBar 303 1200);
   ("2024-01-04T00:00:00", mkBar 301 900);
   ("2024-01-05T00:00:00", mkBar 305 1500);
   ("2024-01-08T00:00:00", mkBar 304 1100);
   ("2024-01-09T00:00:00", mkBar 308 2300)]%string.

Definition example_provider (symbol period : string) : pyres TimedFrame :=
  if String.eqb symbol "EQNR.OL" then Ret example_frame
  else if String.eqb symbol "X.OL" then Raise (LibraryError "request failed")
  else Ret [].

Definition no_talib_MACD (prices : list Q) (fast slow sig : nat)
  : pyres (list num * list num * list num) :=
  Raise (LibraryError "TA-Lib not available").

Definition no_talib_BBANDS (prices : list Q) (period : nat) (up dn : Q)
  : pyres (list num * list num * list num) :=
  Raise (LibraryError "TA-Lib not available").

(** The match the scenario run returns for ticker A. *)
Definition scenario_match_A : ScreenerMatch :=
  mkMatch "A" 98 (Fin (12600 # 280)) (Fin (364 # 182))
    (Fin (5860400 # 50960)).

(** ** The screener endpoint with its error log and outer handler

    [screener_loop] and [run_screener] above give the report that the
    endpoint sends when every error line of line 164 is printed.  The
    definitions below add that [print], which may itself raise (the text
    cannot be written to the console), and the outer [try]/[except] of lines
    125 and 176-177 that turns such an exception into a 500 response. *)

Section ScreenerEndpoint.

Variable TALIB_AVAILABLE : bool.
Variable talib_RSI : list Q -> nat -> pyres (list num).
Variable history : string -> string -> pyres DataFrame.

(** [print(f"Error processing {ticker}: {e}")] *)
Variable print_error : string -> exn -> pyres unit.

Fixpoint screener_loop_logged (rsi_min rsi_max volume_spike : json)
  (tickers : list string) (results : list ScreenerMatch)
  : pyres (list ScreenerMatch) :=
  match tickers with
  | [] => Ret results
  | ticker :: rest =>
      match screen_ticker TALIB_AVAILABLE talib_RSI history
              rsi_min rsi_max volume_spike ticker with
      | Ret (Some m) =>
          screener_loop_logged rsi_min rsi_max volume_spike rest
            (results ++ [m])
      | Ret None =>
          screener_loop_logged rsi_min rsi_max volume_spike rest results
      | Raise e =>
          _ <- print_error ticker e ;;
          screener_loop_logged rsi_min rsi_max volume_spike rest results
      end
  end.

Definition run_screener_endpoint (tickers : list string) (criteria : Criteria)
  : response ScreenerReport :=
  let rsi_min := dict_get (crit_rsi_min criteria) 30 in
  let rsi_max := dict_get (crit_rsi_max criteria) 70 in
  let volume_spike := dict_get (crit_volume_spike criteria) 1.5 in
  match screener_loop_logged rsi_min rsi_max volume_spike tickers [] with
  | Ret results =>
      let results := sort_desc score results in
      Ok200 (mkReport (firstn 10 results) (length tickers) (length results))
  | Raise e => ServerError500 e
  end.

End ScreenerEndpoint.

(** A console that prints every error line. *)
Definition quiet_print (ticker : string) (e : exn) : pyres unit := Ret tt.

(** The ticker written [\ud800] in the request body: a lone surrogate, which
    [json.loads] accepts and which no console encoding can write. *)
Definition lone_surrogate : string := "\ud800".

(** A console that cannot write the lone surrogate. *)
Definition strict_print (ticker : string) (e : exn) : pyres unit :=
  if String.eqb ticker lone_surrogate then Raise UnicodeEncodeError
  else Ret tt.

(** The scenario provider, failing on the symbol of the lone surrogate. *)
Definition surrogate_history (symbol period : string) : pyres DataFrame :=
  if String.eqb symbol (lone_surrogate ++ ".OL")
  then Raise (LibraryError "request failed")
  else scenario_history symbol period.

(** * Properties *)

(** ** Rational comparisons *)

Lemma Qlt_bool_iff (a b : Q) : Qlt_bool a b = true <-> a < b.
Proof.
  unfold Qlt_bool. rewrite negb_true_iff. split; intro H.
  - apply Qnot_le_lt. intro Hle. apply Qle_bool_iff in Hle. congruence.
  - destruct (Qle_bool b a) eqn:E; [|reflexivity].
    apply Qle_bool_iff in E. exfalso. apply (Qlt_not_le _ _ H E).
Qed.

Lemma Qlt_bool_false (a b : Q) : Qlt_bool a b = false <-> b <= a.
Proof.
  unfold Qlt_bool. rewrite negb_false_iff. apply Qle_bool_iff.
Qed.

Lemma Qeq_bool_false (a b : Q) : Qeq_bool a b = false <-> ~ a == b.
Proof.
  split; intro H.
  - intro E. apply Qeq_bool_iff in E. congruence.
  - destruct (Qeq_bool a b) eqn:E; [|reflexivity].
    apply Qeq_bool_iff in E. contradiction.
Qed.

Lemma Qnat_pos (n : nat) : (0 < n)%nat -> 0 < Qnat n.
Proof.
  intro H. unfold Qnat, Qlt. simpl. lia.
Qed.

Lemma Qnat_nonzero (n : nat) : (0 < n)%nat -> Qeq_bool (Qnat n) 0 = false.
Proof.
  intro H. apply Qeq_bool_false. intro E.
  pose proof (Qnat_pos n H) as Hp. rewrite E in Hp. apply (Qlt_irrefl _ Hp).
Qed.

(** ** Lists *)

Lemma map2_length {A B C : Type} (f : A -> B -> C) (l1 : list A) (l2 : list B) :
  length (map2 f l1 l2) = Nat.min (length l1) (length l2).
Proof.
  revert l2. induction l1 as [|a l1 IH]; intros [|b l2]; simpl; auto.
Qed.

Lemma nth_map2 {A B C : Type} (f : A -> B -> C) (l1 : list A) (l2 : list B)
  (i : nat) (da : A) (db : B) (dc : C) :
  (i < length l1)%nat -> (i < length l2)%nat ->
  nth i (map2 f l1 l2) dc = f (nth i l1 da) (nth i l2 db).
Proof.
  revert l2 i. induction l1 as [|a l1 IH]; intros [|b l2] [|i]; simpl;
    intros H1 H2; try lia; auto.
  apply IH; lia.
Qed.

Lemma map2_map_same {A B C : Type} (f : A -> B -> C) (g : A -> B) (l : list A) :
  map2 f l (map g l) = map (fun x => f x (g x)) l.
Proof.
  induction l as [|a l IH]; simpl; congruence.
Qed.

Lemma map2_nsub_Fin (l1 l2 : list Q) :
  map2 nsub (map Fin l1) (map Fin l2) = map Fin (map2 Qminus l1 l2).
Proof.
  revert l2. induction l1 as [|a l1 IH]; intros [|b l2]; simpl; auto.
  rewrite IH. reflexivity.
Qed.

Lemma window_length {A : Type} (P i : nat) (xs : list A) :
  (i < length xs)%nat -> length (window P i xs) = Nat.min P (i + 1).
Proof.
  intro H. unfold window. rewrite length_skipn, length_firstn. lia.
Qed.

Lemma window_map {A B : Type} (f : A -> B) (P i : nat) (xs : list A) :
  window P i (map f xs) = map f (window P i xs).
Proof.
  unfold window. rewrite firstn_map, skipn_map. reflexivity.
Qed.

Lemma rolling_length {B : Type} (P : nat) (agg : list num -> B) (xs : list num) :
  length (rolling P agg xs) = length xs.
Proof.
  unfold rolling. rewrite length_map, length_seq. reflexivity.
Qed.

Lemma nth_rolling {B : Type} (P : nat) (agg : list num -> B) (xs : list num)
  (i : nat) (d : B) :
  (i < length xs)%nat -> nth i (rolling P agg xs) d = agg (window P i xs).
Proof.
  intro H. unfold rolling.
  rewrite (nth_indep _ d (agg (window P 0 xs)))
    by (rewrite length_map, length_seq; exact H).
  rewrite (map_nth (fun i => agg (window P i xs)) (seq 0 (length xs)) 0%nat i).
  rewrite seq_nth by exact H. reflexivity.
Qed.

(** ** Rolling mean of a finite-valued series *)

Lemma nsum_Fin (w : list Q) : nsum (map Fin w) = Fin (Qsum w).
Proof.
  unfold nsum, Qsum. induction w as [|a w IH]; simpl; [reflexivity|].
  rewrite IH. reflexivity.
Qed.

Lemma observations_Fin (w : list Q) : observations (map Fin w) = map Fin w.
Proof.
  unfold observations. induction w as [|a w IH]; simpl; [reflexivity|].
  rewrite IH. reflexivity.
Qed.

Lemma calc_mean_Fin (minp : nat) (w : list Q) :
  calc_mean minp (map Fin w) =
  if ((minp <=? length w)%nat && (0 <? length w)%nat)%bool
  then Fin (avgQ w) else NaN.
Proof.
  unfold calc_mean. rewrite observations_Fin, length_map, nsum_Fin.
  destruct (minp <=? length w)%nat; simpl; [|reflexivity].
  destruct (0 <? length w)%nat eqn:E; [|reflexivity].
  apply Nat.ltb_lt in E. rewrite (Qnat_nonzero _ E). reflexivity.
Qed.

Lemma rolling_mean_undefined (P i : nat) (qs : list Q) :
  (i < length qs)%nat -> (i + 1 < P \/ P = 0)%nat ->
  nth i (rolling_mean P (map Fin qs)) NaN = NaN.
Proof.
  intros Hi HP. unfold rolling_mean.
  rewrite nth_rolling by (rewrite length_map; exact Hi).
  rewrite window_map, calc_mean_Fin, window_length by exact Hi.
  destruct HP as [HP|HP].
  - replace (P <=? Nat.min P (i + 1))%nat with false; [reflexivity|].
    symmetry. apply Nat.leb_gt. lia.
  - subst P. simpl. reflexivity.
Qed.

Lemma rolling_mean_defined (P i : nat) (qs : list Q) :
  (i < length qs)%nat -> (0 < P)%nat -> (P <= i + 1)%nat ->
  nth i (rolling_mean P (map Fin qs)) NaN = Fin (avgQ (window P i qs)).
Proof.
  intros Hi H0 HP. unfold rolling_mean.
  rewrite nth_rolling by (rewrite length_map; exact Hi).
  rewrite window_map, calc_mean_Fin, window_length by exact Hi.
  replace (P <=? Nat.min P (i + 1))%nat with true
    by (symmetry; apply Nat.leb_le; lia).
  replace (0 <? Nat.min P (i + 1))%nat with true
    by (symmetry; apply Nat.ltb_lt; lia).
  reflexivity.
Qed.

(** ** RSI: gains and losses as rational series *)

Lemma nth_map_default {A B : Type} (f : A -> B) (l : list A) (i : nat)
  (d : A) (d' : B) :
  (i < length l)%nat -> nth i (map f l) d' = f (nth i l d).
Proof.
  intro H. rewrite (nth_indep _ d' (f d)) by (rewrite length_map; exact H).
  apply map_nth.
Qed.

Lemma Qdeltas_length (p : Q) (t : list Q) : length (Qdeltas (p :: t)) = length t.
Proof.
  unfold Qdeltas. simpl. rewrite map2_length. simpl. lia.
Qed.

Lemma gainsQ_length (prices : list Q) : length (gainsQ prices) = length prices.
Proof.
  destruct prices as [|p t]; [reflexivity|].
  unfold gainsQ. cbn [length]. rewrite length_map, Qdeltas_length. reflexivity.
Qed.

Lemma lossesQ_length (prices : list Q) : length (lossesQ prices) = length prices.
Proof.
  destruct prices as [|p t]; [reflexivity|].
  unfold lossesQ. cbn [length]. rewrite length_map, Qdeltas_length. reflexivity.
Qed.

Lemma rsi_delta_cons (p : Q) (t : list Q) :
  rsi_delta (p :: t) = NaN :: map Fin (Qdeltas (p :: t)).
Proof.
  unfold rsi_delta, diff, Qdeltas. cbn [map tl].
  change (Fin p :: map Fin t) with (map Fin (p :: t)).
  rewrite map2_nsub_Fin. reflexivity.
Qed.

Lemma rsi_gain_Fin (prices : list Q) (period : nat) :
  rsi_gain prices period = rolling_mean period (map Fin (gainsQ prices)).
Proof.
  unfold rsi_gain. f_equal. unfold where_. rewrite map2_map_same.
  destruct prices as [|p t]; [reflexivity|].
  rewrite rsi_delta_cons. unfold gainsQ. cbn [map]. f_equal.
  rewrite !map_map. apply map_ext. intro d.
  unfold num_gtb, num_ltb, gain_of. destruct (Qlt_bool 0 d); reflexivity.
Qed.

Lemma rsi_loss_Fin (prices : list Q) (period : nat) :
  rsi_loss prices period = rolling_mean period (map Fin (lossesQ prices)).
Proof.
  unfold rsi_loss. f_equal. unfold where_. rewrite map2_map_same.
  destruct prices as [|p t]; [reflexivity|].
  rewrite rsi_delta_cons. unfold lossesQ. cbn [map]. f_equal.
  rewrite !map_map. apply map_ext. intro d.
  unfold num_ltb, loss_of. destruct (Qlt_bool d 0); reflexivity.
Qed.

Lemma gain_of_nonneg (d : Q) : 0 <= gain_of d.
Proof.
  unfold gain_of. destruct (Qlt_bool 0 d) eqn:E.
  - apply Qlt_bool_iff in E. apply Qlt_le_weak. exact E.
  - apply Qle_refl.
Qed.

Lemma loss_of_nonneg (d : Q) : 0 <= loss_of d.
Proof.
  unfold loss_of. destruct (Qlt_bool d 0) eqn:E.
  - apply Qlt_bool_iff in E. lra.
  - lra.
Qed.

Lemma gainsQ_nonneg (prices : list Q) : Forall (fun g => 0 <= g) (gainsQ prices).
Proof.
  destruct prices as [|p t]; [constructor|].
  unfold gainsQ. constructor; [apply Qle_refl|].
  apply Forall_map. apply Forall_forall. intros d _. apply gain_of_nonneg.
Qed.

Lemma lossesQ_nonneg (prices : list Q) : Forall (fun l => 0 <= l) (lossesQ prices).
Proof.
  destruct prices as [|p t]; [constructor|].
  unfold lossesQ. constructor; [lra|].
  apply Forall_map. apply Forall_forall. intros d _. apply loss_of_nonneg.
Qed.

Lemma window_Forall {A : Type} (R : A -> Prop) (P i : nat) (xs : list A) :
  Forall R xs -> Forall R (window P i xs).
Proof.
  intro H. unfold window.
  rewrite <- (firstn_skipn (i + 1) xs) in H. apply Forall_app in H.
  destruct H as [H _].
  rewrite <- (firstn_skipn (i + 1 - P) (firstn (i + 1) xs)) in H.
  apply Forall_app in H. apply H.
Qed.

Lemma Qsum_nonneg (w : list Q) : Forall (fun x => 0 <= x) w -> 0 <= Qsum w.
Proof.
  induction 1 as [|x w Hx _ IH]; unfold Qsum; simpl; [apply Qle_refl|].
  unfold Qsum in IH. lra.
Qed.

Lemma Qsum_zero_iff (w : list Q) :
  Forall (fun x => 0 <= x) w -> (Qsum w == 0 <-> Forall (fun x => x == 0) w).
Proof.
  induction 1 as [|x w Hx Hw IH]; unfold Qsum; simpl.
  - split; [constructor | reflexivity].
  - pose proof (Qsum_nonneg w Hw) as Hs. unfold Qsum in *. split.
    + intro E. constructor; [lra|]. apply IH. lra.
    + intro F. inversion F as [|? ? F1 F2]; subst. apply IH in F2. lra.
Qed.

Lemma avgQ_nonneg (w : list Q) : Forall (fun x => 0 <= x) w -> 0 <= avgQ w.
Proof.
  intro H. unfold avgQ. destruct w as [|x w].
  - unfold Qsum, Qnat. simpl. unfold Qdiv. simpl. lra.
  - apply Qle_shift_div_l; [apply Qnat_pos; simpl; lia|].
    rewrite Qmult_0_l. apply Qsum_nonneg. exact H.
Qed.

Lemma avgQ_zero_iff (w : list Q) :
  w <> [] -> Forall (fun x => 0 <= x) w ->
  (avgQ w == 0 <-> Forall (fun x => x == 0) w).
Proof.
  intros Hne H. rewrite <- (Qsum_zero_iff w H). unfold avgQ.
  assert (Hp : 0 < Qnat (length w)).
  { apply Qnat_pos. destruct w; [congruence | simpl; lia]. }
  split; intro E.
  - assert (E' : Qsum w / Qnat (length w) * Qnat (length w) == 0)
      by (rewrite E; ring).
    rewrite Qmult_comm, Qmult_div_r in E'; [exact E' | lra].
  - rewrite E. unfold Qdiv. ring.
Qed.

(** ** RSI: the value computed from one pair of averages *)

Lemma rsi_of_rs_cases (g l : Q) :
  0 <= g -> 0 <= l ->
  (g == 0 /\ l == 0 /\ rsi_of_rs (ndiv (Fin g) (Fin l)) = NaN) \/
  (~ (g == 0 /\ l == 0) /\ in_0_100 (rsi_of_rs (ndiv (Fin g) (Fin l)))).
Proof.
  intros Hg Hl. unfold ndiv. destruct (Qeq_bool l 0) eqn:El.
  - apply Qeq_bool_iff in El. unfold scale_inf.
    destruct (g ?= 0) eqn:Eg.
    + apply Qeq_alt in Eg. left. auto.
    + apply Qlt_alt in Eg. lra.
    + apply Qgt_alt in Eg. right. split; [lra|].
      exists (100 + - 0). split; [reflexivity | lra].
  - apply Qeq_bool_false in El. right. split; [tauto|].
    assert (Hl' : 0 < l) by lra.
    assert (Hrs : 0 <= g / l).
    { apply Qle_shift_div_l; [exact Hl' | lra]. }
    assert (Hy : 0 < 1 + g / l) by lra.
    unfold rsi_of_rs, nadd, ndiv.
    replace (Qeq_bool (1 + g / l) 0) with false
      by (symmetry; apply Qeq_bool_false; lra).
    exists (100 + - (100 / (1 + g / l))). split; [reflexivity|].
    assert (H1 : 0 <= 100 / (1 + g / l)).
    { apply Qle_shift_div_l; [exact Hy | lra]. }
    assert (H2 : 100 / (1 + g / l) <= 100).
    { apply Qle_shift_div_r; [exact Hy | lra]. }
    lra.
Qed.

(** The RSI at a position in terms of the two rolling averages. *)
Lemma calculate_rsi_fallback_length (prices : list Q) (period : nat) :
  length (calculate_rsi_fallback prices period) = length prices.
Proof.
  unfold calculate_rsi_fallback. rewrite length_map, map2_length.
  rewrite rsi_gain_Fin, rsi_loss_Fin. unfold rolling_mean.
  rewrite !rolling_length, !length_map, gainsQ_length, lossesQ_length. lia.
Qed.

Lemma nth_calculate_rsi_fallback (prices : list Q) (period i : nat) :
  (i < length prices)%nat ->
  nth i (calculate_rsi_fallback prices period) NaN =
  rsi_of_rs (ndiv (nth i (rsi_gain prices period) NaN)
                  (nth i (rsi_loss prices period) NaN)).
Proof.
  intro Hi. unfold calculate_rsi_fallback.
  assert (Hg : length (rsi_gain prices period) = length prices).
  { rewrite rsi_gain_Fin. unfold rolling_mean.
    rewrite rolling_length, length_map. apply gainsQ_length. }
  assert (Hl : length (rsi_loss prices period) = length prices).
  { rewrite rsi_loss_Fin. unfold rolling_mean.
    rewrite rolling_length, length_map. apply lossesQ_length. }
  rewrite (nth_map_default rsi_of_rs _ i NaN NaN)
    by (rewrite map2_length; lia).
  f_equal. apply nth_map2; lia.
Qed.

Lemma rsi_early_undefined (prices : list Q) (period i : nat) :
  (i < length prices)%nat -> (i + 1 < period \/ period = 0)%nat ->
  nth i (calculate_rsi_fallback prices period) NaN = NaN.
Proof.
  intros Hi HP. rewrite nth_calculate_rsi_fallback by exact Hi.
  rewrite rsi_gain_Fin.
  rewrite rolling_mean_undefined; [reflexivity | | exact HP].
  rewrite gainsQ_length. exact Hi.
Qed.

Lemma rsi_at_defined_window (prices : list Q) (period i : nat) :
  (i < length prices)%nat -> (0 < period)%nat -> (period <= i + 1)%nat ->
  nth i (rsi_gain prices period) NaN =
    Fin (avgQ (window period i (gainsQ prices))) /\
  nth i (rsi_loss prices period) NaN =
    Fin (avgQ (window period i (lossesQ prices))).
Proof.
  intros Hi H0 HP. rewrite rsi_gain_Fin, rsi_loss_Fin.
  split; apply rolling_mean_defined; auto.
  - rewrite gainsQ_length. exact Hi.
  - rewrite lossesQ_length. exact Hi.
Qed.

Lemma rsi_value_cases (prices : list Q) (period i : nat) :
  (i < length prices)%nat ->
  nth i (calculate_rsi_fallback prices period) NaN = NaN \/
  in_0_100 (nth i (calculate_rsi_fallback prices period) NaN).
Proof.
  intro Hi.
  destruct (Nat.eq_dec period 0) as [E0|N0].
  { left. apply rsi_early_undefined; auto. }
  destruct (Nat.lt_ge_cases (i + 1) period) as [Hlt|Hge].
  { left. apply rsi_early_undefined; auto. }
  rewrite nth_calculate_rsi_fallback by exact Hi.
  destruct (rsi_at_defined_window prices period i Hi) as [Eg El]; [lia|lia|].
  rewrite Eg, El.
  destruct (rsi_of_rs_cases (avgQ (window period i (gainsQ prices)))
              (avgQ (window period i (lossesQ prices)))) as [[_ [_ H]]|[_ H]].
  - apply avgQ_nonneg, window_Forall, gainsQ_nonneg.
  - apply avgQ_nonneg, window_Forall, lossesQ_nonneg.
  - left. exact H.
  - right. exact H.
Qed.

(** ** RSI: when the first full window gives a value *)

Lemma firstn_Forall_nth {A : Type} (R : A -> Prop) (n : nat) (l : list A) (d : A) :
  (n <= length l)%nat ->
  (Forall R (firstn n l) <-> forall k, (k < n)%nat -> R (nth k l d)).
Proof.
  intro Hn. rewrite Forall_nth. rewrite length_firstn.
  replace (Nat.min n (length l)) with n by lia. split.
  - intros H k Hk. specialize (H k d Hk). rewrite nth_firstn in H.
    apply Nat.ltb_lt in Hk. rewrite Hk in H. exact H.
  - intros H k d' Hk. rewrite (nth_indep _ d' d)
      by (rewrite length_firstn; lia).
    rewrite nth_firstn. pose proof Hk as Hk'. apply Nat.ltb_lt in Hk'.
    rewrite Hk'. apply H. exact Hk.
Qed.

Lemma window_first (P : nat) {A : Type} (xs : list A) :
  (0 < P)%nat -> window P (P - 1) xs = firstn P xs.
Proof.
  intro H. unfold window.
  replace (P - 1 + 1 - P)%nat with 0%nat by lia.
  replace (P - 1 + 1)%nat with P by lia. reflexivity.
Qed.

Lemma nth_Qdeltas (prices : list Q) (j : nat) :
  (S j < length prices)%nat ->
  nth j (Qdeltas prices) 0 = nth (S j) prices 0 - nth j prices 0.
Proof.
  intro H. unfold Qdeltas. destruct prices as [|p t]; [simpl in H; lia|].
  simpl in H. cbn [tl].
  rewrite (nth_map2 Qminus t (p :: t) j 0 0 0) by (simpl; lia).
  reflexivity.
Qed.

Lemma nth_gainsQ_S (prices : list Q) (j : nat) :
  (S j < length prices)%nat ->
  nth (S j) (gainsQ prices) 0 = gain_of (nth (S j) prices 0 - nth j prices 0).
Proof.
  intro H. destruct prices as [|p t]; [simpl in H; lia|].
  unfold gainsQ. cbn [nth].
  rewrite (nth_map_default gain_of _ j 0 0)
    by (rewrite Qdeltas_length; simpl in H; lia).
  rewrite nth_Qdeltas by exact H. reflexivity.
Qed.

Lemma nth_lossesQ_S (prices : list Q) (j : nat) :
  (S j < length prices)%nat ->
  nth (S j) (lossesQ prices) 0 = loss_of (nth (S j) prices 0 - nth j prices 0).
Proof.
  intro H. destruct prices as [|p t]; [simpl in H; lia|].
  unfold lossesQ. cbn [nth].
  rewrite (nth_map_default loss_of _ j 0 0)
    by (rewrite Qdeltas_length; simpl in H; lia).
  rewrite nth_Qdeltas by exact H. reflexivity.
Qed.

Lemma nth_gainsQ_0 (prices : list Q) : nth 0 (gainsQ prices) 0 == 0.
Proof.
  destruct prices; simpl; reflexivity.
Qed.

Lemma nth_lossesQ_0 (prices : list Q) : nth 0 (lossesQ prices) 0 == 0.
Proof.
  destruct prices; simpl; [reflexivity | lra].
Qed.

Lemma gain_loss_zero_iff (d : Q) :
  (gain_of d == 0 /\ loss_of d == 0) <-> d == 0.
Proof.
  unfold gain_of, loss_of.
  destruct (Qlt_bool 0 d) eqn:E1; destruct (Qlt_bool d 0) eqn:E2;
    try apply Qlt_bool_iff in E1; try apply Qlt_bool_iff in E2;
    try apply Qlt_bool_false in E1; try apply Qlt_bool_false in E2;
    split; intros; try split; lra.
Qed.

(** Both averages of the first full window vanish exactly when the first
    [P] prices are all equal. *)
Lemma first_window_flat_iff (prices : list Q) (P : nat) :
  (0 < P)%nat -> (P <= length prices)%nat ->
  (avgQ (firstn P (gainsQ prices)) == 0 /\
   avgQ (firstn P (lossesQ prices)) == 0) <->
  (forall j, (S j < P)%nat -> nth (S j) prices 0 == nth j prices 0).
Proof.
  intros H0 HP.
  assert (Hg : (P <= length (gainsQ prices))%nat)
    by (rewrite gainsQ_length; exact HP).
  assert (Hl : (P <= length (lossesQ prices))%nat)
    by (rewrite lossesQ_length; exact HP).
  assert (Hgn : Forall (fun x => 0 <= x) (firstn P (gainsQ prices))).
  { rewrite <- (window_first P) by exact H0.
    apply window_Forall, gainsQ_nonneg. }
  assert (Hln : Forall (fun x => 0 <= x) (firstn P (lossesQ prices))).
  { rewrite <- (window_first P) by exact H0.
    apply window_Forall, lossesQ_nonneg. }
  assert (Hgne : firstn P (gainsQ prices) <> []).
  { intro E. apply (f_equal (@length Q)) in E.
    rewrite length_firstn in E. simpl in E. lia. }
  assert (Hlne : firstn P (lossesQ prices) <> []).
  { intro E. apply (f_equal (@length Q)) in E.
    rewrite length_firstn in E. simpl in E. lia. }
  rewrite (avgQ_zero_iff _ Hgne Hgn), (avgQ_zero_iff _ Hlne Hln).
  rewrite (firstn_Forall_nth _ P _ 0 Hg), (firstn_Forall_nth _ P _ 0 Hl).
  split.
  - intros [HG HL] j Hj.
    specialize (HG (S j) Hj). specialize (HL (S j) Hj).
    rewrite nth_gainsQ_S in HG by lia. rewrite nth_lossesQ_S in HL by lia.
    assert (E : nth (S j) prices 0 - nth j prices 0 == 0)
      by (apply gain_loss_zero_iff; split; assumption).
    lra.
  - intro H. split; intros [|k] Hk.
    + apply nth_gainsQ_0.
    + rewrite nth_gainsQ_S by lia.
      apply (gain_loss_zero_iff (nth (S k) prices 0 - nth k prices 0)).
      specialize (H k Hk). lra.
    + apply nth_lossesQ_0.
    + rewrite nth_lossesQ_S by lia.
      apply (gain_loss_zero_iff (nth (S k) prices 0 - nth k prices 0)).
      specialize (H k Hk). lra.
Qed.

Lemma bounded_all_or_some (R : nat -> Prop) (n : nat) :
  (forall j, {R j} + {~ R j}) ->
  (forall j, (j < n)%nat -> R j) \/ (exists j, (j < n)%nat /\ ~ R j).
Proof.
  intro dec. induction n as [|n IH].
  - left. intros j Hj. lia.
  - destruct IH as [All|[j [Hj Hn]]].
    + destruct (dec n) as [Rn|Nn].
      * left. intros j Hj. destruct (Nat.eq_dec j n) as [->|Ne]; [exact Rn|].
        apply All. lia.
      * right. exists n. split; [lia | exact Nn].
    + right. exists j. split; [lia | exact Hn].
Qed.

Lemma in_0_100_defined (v : num) : in_0_100 v -> is_defined v = true.
Proof.
  intros [q [-> _]]. reflexivity.
Qed.

Lemma rsi_first_window_defined_iff (prices : list Q) (P : nat) :
  (P <= length prices)%nat ->
  (is_defined (nth (P - 1) (calculate_rsi_fallback prices P) NaN) = true <->
   exists j, (S j < P)%nat /\ ~ nth (S j) prices 0 == nth j prices 0).
Proof.
  intro HP. destruct (Nat.eq_dec P 0) as [E0|N0].
  { subst P. simpl. split.
    - destruct prices as [|p t]; [simpl; discriminate|].
      rewrite (rsi_early_undefined (p :: t) 0 0); simpl; [discriminate|lia|lia].
    - intros [j [Hj _]]. lia. }
  assert (Hi : (P - 1 < length prices)%nat) by lia.
  rewrite nth_calculate_rsi_fallback by exact Hi.
  destruct (rsi_at_defined_window prices P (P - 1) Hi) as [Eg El]; [lia|lia|].
  rewrite Eg, El. rewrite !window_first by lia.
  pose proof (first_window_flat_iff prices P ltac:(lia) HP) as Hflat.
  destruct (rsi_of_rs_cases (avgQ (firstn P (gainsQ prices)))
              (avgQ (firstn P (lossesQ prices)))) as [[Zg [Zl H]]|[Hnz H]].
  - rewrite <- (window_first P) by lia.
    apply avgQ_nonneg, window_Forall, gainsQ_nonneg.
  - rewrite <- (window_first P) by lia.
    apply avgQ_nonneg, window_Forall, lossesQ_nonneg.
  - rewrite H. simpl. split; [discriminate|].
    intros [j [Hj Hne]]. exfalso. apply Hne.
    apply Hflat; [split; assumption | exact Hj].
  - rewrite (in_0_100_defined _ H). split; [|reflexivity]. intros _.
    destruct (bounded_all_or_some
                (fun j => (S j < P)%nat -> nth (S j) prices 0 == nth j prices 0)
                P) as [All|[j [Hj Hn]]].
    + intro j. destruct (lt_dec (S j) P) as [L|NL].
      * destruct (Qeq_dec (nth (S j) prices 0) (nth j prices 0)) as [E|Ne].
        -- left. intros _. exact E.
        -- right. intro HE. apply Ne. apply HE. exact L.
      * left. intro. contradiction.
    + exfalso. apply Hnz. apply Hflat. intros j Hj. apply All; lia.
    + exists j. destruct (lt_dec (S j) P) as [L|NL].
      * split; [exact L|]. intro E. apply Hn. intros _. exact E.
      * exfalso. apply Hn. intro. contradiction.
Qed.

(** ** Claims on the fallback RSI *)

(** C1 (as amended).  Fallback RSI with period P: every position before
    P-1 is undefined; when the series has at least P samples, position P-1 is
    defined exactly when the first P prices are not all equal (a flat first
    window gives 0/0); a series shorter than P is undefined everywhere.  On
    the 15-sample scenario series with P = 14, index 13 is defined and index
    12 is not. *)
Theorem rsi_undefined_prefix (prices : list Q) (P : nat) :
  (forall i, (i < length prices)%nat -> (i < P - 1)%nat ->
     nth i (calculate_rsi_fallback prices P) NaN = NaN) /\
  ((P <= length prices)%nat ->
     (is_defined (nth (P - 1) (calculate_rsi_fallback prices P) NaN) = true <->
      exists j, (S j < P)%nat /\ ~ nth (S j) prices 0 == nth j prices 0)) /\
  ((length prices < P)%nat ->
     Forall (fun v => v = NaN) (calculate_rsi_fallback prices P)) /\
  length (calculate_rsi_fallback prices P) = length prices /\
  (length scenario_series = 15%nat /\
   is_defined (nth 13 (calculate_rsi_fallback scenario_series 14) NaN) = true /\
   nth 12 (calculate_rsi_fallback scenario_series 14) NaN = NaN).
Proof.
  split; [|split; [|split; [|split]]].
  - intros i Hi HP. apply rsi_early_undefined; [exact Hi | lia].
  - apply rsi_first_window_defined_iff.
  - intro Hlen. apply Forall_nth. intros i d Hi.
    rewrite calculate_rsi_fallback_length in Hi.
    rewrite (nth_indep _ d NaN)
      by (rewrite calculate_rsi_fallback_length; exact Hi).
    apply rsi_early_undefined; [exact Hi | lia].
  - apply calculate_rsi_fallback_length.
  - vm_compute. auto.
Qed.

Lemma rsi_undefined_prefix_witness :
  nth 12 (calculate_rsi_fallback scenario_series 14) NaN = NaN /\
  is_defined (nth (14 - 1) (calculate_rsi_fallback scenario_series 14) NaN) = true.
Proof.
  destruct (rsi_undefined_prefix scenario_series 14) as [H1 [H2 _]].
  split.
  - apply H1; vm_compute; lia.
  - apply H2.
    + vm_compute. lia.
    + exists 0%nat. split; [lia|].
      vm_compute. intro H. discriminate H.
Defined.

(** Counterexample to C1 as stated: a flat series of 14 samples has no
    defined RSI at index 13 for period 14. *)
Lemma rsi_flat_series_undefined :
  (14 <= length flat_series)%nat /\
  is_defined (nth (14 - 1) (calculate_rsi_fallback flat_series 14) NaN) = false.
Proof.
  split; [vm_compute; lia | vm_compute; reflexivity].
Qed.

(** C2.  Every defined value of the fallback RSI lies in [0, 100]. *)
Theorem rsi_defined_values_bounded (prices : list Q) (period i : nat) :
  (i < length prices)%nat ->
  is_defined (nth i (calculate_rsi_fallback prices period) NaN) = true ->
  in_0_100 (nth i (calculate_rsi_fallback prices period) NaN).
Proof.
  intros Hi Hdef.
  destruct (rsi_value_cases prices period i Hi) as [E|H]; [|exact H].
  rewrite E in Hdef. discriminate Hdef.
Qed.

Lemma rsi_defined_values_bounded_witness :
  in_0_100 (nth 14 (calculate_rsi_fallback scenario_series 14) NaN).
Proof.
  apply (rsi_defined_values_bounded scenario_series 14 14).
  - vm_compute. lia.
  - vm_compute. reflexivity.
Defined.

(** C3.  Where the average loss of the window is exactly zero and the average
    gain is positive, the fallback RSI is the limiting value 100: the
    division yields an infinity, not an exception. *)
Theorem rsi_zero_loss_is_100 (prices : list Q) (period i : nat) (g l : Q) :
  (i < length prices)%nat ->
  nth i (rsi_gain prices period) NaN = Fin g ->
  nth i (rsi_loss prices period) NaN = Fin l ->
  l == 0 -> 0 < g ->
  ndiv (Fin g) (Fin l) = PInf /\
  num_eq (nth i (calculate_rsi_fallback prices period) NaN) (Fin 100).
Proof.
  intros Hi Eg El Zl Pg.
  rewrite nth_calculate_rsi_fallback by exact Hi. rewrite Eg, El.
  assert (E : ndiv (Fin g) (Fin l) = PInf).
  { unfold ndiv. apply Qeq_bool_iff in Zl. rewrite Zl. unfold scale_inf.
    apply Qgt_alt in Pg. rewrite Pg. reflexivity. }
  split; [exact E|]. rewrite E. simpl. lra.
Qed.

Lemma rsi_zero_loss_is_100_witness :
  num_eq (nth 1 (calculate_rsi_fallback [1; 2; 3] 2) NaN) (Fin 100).
Proof.
  apply (rsi_zero_loss_is_100 [1; 2; 3] 2 1 (1 # 2) (0 # 2)).
  - vm_compute. lia.
  - vm_compute. reflexivity.
  - vm_compute. reflexivity.
  - vm_compute. reflexivity.
  - vm_compute. reflexivity.
Defined.

(** ** MACD *)

Lemma ewm_mean_length (span : nat) (xs : list Q) :
  length (ewm_mean span xs) = length xs.
Proof.
  destruct xs as [|x0 rest]; [reflexivity|]. simpl. f_equal.
  generalize x0. induction rest as [|c rest IH]; intro w; simpl; auto.
Qed.

Lemma ewm_loop_step (alpha : Q) (rest : list Q) :
  forall (w0 : Q) (i : nat), (i < length rest)%nat ->
  nth (S i) (w0 :: ewm_loop alpha w0 rest) 0 =
  (1 - alpha) * nth i (w0 :: ewm_loop alpha w0 rest) 0 + alpha * nth i rest 0.
Proof.
  induction rest as [|cur rest IH]; intros w0 i Hi; [simpl in Hi; lia|].
  destruct i as [|i].
  - reflexivity.
  - simpl in Hi. cbn [ewm_loop].
    change (nth (S (S i)) (w0 :: ?l) 0) with (nth (S i) l 0).
    change (nth (S i) (w0 :: ?l) 0) with (nth i l 0).
    change (nth (S i) (cur :: rest) 0) with (nth i rest 0).
    apply IH. lia.
Qed.

Lemma nth_ewm_mean (span : nat) (xs : list Q) (i : nat) :
  (i < length xs)%nat -> nth i (ewm_mean span xs) 0 == ema_spec span xs i.
Proof.
  destruct xs as [|x0 rest]; [simpl; lia|]. intro Hi.
  induction i as [|i IH].
  - reflexivity.
  - simpl in Hi. unfold ewm_mean.
    rewrite ewm_loop_step by lia.
    cbn [ema_spec]. unfold ewm_mean in IH. rewrite IH by (simpl; lia).
    change (nth (S i) (x0 :: rest) 0) with (nth i rest 0).
    unfold alpha_of_span. ring.
Qed.

(** C7.  On a price series the fallback MACD agrees with the reference
    definition at every position: the span-12 and span-26 EMAs follow the
    recurrence from position 0, macd is their difference, signal is the
    span-9 EMA of the macd series and histogram is macd minus signal,
    exactly; all series have the length of the input. *)
Theorem macd_matches_reference (prices : list Q) (i : nat) :
  (i < length prices)%nat ->
  nth i (ewm_mean 12 prices) 0 == ema_spec 12 prices i /\
  nth i (ewm_mean 26 prices) 0 == ema_spec 26 prices i /\
  nth i (macd (calculate_macd_fallback prices)) 0
    == ema_spec 12 prices i - ema_spec 26 prices i /\
  nth i (signal (calculate_macd_fallback prices)) 0
    == ema_spec 9 (macd (calculate_macd_fallback prices)) i /\
  nth i (histogram (calculate_macd_fallback prices)) 0
    = nth i (macd (calculate_macd_fallback prices)) 0
      - nth i (signal (calculate_macd_fallback prices)) 0 /\
  length (macd (calculate_macd_fallback prices)) = length prices /\
  length (signal (calculate_macd_fallback prices)) = length prices /\
  length (histogram (calculate_macd_fallback prices)) = length prices.
Proof.
  intro Hi. unfold calculate_macd_fallback. cbn [macd signal histogram].
  assert (Lm : length (map2 Qminus (ewm_mean 12 prices) (ewm_mean 26 prices))
               = length prices).
  { rewrite map2_length, !ewm_mean_length. lia. }
  assert (Ls : length (ewm_mean 9
                 (map2 Qminus (ewm_mean 12 prices) (ewm_mean 26 prices)))
               = length prices).
  { rewrite ewm_mean_length. exact Lm. }
  split; [apply nth_ewm_mean; exact Hi|].
  split; [apply nth_ewm_mean; exact Hi|].
  split.
  { rewrite (nth_map2 Qminus _ _ i 0 0 0)
      by (rewrite ewm_mean_length; exact Hi).
    rewrite !nth_ewm_mean by exact Hi. reflexivity. }
  split; [apply nth_ewm_mean; rewrite Lm; exact Hi|].
  split.
  { apply (nth_map2 Qminus); [rewrite Lm | rewrite Ls]; exact Hi. }
  split; [exact Lm|]. split; [exact Ls|].
  rewrite map2_length, Lm, Ls. lia.
Qed.

Lemma macd_matches_reference_witness :
  nth 2 (histogram (calculate_macd_fallback [1; 2; 4])) 0
  = nth 2 (macd (calculate_macd_fallback [1; 2; 4])) 0
    - nth 2 (signal (calculate_macd_fallback [1; 2; 4])) 0.
Proof.
  apply (macd_matches_reference [1; 2; 4] 2). simpl. lia.
Defined.

(** ** Bollinger Bands *)

Lemma map_sq_dev_Fin (m : Q) (w : list Q) :
  map (fun x => nmul (nsub x (Fin m)) (nsub x (Fin m))) (map Fin w) =
  map Fin (map (fun x => (x + - m) * (x + - m)) w).
Proof.
  rewrite !map_map. apply map_ext. intro x. reflexivity.
Qed.

Lemma calc_var_Fin (minp : nat) (w : list Q) :
  calc_var minp (map Fin w) =
  if ((minp <=? length w)%nat && (1 <? length w)%nat)%bool
  then Fin (varQ w) else NaN.
Proof.
  unfold calc_var. cbv zeta. rewrite observations_Fin, length_map, nsum_Fin.
  destruct ((minp <=? length w)%nat && (1 <? length w)%nat)%bool eqn:E;
    [|reflexivity].
  apply andb_prop in E. destruct E as [_ E]. apply Nat.ltb_lt in E.
  assert (Em : ndiv (Fin (Qsum w)) (Fin (Qnat (length w))) = Fin (avgQ w)).
  { unfold ndiv. rewrite (Qnat_nonzero (length w)) by lia. reflexivity. }
  rewrite Em, map_sq_dev_Fin, nsum_Fin.
  unfold ndiv. rewrite (Qnat_nonzero (length w - 1)) by lia.
  reflexivity.
Qed.

Lemma Qsquare_nonneg (a : Q) : 0 <= a * a.
Proof.
  destruct a as [n d]. unfold Qle. simpl. rewrite Z.mul_1_r.
  apply Z.square_nonneg.
Qed.

Lemma varQ_nonneg (w : list Q) : (1 < length w)%nat -> 0 <= varQ w.
Proof.
  intro H. unfold varQ.
  apply Qle_shift_div_l; [apply Qnat_pos; lia|].
  rewrite Qmult_0_l. apply Qsum_nonneg.
  apply Forall_map. apply Forall_forall. intros x _.
  apply Qsquare_nonneg.
Qed.

(** The three rolling series at one position. *)
Lemma nth_rolling_std (sqrtQ : Q -> Q) (P i : nat) (qs : list Q) :
  (i < length qs)%nat ->
  nth i (rolling_std sqrtQ P (map Fin qs)) NaN =
  if ((P <=? i + 1)%nat && (1 <? P)%nat)%bool
  then Fin (sqrtQ (varQ (window P i qs))) else NaN.
Proof.
  intro Hi. unfold rolling_std.
  rewrite (nth_map_default (nsqrt sqrtQ) _ i NaN NaN)
    by (rewrite rolling_length, length_map; exact Hi).
  rewrite nth_rolling by (rewrite length_map; exact Hi).
  rewrite window_map, calc_var_Fin.
  pose proof (window_length P i qs Hi) as Hw. rewrite Hw.
  destruct (P <=? i + 1)%nat eqn:E1.
  - apply Nat.leb_le in E1.
    replace (Nat.min P (i + 1)) with P by lia.
    rewrite Nat.leb_refl. simpl.
    destruct (1 <? P)%nat eqn:E2; [|reflexivity].
    apply Nat.ltb_lt in E2. unfold nsqrt.
    replace (Qlt_bool (varQ (window P i qs)) 0) with false; [reflexivity|].
    symmetry. apply Qlt_bool_false. apply varQ_nonneg. lia.
  - apply Nat.leb_gt in E1.
    replace (P <=? Nat.min P (i + 1))%nat with false
      by (symmetry; apply Nat.leb_gt; lia).
    reflexivity.
Qed.

Lemma nth_rolling_mean (P i : nat) (qs : list Q) :
  (i < length qs)%nat ->
  nth i (rolling_mean P (map Fin qs)) NaN =
  if ((P <=? i + 1)%nat && (0 <? P)%nat)%bool
  then Fin (avgQ (window P i qs)) else NaN.
Proof.
  intro Hi. destruct (P <=? i + 1)%nat eqn:E1; simpl.
  - apply Nat.leb_le in E1. destruct (0 <? P)%nat eqn:E2.
    + apply Nat.ltb_lt in E2. apply rolling_mean_defined; assumption.
    + apply Nat.ltb_ge in E2. apply rolling_mean_undefined; [assumption|lia].
  - apply Nat.leb_gt in E1. apply rolling_mean_undefined; [assumption|lia].
Qed.

Lemma bollinger_at (sqrtQ : Q -> Q) (prices : list Q) (period : nat)
  (std_dev : Q) (i : nat) :
  (i < length prices)%nat ->
  let bb := calculate_bollinger_bands_fallback sqrtQ prices period std_dev in
  let sma := nth i (rolling_mean period (map Fin prices)) NaN in
  let std := nth i (rolling_std sqrtQ period (map Fin prices)) NaN in
  nth i (middle bb) NaN = sma /\
  nth i (upper bb) NaN = nadd sma (nmul std (Fin std_dev)) /\
  nth i (lower bb) NaN = nsub sma (nmul std (Fin std_dev)).
Proof.
  intro Hi. cbv zeta. unfold calculate_bollinger_bands_fallback.
  cbn [upper middle lower].
  assert (Lm : length (rolling_mean period (map Fin prices)) = length prices).
  { unfold rolling_mean. rewrite rolling_length, length_map. reflexivity. }
  assert (Ls : length (rolling_std sqrtQ period (map Fin prices))
               = length prices).
  { unfold rolling_std. rewrite length_map, rolling_length, length_map.
    reflexivity. }
  split; [reflexivity|]. split.
  - rewrite (nth_map2 nadd _ _ i NaN NaN NaN)
      by (rewrite ?length_map; lia).
    f_equal.
    apply (nth_map_default (fun s => nmul s (Fin std_dev))). lia.
  - rewrite (nth_map2 nsub _ _ i NaN NaN NaN)
      by (rewrite ?length_map; lia).
    f_equal.
    apply (nth_map_default (fun s => nmul s (Fin std_dev))). lia.
Qed.

(** C8 (as amended).  With a non-negative multiplier, wherever the upper
    band is defined all three bands are finite and
    [lower <= middle <= upper]; upper and lower are always undefined at the
    same positions, and for every period other than 1 these are also the
    undefined positions of the middle band.  With period 1 the middle band is
    defined at every position while upper and lower are undefined at every
    position. *)
Theorem bollinger_bands_ordered (sqrtQ : Q -> Q) (prices : list Q)
  (period : nat) (std_dev : Q) (i : nat) :
  (forall x, 0 <= x -> 0 <= sqrtQ x) ->
  0 <= std_dev ->
  (i < length prices)%nat ->
  let bb := calculate_bollinger_bands_fallback sqrtQ prices period std_dev in
  (is_defined (nth i (upper bb) NaN) = true ->
   exists u m l,
     nth i (upper bb) NaN = Fin u /\ nth i (middle bb) NaN = Fin m /\
     nth i (lower bb) NaN = Fin l /\ l <= m /\ m <= u) /\
  is_defined (nth i (upper bb) NaN) = is_defined (nth i (lower bb) NaN) /\
  (period <> 1%nat ->
   is_defined (nth i (upper bb) NaN) = is_defined (nth i (middle bb) NaN)) /\
  (period = 1%nat ->
   is_defined (nth i (middle bb) NaN) = true /\
   is_defined (nth i (upper bb) NaN) = false /\
   is_defined (nth i (lower bb) NaN) = false).
Proof.
  intros Hsqrt Hk Hi bb.
  destruct (bollinger_at sqrtQ prices period std_dev i Hi) as [Em [Eu El]].
  fold bb in Em, Eu, El. rewrite Em, Eu, El.
  rewrite nth_rolling_mean, nth_rolling_std by exact Hi.
  destruct (period <=? i + 1)%nat eqn:E1; simpl.
  - apply Nat.leb_le in E1.
    destruct (1 <? period)%nat eqn:E2.
    + apply Nat.ltb_lt in E2.
      replace (0 <? period)%nat with true by (symmetry; apply Nat.ltb_lt; lia).
      simpl. split; [|split; [reflexivity | split; [reflexivity|]]].
      * intros _.
        assert (Hs : 0 <= sqrtQ (varQ (window period i prices))).
        { apply Hsqrt. apply varQ_nonneg.
          rewrite window_length by exact Hi. lia. }
        do 3 eexists. split; [reflexivity|]. split; [reflexivity|].
        split; [reflexivity|].
        pose proof (Qmult_le_0_compat _ _ Hs Hk) as Hp.
        split; lra.
      * intro H1. lia.
    + apply Nat.ltb_ge in E2.
      destruct (0 <? period)%nat eqn:E3; simpl.
      * split; [discriminate|]. split; [reflexivity|]. split.
        -- apply Nat.ltb_lt in E3. intro Hne. lia.
        -- intros _. repeat split; reflexivity.
      * split; [discriminate|]. split; [reflexivity|].
        split; [reflexivity|].
        apply Nat.ltb_ge in E3. intro H1. lia.
  - split; [discriminate|]. split; [reflexivity|]. split; [reflexivity|].
    apply Nat.leb_gt in E1. intro H1. lia.
Qed.

Lemma sqrt_down_nonneg (x : Q) : 0 <= x -> 0 <= sqrt_down x.
Proof.
  intros _. unfold sqrt_down, Qle. cbn [Qnum Qden].
  rewrite Z.mul_0_l, Z.mul_1_r. apply Z.sqrt_nonneg.
Qed.

Lemma bollinger_bands_ordered_witness :
  exists u m l,
    nth 2 (upper (calculate_bollinger_bands_fallback sqrt_down [1; 2; 4] 2 2))
      NaN = Fin u /\
    nth 2 (middle (calculate_bollinger_bands_fallback sqrt_down [1; 2; 4] 2 2))
      NaN = Fin m /\
    nth 2 (lower (calculate_bollinger_bands_fallback sqrt_down [1; 2; 4] 2 2))
      NaN = Fin l /\ l <= m /\ m <= u.
Proof.
  apply (bollinger_bands_ordered sqrt_down [1; 2; 4] 2 2 2).
  - exact sqrt_down_nonneg.
  - vm_compute. intro H. discriminate H.
  - vm_compute. lia.
  - vm_compute. reflexivity.
Defined.

(** Counterexample to C8 as stated: with period 1 the middle band is defined
    at position 0 while the upper and lower bands are not. *)
Lemma bollinger_period_one_undefined_sets_differ :
  let bb := calculate_bollinger_bands_fallback sqrt_down [1; 2; 3] 1 2 in
  0 <= 2 /\
  is_defined (nth 0 (middle bb) NaN) = true /\
  is_defined (nth 0 (upper bb) NaN) = false /\
  is_defined (nth 0 (lower bb) NaN) = false.
Proof.
  vm_compute. repeat split; try reflexivity. intro H. discriminate H.
Qed.

(** ** Volume-spike ratio *)

Lemma iloc_last_nonempty {A : Type} (l : list A) (d : A) :
  l <> [] -> iloc_last l = Ret (last l d).
Proof.
  induction l as [|x l IH]; [congruence|]. intros _.
  destruct l as [|y l]; [reflexivity|].
  change (iloc_last (x :: y :: l)) with (iloc_last (y :: l)).
  change (last (x :: y :: l) d) with (last (y :: l) d).
  apply IH. discriminate.
Qed.

Lemma series_mean_nonempty (xs : list Q) :
  xs <> [] -> series_mean xs = Fin (avgQ xs).
Proof.
  destruct xs; [congruence | reflexivity].
Qed.

(** The ratio is always a finite number when the series is not empty. *)
Lemma volume_spike_ratio_finite (volumes : list Q) :
  volumes <> [] -> exists v, volume_spike_ratio volumes = Ret (Fin v).
Proof.
  intro Hne. unfold volume_spike_ratio.
  rewrite (iloc_last_nonempty volumes 0 Hne), (series_mean_nonempty _ Hne).
  cbn [bind]. unfold num_gtb, num_ltb.
  destruct (Qlt_bool 0 (avgQ volumes)) eqn:E; [|eexists; reflexivity].
  apply Qlt_bool_iff in E. unfold py_truediv, ndiv.
  replace (Qeq_bool (avgQ volumes) 0) with false
    by (symmetry; apply Qeq_bool_false; lra).
  eexists. reflexivity.
Qed.

(** C9.  For a non-empty volume series the volume-spike ratio is the latest
    volume divided by the mean when the mean is positive and exactly 0 when
    the mean is zero; no series makes the computation raise a division by
    zero. *)
Theorem volume_spike_ratio_guarded (volumes : list Q) :
  (volumes <> [] -> 0 < avgQ volumes ->
   volume_spike_ratio volumes = Ret (Fin (last volumes 0 / avgQ volumes))) /\
  (volumes <> [] -> avgQ volumes == 0 ->
   volume_spike_ratio volumes = Ret (Fin 0)) /\
  volume_spike_ratio volumes <> Raise ZeroDivisionError.
Proof.
  split; [|split].
  - intros Hne Hpos. unfold volume_spike_ratio.
    rewrite (iloc_last_nonempty volumes 0 Hne), (series_mean_nonempty _ Hne).
    cbn [bind]. unfold num_gtb, num_ltb.
    replace (Qlt_bool 0 (avgQ volumes)) with true
      by (symmetry; apply Qlt_bool_iff; exact Hpos).
    unfold py_truediv, ndiv.
    replace (Qeq_bool (avgQ volumes) 0) with false
      by (symmetry; apply Qeq_bool_false; lra).
    reflexivity.
  - intros Hne Hz. unfold volume_spike_ratio.
    rewrite (iloc_last_nonempty volumes 0 Hne), (series_mean_nonempty _ Hne).
    cbn [bind]. unfold num_gtb, num_ltb.
    replace (Qlt_bool 0 (avgQ volumes)) with false
      by (symmetry; apply Qlt_bool_false; lra).
    reflexivity.
  - destruct volumes as [|v vs]; [discriminate|].
    destruct (volume_spike_ratio_finite (v :: vs)) as [r Hr]; [discriminate|].
    rewrite Hr. discriminate.
Qed.

Lemma volume_spike_ratio_guarded_witness :
  volume_spike_ratio [10; 10; 40] = Ret (Fin (last [10; 10; 40] 0 / avgQ [10; 10; 40])) /\
  volume_spike_ratio [0; 0] = Ret (Fin 0).
Proof.
  split.
  - apply (volume_spike_ratio_guarded [10; 10; 40]).
    + discriminate.
    + vm_compute. reflexivity.
  - apply (volume_spike_ratio_guarded [0; 0]).
    + discriminate.
    + vm_compute. reflexivity.
Defined.

(** ** The stable descending sort *)

Lemma num_ltb_geb (x y : num) : num_ltb x y = true -> num_geb y x = true.
Proof.
  unfold num_geb. destruct x as [a| | |], y as [b| | |]; simpl; try congruence.
  intro H. apply Qlt_bool_iff in H. apply Qle_bool_iff. lra.
Qed.

Lemma num_ltb_false_geb (x y : num) :
  is_defined x = true -> is_defined y = true ->
  num_ltb x y = false -> num_geb x y = true.
Proof.
  unfold num_geb. destruct x as [a| | |], y as [b| | |]; simpl;
    intros D1 D2 H; try discriminate; try reflexivity.
  apply Qlt_bool_false in H. apply Qle_bool_iff. exact H.
Qed.

Lemma num_geb_trans (x y z : num) :
  num_geb x y = true -> num_geb y z = true -> num_geb x z = true.
Proof.
  unfold num_geb.
  destruct x as [a| | |], y as [b| | |], z as [c| | |]; simpl;
    try congruence.
  intros H1 H2. apply Qle_bool_iff in H1, H2. apply Qle_bool_iff. lra.
Qed.

Lemma num_ltb_not_eqb (x y s : num) :
  num_ltb x y = true -> num_eqb x s = true -> num_eqb y s = false.
Proof.
  destruct x as [a| | |], y as [b| | |], s as [c| | |]; simpl;
    try congruence.
  intros H1 H2. apply Qlt_bool_iff in H1. apply Qeq_bool_iff in H2.
  apply Qeq_bool_false. lra.
Qed.

Section SortDesc.

Context {A : Type}.
Variable key : A -> num.

Lemma insert_desc_perm (x : A) (l : list A) :
  Permutation (x :: l) (insert_desc key x l).
Proof.
  induction l as [|y l IH]; simpl; [apply Permutation_refl|].
  destruct (num_ltb (key x) (key y)).
  - apply perm_trans with (y :: x :: l); [apply perm_swap|].
    apply perm_skip. exact IH.
  - apply Permutation_refl.
Qed.

Lemma sort_desc_perm (l : list A) : Permutation l (sort_desc key l).
Proof.
  induction l as [|x l IH]; simpl; [apply perm_nil|].
  apply perm_trans with (x :: sort_desc key l).
  - apply perm_skip. exact IH.
  - apply insert_desc_perm.
Qed.

Lemma sort_desc_length (l : list A) : length (sort_desc key l) = length l.
Proof.
  symmetry. apply Permutation_length. apply sort_desc_perm.
Qed.

Lemma insert_desc_sorted (x : A) (l : list A) :
  defined_key key x -> Forall (defined_key key) l ->
  StronglySorted (key_ge key) l -> StronglySorted (key_ge key) (insert_desc key x l).
Proof.
  intros Hx Hl Hs. induction Hs as [|y l Hs IH Hy]; simpl.
  - constructor; constructor.
  - inversion Hl as [|? ? Fy Fl]; subst.
    destruct (num_ltb (key x) (key y)) eqn:E.
    + constructor; [apply IH; exact Fl|].
      apply Forall_forall. intros z Hz.
      apply (Permutation_in _ (Permutation_sym (insert_desc_perm x l))) in Hz.
      destruct Hz as [<-|Hz].
      * apply num_ltb_geb. exact E.
      * rewrite Forall_forall in Hy. apply Hy. exact Hz.
    + assert (Hxy : key_ge key x y).
      { unfold key_ge. apply num_ltb_false_geb; assumption. }
      constructor; [constructor; assumption|].
      constructor; [exact Hxy|].
      apply Forall_forall. intros z Hz. rewrite Forall_forall in Hy.
      apply (num_geb_trans _ (key y)); [exact Hxy | apply Hy; exact Hz].
Qed.

Lemma sort_desc_sorted (l : list A) :
  Forall (defined_key key) l -> StronglySorted (key_ge key) (sort_desc key l).
Proof.
  induction 1 as [|x l Hx Hl IH]; simpl; [constructor|].
  apply insert_desc_sorted; [exact Hx | | exact IH].
  apply Forall_forall. intros z Hz.
  apply (Permutation_in _ (Permutation_sym (sort_desc_perm l))) in Hz.
  rewrite Forall_forall in Hl. apply Hl. exact Hz.
Qed.

Lemma insert_desc_filter (s : num) (x : A) (l : list A) :
  filter (fun m => num_eqb (key m) s) (insert_desc key x l) =
  filter (fun m => num_eqb (key m) s) (x :: l).
Proof.
  induction l as [|y l IH]; [reflexivity|].
  cbn [insert_desc]. destruct (num_ltb (key x) (key y)) eqn:E; [|reflexivity].
  cbn [filter] in *. rewrite IH.
  destruct (num_eqb (key x) s) eqn:Ex; [|reflexivity].
  rewrite (num_ltb_not_eqb _ _ _ E Ex). reflexivity.
Qed.

(** Stability: the matches of any one score keep their relative order. *)
Lemma sort_desc_stable (s : num) (l : list A) :
  filter (fun m => num_eqb (key m) s) (sort_desc key l) =
  filter (fun m => num_eqb (key m) s) l.
Proof.
  induction l as [|x l IH]; [reflexivity|].
  cbn [sort_desc fold_right]. fold (sort_desc key l).
  rewrite insert_desc_filter. cbn [filter]. rewrite IH. reflexivity.
Qed.

End SortDesc.

Lemma StronglySorted_firstn {A : Type} (R : A -> A -> Prop) (n : nat) (l : list A) :
  StronglySorted R l -> StronglySorted R (firstn n l).
Proof.
  intro H. revert n. induction H as [|x l Hs IH Hx]; intros [|n]; simpl;
    try constructor.
  - apply IH.
  - rewrite <- (firstn_skipn n l) in Hx. apply Forall_app in Hx. apply Hx.
Qed.

(** ** The screener loop *)

Lemma check_criteria_true_inv (rsi_min rsi_max volume_spike : json)
  (latest_rsi vol_spike : num) :
  check_criteria rsi_min rsi_max volume_spike latest_rsi vol_spike = Ret true ->
  exists lo hi thr,
    as_float rsi_min = Some lo /\ as_float rsi_max = Some hi /\
    as_float volume_spike = Some thr /\
    num_leb lo latest_rsi = true /\
    num_leb latest_rsi hi = true /\
    num_geb vol_spike thr = true.
Proof.
  unfold check_criteria, json_le_num, num_le_json, num_ge_json.
  destruct (as_float rsi_min) as [lo|]; cbn [bind]; try discriminate.
  destruct (num_leb lo latest_rsi) eqn:E1; try discriminate.
  destruct (as_float rsi_max) as [hi|]; cbn [bind]; try discriminate.
  destruct (num_leb latest_rsi hi) eqn:E2; try discriminate.
  destruct (as_float volume_spike) as [thr|]; try discriminate.
  intro H. injection H as H. exists lo, hi, thr. auto 10.
Qed.

Lemma check_criteria_numeric (lo hi thr : Q) (latest_rsi vol_spike : num) :
  check_criteria (JNum lo) (JNum hi) (JNum thr) latest_rsi vol_spike =
  Ret (num_leb (Fin lo) latest_rsi && num_leb latest_rsi (Fin hi)
       && num_geb vol_spike (Fin thr))%bool.
Proof.
  unfold check_criteria, json_le_num, num_le_json, num_ge_json.
  cbn [as_float bind].
  destruct (num_leb (Fin lo) latest_rsi); [|reflexivity]. cbn [bind].
  destruct (num_leb latest_rsi (Fin hi)); reflexivity.
Qed.

Lemma between_finite (lo hi : Q) (x : num) :
  num_leb (Fin lo) x = true -> num_leb x (Fin hi) = true -> exists q, x = Fin q.
Proof.
  destruct x as [q| | |]; simpl; try discriminate. intros _ _. eauto.
Qed.

Lemma num_leb_defined_r (lo x : num) :
  num_leb lo x = true -> is_defined x = true.
Proof.
  destruct lo, x; simpl; intro H; try discriminate H; reflexivity.
Qed.

Lemma match_score_defined (r : num) (v : Q) :
  is_defined r = true -> is_defined (match_score r (Fin v)) = true.
Proof.
  destruct r; simpl; intro H; try discriminate H; reflexivity.
Qed.

Section ScreenerFacts.

Variable TALIB_AVAILABLE : bool.
Variable talib_RSI : list Q -> nat -> pyres (list num).
Variable history : string -> string -> pyres DataFrame.

Abbreviation screen := (screen_ticker TALIB_AVAILABLE talib_RSI history).
Abbreviation accepted := (accepted_matches TALIB_AVAILABLE talib_RSI history).
Abbreviation loop := (screener_loop TALIB_AVAILABLE talib_RSI history).
Abbreviation run := (run_screener TALIB_AVAILABLE talib_RSI history).
Abbreviation rsi_impl := (calculate_rsi TALIB_AVAILABLE talib_RSI).

Lemma screener_loop_accepted (a b c : json) (tickers : list string)
  (acc : list ScreenerMatch) :
  loop a b c tickers acc = acc ++ accepted a b c tickers.
Proof.
  revert acc. induction tickers as [|t rest IH]; intro acc.
  - simpl. rewrite app_nil_r. reflexivity.
  - cbn [screener_loop accepted_matches flat_map].
    fold (accepted a b c rest).
    destruct (screen a b c t) as [[m|]|e]; rewrite IH.
    + rewrite <- app_assoc. reflexivity.
    + reflexivity.
    + reflexivity.
Qed.

Lemma accepted_app (a b c : json) (l1 l2 : list string) :
  accepted a b c (l1 ++ l2) = accepted a b c l1 ++ accepted a b c l2.
Proof.
  unfold accepted_matches. apply flat_map_app.
Qed.

Lemma accepted_In (a b c : json) (tickers : list string) (m : ScreenerMatch) :
  In m (accepted a b c tickers) <->
  exists t, In t tickers /\ screen a b c t = Ret (Some m).
Proof.
  unfold accepted_matches. rewrite in_flat_map. split.
  - intros [t [Ht Hm]]. exists t. split; [exact Ht|].
    destruct (screen a b c t) as [[m'|]|e]; simpl in Hm; try contradiction.
    destruct Hm as [->|[]]. reflexivity.
  - intros [t [Ht Hm]]. exists t. split; [exact Ht|]. rewrite Hm. left.
    reflexivity.
Qed.

(** What the inner [try] body went through when it appended a match. *)
Lemma screen_ticker_Some_inv (a b c : json) (t : string) (m : ScreenerMatch) :
  screen a b c t = Ret (Some m) ->
  exists hist rsi_series latest_rsi vol_spike last_price,
    history (t ++ ".OL")%string "3mo"%string = Ret hist /\ hist <> [] /\
    rsi_impl (map Close hist) 14 = Ret rsi_series /\
    iloc_last rsi_series = Ret latest_rsi /\
    volume_spike_ratio (map Volume hist) = Ret vol_spike /\
    check_criteria a b c latest_rsi vol_spike = Ret true /\
    iloc_last (map Close hist) = Ret last_price /\
    m = mkMatch t last_price latest_rsi vol_spike
          (match_score latest_rsi vol_spike).
Proof.
  unfold screen_ticker.
  destruct (history (t ++ ".OL")%string "3mo"%string) as [hist|e] eqn:Eh;
    cbn [bind]; [|discriminate].
  destruct hist as [|b0 hist]; cbn [empty]; [discriminate|].
  destruct (rsi_impl (map Close (b0 :: hist)) 14) as [rs|e] eqn:Er;
    cbn [bind]; [|discriminate].
  destruct (iloc_last rs) as [latest|e] eqn:El; cbn [bind]; [|discriminate].
  destruct (volume_spike_ratio (map Volume (b0 :: hist))) as [vs|e] eqn:Ev;
    cbn [bind]; [|discriminate].
  destruct (check_criteria a b c latest vs) as [[|]|e] eqn:Ec;
    cbn [bind]; try discriminate.
  destruct (iloc_last (map Close (b0 :: hist))) as [lp|e] eqn:Ep;
    cbn [bind]; [|discriminate].
  intro H. injection H as H. subst m.
  exists (b0 :: hist), rs, latest, vs, lp.
  repeat split; auto. discriminate.
Qed.

(** The outcome of the inner [try] body on a ticker with data. *)
Lemma screen_ticker_with_data (a b c : json) (t : string) (hist : DataFrame)
  (rsi_series : list num) :
  history (t ++ ".OL")%string "3mo"%string = Ret hist -> hist <> [] ->
  rsi_impl (map Close hist) 14 = Ret rsi_series -> rsi_series <> [] ->
  exists v,
    volume_spike_ratio (map Volume hist) = Ret (Fin v) /\
    screen a b c t =
    (pass <- check_criteria a b c (last rsi_series NaN) (Fin v) ;;
     if pass then
       Ret (Some (mkMatch t (last (map Close hist) 0) (last rsi_series NaN)
                    (Fin v) (match_score (last rsi_series NaN) (Fin v))))
     else Ret None).
Proof.
  intros Eh Hne Er Hrne.
  destruct (volume_spike_ratio_finite (map Volume hist)) as [v Hv].
  { destruct hist; [congruence | discriminate]. }
  exists v. split; [exact Hv|].
  unfold screen_ticker. rewrite Eh. cbn [bind].
  destruct hist as [|b0 hist]; [congruence|]. cbn [empty].
  rewrite Er. cbn [bind].
  rewrite (iloc_last_nonempty rsi_series NaN Hrne). cbn [bind].
  rewrite Hv. cbn [bind].
  destruct (check_criteria a b c (last rsi_series NaN) (Fin v)) as [[|]|e];
    cbn [bind]; try reflexivity.
  rewrite (iloc_last_nonempty (map Close (b0 :: hist)) 0) by discriminate.
  reflexivity.
Qed.

Lemma accepted_ticker (a b c : json) (t : string) (m : ScreenerMatch) :
  screen a b c t = Ret (Some m) -> ticker m = t.
Proof.
  intro H. apply screen_ticker_Some_inv in H.
  destruct H as (hist & rs & lr & vs & lp & _ & _ & _ & _ & _ & _ & _ & ->).
  reflexivity.
Qed.

Lemma accepted_tickers_in_order (a b c : json) (tickers : list string) :
  map ticker (accepted a b c tickers)
  = filter (matched TALIB_AVAILABLE talib_RSI history a b c) tickers.
Proof.
  induction tickers as [|t rest IH]; [reflexivity|].
  cbn [accepted_matches flat_map filter]. fold (accepted a b c rest).
  unfold matched at 1.
  destruct (screen a b c t) as [[m|]|e] eqn:E; cbn [app map]; try exact IH.
  rewrite (accepted_ticker a b c t m E), IH. reflexivity.
Qed.

Lemma accepted_score_defined (a b c : json) (t : string) (m : ScreenerMatch) :
  screen a b c t = Ret (Some m) -> is_defined (score m) = true.
Proof.
  intro H. apply screen_ticker_Some_inv in H.
  destruct H as (hist & rs & lr & vs & lp & Eh & Hne & _ & _ & Ev & Ec & _ & ->).
  apply check_criteria_true_inv in Ec.
  destruct Ec as (lo & hi & thr & _ & _ & _ & L1 & _ & _).
  destruct (volume_spike_ratio_finite (map Volume hist)) as [v Hv].
  { destruct hist; [congruence | discriminate]. }
  rewrite Hv in Ev. injection Ev as <-.
  cbn [score]. apply match_score_defined.
  apply (num_leb_defined_r lo). exact L1.
Qed.

Lemma accepted_scores_defined (a b c : json) (tickers : list string) :
  Forall (defined_key score) (accepted a b c tickers).
Proof.
  apply Forall_forall. intros m Hm. apply accepted_In in Hm.
  destruct Hm as [t [_ Hm]]. apply (accepted_score_defined a b c t). exact Hm.
Qed.

Lemma run_screener_results (tickers : list string) (criteria : Criteria) :
  let a := dict_get (crit_rsi_min criteria) 30 in
  let b := dict_get (crit_rsi_max criteria) 70 in
  let c := dict_get (crit_volume_spike criteria) 1.5 in
  results (run tickers criteria)
    = firstn 10 (sort_desc score (accepted a b c tickers)) /\
  total_scanned (run tickers criteria) = length tickers /\
  matches (run tickers criteria) = length (accepted a b c tickers).
Proof.
  cbv zeta. unfold run_screener. cbn [results total_scanned matches].
  rewrite screener_loop_accepted. cbn [app].
  rewrite sort_desc_length. auto.
Qed.

Lemma results_In_accepted (tickers : list string) (criteria : Criteria)
  (m : ScreenerMatch) :
  In m (results (run tickers criteria)) ->
  In m (accepted (dict_get (crit_rsi_min criteria) 30)
          (dict_get (crit_rsi_max criteria) 70)
          (dict_get (crit_volume_spike criteria) 1.5) tickers).
Proof.
  destruct (run_screener_results tickers criteria) as [E _]. rewrite E.
  intro H.
  assert (H' : In m (sort_desc score
                       (accepted (dict_get (crit_rsi_min criteria) 30)
                          (dict_get (crit_rsi_max criteria) 70)
                          (dict_get (crit_volume_spike criteria) 1.5) tickers))).
  { rewrite <- (firstn_skipn 10). apply in_or_app. left. exact H. }
  apply (Permutation_in _ (Permutation_sym (sort_desc_perm score _))) in H'.
  exact H'.
Qed.

End ScreenerFacts.

(** ** Claims on the screener *)

(** C4.  A ticker whose history is retrieved and not empty is appended as a
    match exactly when [rsi_min <= latest RSI <= rsi_max] and its
    volume-spike ratio reaches the threshold, and the match then carries the
    score [(100 - |50 - rsi|) + volume_spike * 10].  In the two-ticker
    scenario only A is matched, with RSI 45, ratio 2 and score 115, and
    [total_scanned] is 2. *)
Theorem screener_admission :
  (forall (TALIB_AVAILABLE : bool) (talib_RSI : list Q -> nat -> pyres (list num))
          (history : string -> string -> pyres DataFrame)
          (lo hi thr : Q) (t : string) (hist : DataFrame)
          (rsi_series : list num),
     history (t ++ ".OL")%string "3mo"%string = Ret hist -> hist <> [] ->
     calculate_rsi TALIB_AVAILABLE talib_RSI (map Close hist) 14
       = Ret rsi_series ->
     rsi_series <> [] ->
     exists v,
       volume_spike_ratio (map Volume hist) = Ret (Fin v) /\
       let latest_rsi := last rsi_series NaN in
       let cond := (num_leb (Fin lo) latest_rsi && num_leb latest_rsi (Fin hi)
                    && num_geb (Fin v) (Fin thr))%bool in
       (cond = true ->
        screen_ticker TALIB_AVAILABLE talib_RSI history
          (JNum lo) (JNum hi) (JNum thr) t =
        Ret (Some (mkMatch t (last (map Close hist) 0) latest_rsi (Fin v)
                     (nadd (nsub (Fin 100) (nabs (nsub (Fin 50) latest_rsi)))
                           (nmul (Fin v) (Fin 10)))))) /\
       (cond = false ->
        screen_ticker TALIB_AVAILABLE talib_RSI history
          (JNum lo) (JNum hi) (JNum thr) t = Ret None) /\
       (forall tickers, In t tickers ->
        ((exists m,
            In m (accepted_matches TALIB_AVAILABLE talib_RSI history
                    (JNum lo) (JNum hi) (JNum thr) tickers) /\
            ticker m = t) <-> cond = true))) /\
  (let r := run_screener false no_talib scenario_history
              ["A"; "B"]%string scenario_criteria in
   (exists m, results r = [m] /\ ticker m = "A"%string /\
              num_eq (rsi m) (Fin 45) /\ num_eq (volume_spike m) (Fin 2) /\
              num_eq (score m) (Fin 115)) /\
   total_scanned r = 2%nat /\ matches r = 1%nat /\
   num_eq (last (calculate_rsi_fallback (map Close scenario_hist_B) 14) NaN)
          (Fin 80)).
Proof.
  split.
  - intros TA talib history lo hi thr t hist rs Eh Hne Er Hrne.
    destruct (screen_ticker_with_data TA talib history
                (JNum lo) (JNum hi) (JNum thr) t hist rs Eh Hne Er Hrne)
      as [v [Hv Hs]].
    exists v. split; [exact Hv|]. cbv zeta.
    rewrite check_criteria_numeric in Hs. cbn [bind] in Hs.
    split; [|split].
    + intro Hc. rewrite Hs, Hc. reflexivity.
    + intro Hc. rewrite Hs, Hc. reflexivity.
    + intros tickers Ht. split.
      * intros [m [Hm Tm]]. apply accepted_In in Hm.
        destruct Hm as [t' [_ Hm]].
        pose proof (accepted_ticker _ _ _ _ _ _ _ _ Hm) as Tm'.
        assert (Et : t' = t) by congruence.
        rewrite Et, Hs in Hm.
        destruct (num_leb (Fin lo) (last rs NaN) && num_leb (last rs NaN) (Fin hi)
                  && num_geb (Fin v) (Fin thr))%bool;
          [reflexivity | discriminate].
      * intro Hc. eexists. split.
        -- apply accepted_In. exists t. split; [exact Ht|].
           rewrite Hs, Hc. reflexivity.
        -- reflexivity.
  - vm_compute. split; [|auto].
    eexists. split; [reflexivity|]. auto.
Qed.

Lemma screener_admission_witness :
  exists m,
    In m (accepted_matches false no_talib scenario_history
            (JNum 30) (JNum 70) (JNum 1.5) ["A"; "B"]%string) /\
    ticker m = "A"%string.
Proof.
  destruct (proj1 screener_admission false no_talib scenario_history
              30 70 1.5 "A"%string scenario_hist_A
              (calculate_rsi_fallback (map Close scenario_hist_A) 14))
    as [v [Hv [_ [_ H]]]].
  - vm_compute. reflexivity.
  - vm_compute. intro H. discriminate H.
  - vm_compute. reflexivity.
  - vm_compute. intro H. discriminate H.
  - apply (H ["A"; "B"]%string).
    + simpl. left. reflexivity.
    + vm_compute in Hv. injection Hv as <-. vm_compute. reflexivity.
Defined.

(** C5.  The returned list has at most 10 entries and at most as many as
    there are matches; it is the first 10 of the matches sorted by score in
    descending order, matches of equal score keeping the order of the input
    tickers; [total_scanned] is the number of input tickers and [matches]
    the number of matches before truncation.  The matches are those input
    tickers that pass, in input order. *)
Theorem screener_report_shape (TALIB_AVAILABLE : bool)
  (talib_RSI : list Q -> nat -> pyres (list num))
  (history : string -> string -> pyres DataFrame)
  (tickers : list string) (criteria : Criteria) :
  let found :=
    accepted_matches TALIB_AVAILABLE talib_RSI history
      (dict_get (crit_rsi_min criteria) 30)
      (dict_get (crit_rsi_max criteria) 70)
      (dict_get (crit_volume_spike criteria) 1.5) tickers in
  let report := run_screener TALIB_AVAILABLE talib_RSI history tickers criteria in
  (length (results report) <= 10)%nat /\
  (length (results report) <= length found)%nat /\
  StronglySorted score_ge (results report) /\
  (exists full,
     results report = firstn 10 full /\
     Permutation found full /\
     StronglySorted score_ge full /\
     forall s, filter (fun m => num_eqb (score m) s) full
               = filter (fun m => num_eqb (score m) s) found) /\
  map ticker found
    = filter (matched TALIB_AVAILABLE talib_RSI history
                (dict_get (crit_rsi_min criteria) 30)
                (dict_get (crit_rsi_max criteria) 70)
                (dict_get (crit_volume_spike criteria) 1.5)) tickers /\
  total_scanned report = length tickers /\
  matches report = length found.
Proof.
  cbv zeta.
  destruct (run_screener_results TALIB_AVAILABLE talib_RSI history
              tickers criteria) as [Er [Et Em]].
  cbv zeta in Er, Et, Em. rewrite Er, Et, Em.
  pose proof (accepted_scores_defined TALIB_AVAILABLE talib_RSI history
                (dict_get (crit_rsi_min criteria) 30)
                (dict_get (crit_rsi_max criteria) 70)
                (dict_get (crit_volume_spike criteria) 1.5) tickers) as Hfin.
  pose proof (sort_desc_sorted score _ Hfin) as Hsorted.
  split; [rewrite length_firstn; lia|].
  split; [rewrite length_firstn, sort_desc_length; lia|].
  split; [apply StronglySorted_firstn; exact Hsorted|].
  split; [|split; [apply accepted_tickers_in_order | split; reflexivity]].
  eexists. split; [reflexivity|].
  split; [apply sort_desc_perm|].
  split; [exact Hsorted|].
  intro s. apply sort_desc_stable.
Qed.

(** ** Undefined RSI in the screener *)

Lemma short_series_undefined (prices : list Q) (P : nat) :
  (forall i, (i < length prices)%nat -> (i < P - 1)%nat ->
     nth i (calculate_rsi_fallback prices P) NaN = NaN) /\
  ((length prices < P)%nat ->
     Forall (fun v => v = NaN) (calculate_rsi_fallback prices P)).
Proof.
  split.
  - intros i Hi HP. apply rsi_early_undefined; [exact Hi | lia].
  - intro Hlen. apply Forall_nth. intros i d Hi.
    rewrite calculate_rsi_fallback_length in Hi.
    rewrite (nth_indep _ d NaN)
      by (rewrite calculate_rsi_fallback_length; exact Hi).
    apply rsi_early_undefined; [exact Hi | lia].
Qed.

Lemma last_all_NaN (l : list num) :
  Forall (fun v => v = NaN) l -> last l NaN = NaN.
Proof.
  induction 1 as [|x l Hx Hl IH]; [reflexivity|].
  destruct l as [|y l]; [exact Hx|].
  change (last (x :: y :: l) NaN) with (last (y :: l) NaN). exact IH.
Qed.

(** C10.  On the fallback path, a ticker with data whose latest RSI is
    undefined (as it is whenever fewer than 14 samples were retrieved) is
    passed over without an exception when [rsi_min] is a number, is never
    among the results whatever the criteria, and is counted in
    [total_scanned]. *)
Theorem undefined_rsi_never_matches
  (talib_RSI : list Q -> nat -> pyres (list num))
  (history : string -> string -> pyres DataFrame)
  (t : string) (hist : DataFrame) :
  history (t ++ ".OL")%string "3mo"%string = Ret hist -> hist <> [] ->
  ((length hist < 14)%nat ->
   last (calculate_rsi_fallback (map Close hist) 14) NaN = NaN) /\
  (last (calculate_rsi_fallback (map Close hist) 14) NaN = NaN ->
   (forall (lo : Q) (rsi_max volume_spike : json),
      screen_ticker false talib_RSI history (JNum lo) rsi_max volume_spike t
      = Ret None) /\
   (forall (tickers : list string) (criteria : Criteria),
      (forall m,
         In m (results (run_screener false talib_RSI history tickers criteria))
         -> ticker m <> t) /\
      total_scanned (run_screener false talib_RSI history tickers criteria)
      = length tickers)).
Proof.
  intros Eh Hne. split.
  - intro Hlen. apply last_all_NaN.
    destruct (short_series_undefined (map Close hist) 14) as [_ H].
    apply H. rewrite length_map. exact Hlen.
  - intro Hnan.
    assert (Hrne : calculate_rsi_fallback (map Close hist) 14 <> []).
    { intro E. apply (f_equal (@length num)) in E.
      rewrite calculate_rsi_fallback_length, length_map in E.
      destruct hist; [congruence | discriminate E]. }
    split.
    + intros lo b c.
      destruct (screen_ticker_with_data false talib_RSI history
                  (JNum lo) b c t hist
                  (calculate_rsi_fallback (map Close hist) 14)
                  Eh Hne eq_refl Hrne) as [v [_ Hs]].
      rewrite Hs, Hnan. reflexivity.
    + intros tickers criteria. split.
      * intros m Hm Tm. apply results_In_accepted in Hm.
        apply accepted_In in Hm. destruct Hm as [t' [_ Hm]].
        pose proof (accepted_ticker _ _ _ _ _ _ _ _ Hm) as Tm'.
        assert (Et : t' = t) by congruence. rewrite Et in Hm.
        apply screen_ticker_Some_inv in Hm.
        destruct Hm as (h & rs & lr & vs & lp & Eh' & _ & Er & El & _ & Ec & _).
        rewrite Eh in Eh'. injection Eh' as <-.
        unfold calculate_rsi in Er. injection Er as <-.
        rewrite (iloc_last_nonempty _ NaN Hrne), Hnan in El.
        injection El as <-.
        apply check_criteria_true_inv in Ec.
        destruct Ec as (lo & hi & thr & _ & _ & _ & L1 & _).
        destruct lo; simpl in L1; discriminate L1.
      * apply run_screener_results.
Qed.

Lemma undefined_rsi_never_matches_witness :
  screen_ticker false no_talib short_history (JNum 30) (JNum 70) (JNum 1.5)
    "S"%string = Ret None /\
  total_scanned (run_screener false no_talib short_history
                   ["A"; "S"]%string scenario_criteria) = 2%nat.
Proof.
  destruct (undefined_rsi_never_matches no_talib short_history "S"%string
              short_hist) as [H1 H2].
  - vm_compute. reflexivity.
  - vm_compute. intro H. discriminate H.
  - assert (Hnan : last (calculate_rsi_fallback (map Close short_hist) 14) NaN
                   = NaN) by (apply H1; vm_compute; lia).
    destruct (H2 Hnan) as [Hs Hr]. split.
    + apply Hs.
    + apply (Hr ["A"; "S"]%string scenario_criteria).
Defined.

(** * Further properties of the indicator functions *)

(** ** No look-ahead: a value depends only on the samples up to its position *)

Lemma nth_window {A : Type} (P i k : nat) (xs : list A) (d : A) :
  (i < length xs)%nat -> (k < Nat.min P (i + 1))%nat ->
  nth k (window P i xs) d = nth (i + 1 - P + k) xs d.
Proof.
  intros Hi Hk. unfold window. rewrite nth_skipn, nth_firstn.
  replace (i + 1 - P + k <? i + 1)%nat with true
    by (symmetry; apply Nat.ltb_lt; lia).
  reflexivity.
Qed.

Lemma window_ext {A : Type} (P i : nat) (xs ys : list A) (d : A) :
  (i < length xs)%nat -> (i < length ys)%nat ->
  (forall k, (k <= i)%nat -> nth k xs d = nth k ys d) ->
  window P i xs = window P i ys.
Proof.
  intros Hx Hy H. apply (nth_ext _ _ d d).
  - rewrite !window_length by assumption. reflexivity.
  - intros k Hk. rewrite window_length in Hk by assumption.
    rewrite !nth_window by assumption. apply H. lia.
Qed.

Lemma nth_gainsQ_app (prices more : list Q) (k : nat) :
  (k < length prices)%nat ->
  nth k (gainsQ (prices ++ more)) 0 = nth k (gainsQ prices) 0.
Proof.
  intro Hk. destruct k as [|j].
  - destruct prices; [simpl in Hk; lia | reflexivity].
  - rewrite !nth_gainsQ_S by (rewrite ?length_app; lia).
    rewrite !app_nth1 by lia. reflexivity.
Qed.

Lemma nth_lossesQ_app (prices more : list Q) (k : nat) :
  (k < length prices)%nat ->
  nth k (lossesQ (prices ++ more)) 0 = nth k (lossesQ prices) 0.
Proof.
  intro Hk. destruct k as [|j].
  - destruct prices; [simpl in Hk; lia | reflexivity].
  - rewrite !nth_lossesQ_S by (rewrite ?length_app; lia).
    rewrite !app_nth1 by lia. reflexivity.
Qed.

Lemma firstn_by_nth {A : Type} (n : nat) (long short : list A) (d : A) :
  length short = n -> (n <= length long)%nat ->
  (forall i, (i < n)%nat -> nth i long d = nth i short d) ->
  firstn n long = short.
Proof.
  intros Hs Hl H. apply (nth_ext _ _ d d).
  - rewrite length_firstn. lia.
  - intros i Hi. rewrite length_firstn in Hi. rewrite nth_firstn.
    replace (i <? n)%nat with true by (symmetry; apply Nat.ltb_lt; lia).
    apply H. lia.
Qed.

(** X1.  Appending later prices never changes an RSI value already
    computed: the RSI of the extended series, cut to the old length, is the
    RSI of the old series. *)
Theorem rsi_no_lookahead (prices more : list Q) (period : nat) :
  firstn (length prices) (calculate_rsi_fallback (prices ++ more) period)
  = calculate_rsi_fallback prices period.
Proof.
  apply (firstn_by_nth _ _ _ NaN).
  - apply calculate_rsi_fallback_length.
  - rewrite calculate_rsi_fallback_length, length_app. lia.
  - intros i Hi.
    rewrite !nth_calculate_rsi_fallback by (rewrite ?length_app; lia).
    rewrite !rsi_gain_Fin, !rsi_loss_Fin.
    rewrite !nth_rolling_mean
      by (rewrite ?gainsQ_length, ?lossesQ_length, ?length_app; lia).
    rewrite (window_ext period i (gainsQ (prices ++ more)) (gainsQ prices) 0);
      [ | rewrite gainsQ_length, length_app; lia
        | rewrite gainsQ_length; lia
        | intros k Hk; apply nth_gainsQ_app; lia ].
    rewrite (window_ext period i (lossesQ (prices ++ more)) (lossesQ prices) 0);
      [ | rewrite lossesQ_length, length_app; lia
        | rewrite lossesQ_length; lia
        | intros k Hk; apply nth_lossesQ_app; lia ].
    reflexivity.
Qed.

(** X2.  Appending later prices never changes a Bollinger value already
    computed, on any of the three bands. *)
Theorem bollinger_no_lookahead (sqrtQ : Q -> Q) (prices more : list Q)
  (period : nat) (std_dev : Q) :
  let old := calculate_bollinger_bands_fallback sqrtQ prices period std_dev in
  let new := calculate_bollinger_bands_fallback sqrtQ (prices ++ more)
               period std_dev in
  firstn (length prices) (upper new) = upper old /\
  firstn (length prices) (middle new) = middle old /\
  firstn (length prices) (lower new) = lower old.
Proof.
  cbv zeta.
  assert (Hlen : forall ps,
            length (upper (calculate_bollinger_bands_fallback sqrtQ ps
                             period std_dev)) = length ps /\
            length (middle (calculate_bollinger_bands_fallback sqrtQ ps
                              period std_dev)) = length ps /\
            length (lower (calculate_bollinger_bands_fallback sqrtQ ps
                             period std_dev)) = length ps).
  { intro ps. unfold calculate_bollinger_bands_fallback.
    cbn [upper middle lower]. unfold rolling_std, rolling_mean.
    rewrite !map2_length, !length_map, !rolling_length, !length_map.
    repeat split; lia. }
  assert (Hw : forall i, (i < length prices)%nat ->
            window period i (prices ++ more) = window period i prices).
  { intros i Hi. apply (window_ext _ _ _ _ 0);
      [rewrite length_app; lia | lia |].
    intros k Hk. apply app_nth1. lia. }
  assert (Hat : forall i, (i < length prices)%nat ->
            nth i (rolling_mean period (map Fin (prices ++ more))) NaN
            = nth i (rolling_mean period (map Fin prices)) NaN /\
            nth i (rolling_std sqrtQ period (map Fin (prices ++ more))) NaN
            = nth i (rolling_std sqrtQ period (map Fin prices)) NaN).
  { intros i Hi.
    rewrite !nth_rolling_mean, !nth_rolling_std
      by (rewrite ?length_app; lia).
    rewrite (Hw i Hi). split; reflexivity. }
  destruct (Hlen prices) as [Lu [Lm Ll]].
  destruct (Hlen (prices ++ more)) as [Lu' [Lm' Ll']].
  rewrite length_app in Lu', Lm', Ll'.
  split; [|split]; apply (firstn_by_nth _ _ _ NaN); try assumption; try lia;
    intros i Hi;
    destruct (bollinger_at sqrtQ prices period std_dev i Hi) as [Em [Eu El]];
    destruct (bollinger_at sqrtQ (prices ++ more) period std_dev i)
      as [Em' [Eu' El']]; try (rewrite length_app; lia);
    destruct (Hat i Hi) as [Hm Hs].
  - rewrite Eu, Eu', Hm, Hs. reflexivity.
  - rewrite Em, Em', Hm. reflexivity.
  - rewrite El, El', Hm, Hs. reflexivity.
Qed.

Lemma ewm_loop_app (alpha : Q) (xs ys : list Q) :
  forall w, exists tail,
    ewm_loop alpha w (xs ++ ys) = ewm_loop alpha w xs ++ tail /\
    length tail = length ys.
Proof.
  induction xs as [|x xs IH]; intro w.
  - exists (ewm_loop alpha w ys). split; [reflexivity|].
    revert w. induction ys as [|y ys IHy]; intro w; simpl; auto.
  - cbn [app ewm_loop].
    destruct (IH ((1 - alpha) * w + alpha * x)) as [tail [E L]].
    exists tail. split; [|exact L]. rewrite E. reflexivity.
Qed.

Lemma ewm_mean_app (span : nat) (xs ys : list Q) :
  exists tail,
    ewm_mean span (xs ++ ys) = ewm_mean span xs ++ tail /\
    length tail = length ys.
Proof.
  destruct xs as [|x xs].
  - exists (ewm_mean span ys). split; [reflexivity|]. apply ewm_mean_length.
  - cbn [app ewm_mean].
    destruct (ewm_loop_app (alpha_of_span span) xs ys x) as [tail [E L]].
    exists tail. split; [|exact L]. rewrite E. reflexivity.
Qed.

Lemma map2_app {A B C : Type} (f : A -> B -> C) (a1 b1 : list A)
  (a2 b2 : list B) :
  length a1 = length a2 ->
  map2 f (a1 ++ b1) (a2 ++ b2) = map2 f a1 a2 ++ map2 f b1 b2.
Proof.
  revert a2. induction a1 as [|x a1 IH]; intros [|y a2] H; simpl in *;
    try discriminate; [reflexivity|].
  rewrite IH by congruence. reflexivity.
Qed.

Lemma firstn_app_exact {A : Type} (n : nat) (l tail : list A) :
  length l = n -> firstn n (l ++ tail) = l.
Proof.
  intros <-. rewrite firstn_app, Nat.sub_diag, firstn_all. simpl.
  apply app_nil_r.
Qed.

(** X3.  Appending later prices never changes a MACD, signal or histogram
    value already computed. *)
Theorem macd_no_lookahead (prices more : list Q) :
  let old := calculate_macd_fallback prices in
  let new := calculate_macd_fallback (prices ++ more) in
  firstn (length prices) (macd new) = macd old /\
  firstn (length prices) (signal new) = signal old /\
  firstn (length prices) (histogram new) = histogram old.
Proof.
  cbv zeta. unfold calculate_macd_fallback. cbn [macd signal histogram].
  destruct (ewm_mean_app 12 prices more) as [t12 [E12 L12]].
  destruct (ewm_mean_app 26 prices more) as [t26 [E26 L26]].
  rewrite E12, E26.
  rewrite map2_app by (rewrite !ewm_mean_length; reflexivity).
  set (m := map2 Qminus (ewm_mean 12 prices) (ewm_mean 26 prices)).
  assert (Lm : length m = length prices).
  { unfold m. rewrite map2_length, !ewm_mean_length. lia. }
  destruct (ewm_mean_app 9 m (map2 Qminus t12 t26)) as [t9 [E9 L9]].
  rewrite E9.
  rewrite map2_app by (rewrite ewm_mean_length; reflexivity).
  split; [|split]; apply firstn_app_exact.
  - exact Lm.
  - rewrite ewm_mean_length. exact Lm.
  - rewrite map2_length, ewm_mean_length. lia.
Qed.

(** ** RSI on monotone series *)

Lemma In_window_last {A : Type} (P i : nat) (xs : list A) (d : A) :
  (i < length xs)%nat -> (0 < P)%nat -> In (nth i xs d) (window P i xs).
Proof.
  intros Hi HP.
  pose proof (window_length P i xs Hi) as Hl.
  replace (nth i xs d)
    with (nth (Nat.min P (i + 1) - 1) (window P i xs) d).
  - apply nth_In. lia.
  - rewrite nth_window by lia. f_equal. lia.
Qed.

Lemma window_nonempty {A : Type} (P i : nat) (xs : list A) :
  (i < length xs)%nat -> (0 < P)%nat -> window P i xs <> [].
Proof.
  intros Hi HP E. apply (f_equal (@length A)) in E.
  rewrite window_length in E by exact Hi. simpl in E. lia.
Qed.

Lemma rsi_of_rs_positive_loss (g l : Q) :
  0 <= g -> 0 < l ->
  rsi_of_rs (ndiv (Fin g) (Fin l)) = Fin (100 + - (100 / (1 + g / l))).
Proof.
  intros Hg Hl. unfold ndiv.
  replace (Qeq_bool l 0) with false by (symmetry; apply Qeq_bool_false; lra).
  assert (Hrs : 0 <= g / l) by (apply Qle_shift_div_l; [exact Hl | lra]).
  unfold rsi_of_rs, nadd, ndiv.
  replace (Qeq_bool (1 + g / l) 0) with false
    by (symmetry; apply Qeq_bool_false; lra).
  reflexivity.
Qed.

Lemma rsi_of_rs_no_loss (g l : Q) :
  0 < g -> l == 0 -> num_eq (rsi_of_rs (ndiv (Fin g) (Fin l))) (Fin 100).
Proof.
  intros Hg Hl. unfold ndiv. apply Qeq_bool_iff in Hl. rewrite Hl.
  unfold scale_inf. apply Qgt_alt in Hg. rewrite Hg. simpl. lra.
Qed.

Lemma avgQ_positive (w : list Q) (x : Q) :
  Forall (fun y => 0 <= y) w -> In x w -> 0 < x -> 0 < avgQ w.
Proof.
  intros Hw Hin Hx.
  assert (Hne : w <> []) by (intro E; subst w; contradiction).
  pose proof (avgQ_nonneg w Hw) as H0.
  destruct (Qeq_dec (avgQ w) 0) as [E|N]; [|lra].
  apply (avgQ_zero_iff w Hne Hw) in E. rewrite Forall_forall in E.
  specialize (E x Hin). lra.
Qed.

(** X4.  On a strictly falling series the fallback RSI is 0 and on a
    strictly rising series it is 100, at every position from the first full
    window on (position 0 excepted, where no price change exists). *)
Theorem rsi_monotone_extremes (prices : list Q) (period i : nat) :
  (1 <= period)%nat -> (period <= i + 1)%nat -> (1 <= i)%nat ->
  (i < length prices)%nat ->
  ((forall j, (S j < length prices)%nat ->
      nth (S j) prices 0 < nth j prices 0) ->
   num_eq (nth i (calculate_rsi_fallback prices period) NaN) (Fin 0)) /\
  ((forall j, (S j < length prices)%nat ->
      nth j prices 0 < nth (S j) prices 0) ->
   num_eq (nth i (calculate_rsi_fallback prices period) NaN) (Fin 100)).
Proof.
  intros HP Hw H1 Hi.
  rewrite nth_calculate_rsi_fallback by exact Hi.
  destruct (rsi_at_defined_window prices period i Hi) as [Eg El]; [lia|lia|].
  rewrite Eg, El.
  assert (Hgl : (i < length (gainsQ prices))%nat)
    by (rewrite gainsQ_length; exact Hi).
  assert (Hll : (i < length (lossesQ prices))%nat)
    by (rewrite lossesQ_length; exact Hi).
  pose proof (window_Forall _ period i _ (gainsQ_nonneg prices)) as Ng.
  pose proof (window_Forall _ period i _ (lossesQ_nonneg prices)) as Nl.
  split; intro Hmono.
  - assert (Zg : avgQ (window period i (gainsQ prices)) == 0).
    { apply avgQ_zero_iff; [apply window_nonempty; lia | exact Ng |].
      apply window_Forall. apply Forall_nth. intros k d Hk.
      rewrite (nth_indep _ d 0) by exact Hk. rewrite gainsQ_length in Hk.
      destruct k as [|j]; [apply nth_gainsQ_0|].
      rewrite nth_gainsQ_S by exact Hk. specialize (Hmono j Hk).
      unfold gain_of.
      replace (Qlt_bool 0 (nth (S j) prices 0 - nth j prices 0)) with false
        by (symmetry; apply Qlt_bool_false; lra).
      reflexivity. }
    assert (Pl : 0 < avgQ (window period i (lossesQ prices))).
    { apply (avgQ_positive _ (nth i (lossesQ prices) 0));
        [exact Nl | apply In_window_last; lia |].
      destruct i as [|j]; [lia|]. rewrite nth_lossesQ_S by exact Hi.
      specialize (Hmono j Hi). unfold loss_of.
      replace (Qlt_bool (nth (S j) prices 0 - nth j prices 0) 0) with true
        by (symmetry; apply Qlt_bool_iff; lra).
      lra. }
    rewrite rsi_of_rs_positive_loss;
      [ | apply avgQ_nonneg; exact Ng | exact Pl ].
    simpl. rewrite Zg. field. lra.
  - assert (Zl : avgQ (window period i (lossesQ prices)) == 0).
    { apply avgQ_zero_iff; [apply window_nonempty; lia | exact Nl |].
      apply window_Forall. apply Forall_nth. intros k d Hk.
      rewrite (nth_indep _ d 0) by exact Hk. rewrite lossesQ_length in Hk.
      destruct k as [|j]; [apply nth_lossesQ_0|].
      rewrite nth_lossesQ_S by exact Hk. specialize (Hmono j Hk).
      unfold loss_of.
      replace (Qlt_bool (nth (S j) prices 0 - nth j prices 0) 0) with false
        by (symmetry; apply Qlt_bool_false; lra).
      lra. }
    assert (Pg : 0 < avgQ (window period i (gainsQ prices))).
    { apply (avgQ_positive _ (nth i (gainsQ prices) 0));
        [exact Ng | apply In_window_last; lia |].
      destruct i as [|j]; [lia|]. rewrite nth_gainsQ_S by exact Hi.
      specialize (Hmono j Hi). unfold gain_of.
      replace (Qlt_bool 0 (nth (S j) prices 0 - nth j prices 0)) with true
        by (symmetry; apply Qlt_bool_iff; lra).
      lra. }
    apply rsi_of_rs_no_loss; assumption.
Qed.

Lemma rsi_monotone_extremes_witness :
  num_eq (nth 2 (calculate_rsi_fallback [5; 4; 2] 2) NaN) (Fin 0).
Proof.
  apply (rsi_monotone_extremes [5; 4; 2] 2 2); try (simpl; lia).
  intros [|[|j]] Hj; simpl in Hj; try lia; vm_compute; reflexivity.
Defined.

(** ** Exponential moving average *)

Lemma alpha_of_span_range (span : nat) :
  (1 <= span)%nat -> 0 < alpha_of_span span /\ alpha_of_span span <= 1.
Proof.
  intro H. unfold alpha_of_span.
  assert (Hn : 1 <= Qnat span).
  { unfold Qnat, Qle. simpl. lia. }
  split.
  - apply Qlt_shift_div_l; lra.
  - apply Qle_shift_div_r; lra.
Qed.

Lemma ewm_step_between (a lo hi w x : Q) :
  0 < a -> a <= 1 -> lo <= w <= hi -> lo <= x <= hi ->
  lo <= (1 - a) * w + a * x <= hi.
Proof.
  intros Ha0 Ha1 [Hw1 Hw2] [Hx1 Hx2].
  assert (A1 : 0 <= (1 - a) * (w - lo)) by (apply Qmult_le_0_compat; lra).
  assert (A2 : 0 <= a * (x - lo)) by (apply Qmult_le_0_compat; lra).
  assert (A3 : 0 <= (1 - a) * (hi - w)) by (apply Qmult_le_0_compat; lra).
  assert (A4 : 0 <= a * (hi - x)) by (apply Qmult_le_0_compat; lra).
  split; lra.
Qed.

Lemma ewm_loop_between (a lo hi : Q) (xs : list Q) :
  0 < a -> a <= 1 -> Forall (fun x => lo <= x <= hi) xs ->
  forall w, lo <= w <= hi ->
  Forall (fun y => lo <= y <= hi) (ewm_loop a w xs).
Proof.
  intros Ha0 Ha1 Hxs. induction Hxs as [|x xs Hx _ IH]; intros w Hw; simpl.
  - constructor.
  - pose proof (ewm_step_between a lo hi w x Ha0 Ha1 Hw Hx) as Hs.
    constructor; [exact Hs | apply IH; exact Hs].
Qed.

Lemma ewm_mean_in_range (span : nat) (xs : list Q) (lo hi : Q) :
  (1 <= span)%nat ->
  Forall (fun x => lo <= x <= hi) xs ->
  Forall (fun y => lo <= y <= hi) (ewm_mean span xs).
Proof.
  intros Hs Hxs. destruct (alpha_of_span_range span Hs) as [Ha0 Ha1].
  destruct Hxs as [|x xs Hx Hxs]; [constructor|]. unfold ewm_mean.
  constructor; [exact Hx|].
  apply ewm_loop_between; assumption.
Qed.

(** X5.  For a span of at least 1 the exponential moving average is a
    running convex combination: when every sample lies between two bounds,
    so does every value of the average, and the average has one value per
    sample. *)
Theorem ewm_mean_between (span : nat) (xs : list Q) (lo hi : Q) :
  (1 <= span)%nat ->
  Forall (fun x => lo <= x <= hi) xs ->
  Forall (fun y => lo <= y <= hi) (ewm_mean span xs) /\
  length (ewm_mean span xs) = length xs.
Proof.
  intros Hs Hxs. split.
  - apply ewm_mean_in_range; assumption.
  - apply ewm_mean_length.
Qed.

Lemma ewm_mean_between_witness :
  Forall (fun y => 1 <= y <= 4) (ewm_mean 12 [1; 2; 4]).
Proof.
  apply (ewm_mean_between 12 [1; 2; 4] 1 4).
  - lia.
  - repeat constructor; vm_compute; intro H; discriminate H.
Defined.

Lemma Forall_map2_sub_zero (l1 l2 : list Q) (c : Q) :
  Forall (fun x => c <= x <= c) l1 -> Forall (fun x => c <= x <= c) l2 ->
  Forall (fun x => 0 <= x <= 0) (map2 Qminus l1 l2).
Proof.
  intro H1. revert l2. induction H1 as [|x l1 Hx _ IH]; intros l2 H2.
  - constructor.
  - destruct H2 as [|y l2 Hy H2]; simpl; constructor.
    + lra.
    + apply IH. exact H2.
Qed.

(** X6.  On a flat price series (all prices equal) the fallback MACD, its
    signal line and its histogram are zero at every position. *)
Theorem macd_flat_is_zero (prices : list Q) (c : Q) :
  Forall (fun p => p == c) prices ->
  Forall (fun x => x == 0) (macd (calculate_macd_fallback prices)) /\
  Forall (fun x => x == 0) (signal (calculate_macd_fallback prices)) /\
  Forall (fun x => x == 0) (histogram (calculate_macd_fallback prices)).
Proof.
  intro Hflat. unfold calculate_macd_fallback. cbn [macd signal histogram].
  assert (Hb : Forall (fun p => c <= p <= c) prices).
  { eapply Forall_impl; [|exact Hflat]. simpl. intros p Hp. lra. }
  pose proof (ewm_mean_in_range 12 prices c c ltac:(lia) Hb) as H12.
  pose proof (ewm_mean_in_range 26 prices c c ltac:(lia) Hb) as H26.
  pose proof (Forall_map2_sub_zero _ _ c H12 H26) as Hm.
  pose proof (ewm_mean_in_range 9 _ 0 0 ltac:(lia) Hm) as Hs.
  pose proof (Forall_map2_sub_zero _ _ 0 Hm Hs) as Hh.
  repeat split; (eapply Forall_impl; [|eassumption]); simpl; intros x Hx; lra.
Qed.

Lemma macd_flat_is_zero_witness :
  Forall (fun x => x == 0) (histogram (calculate_macd_fallback flat_series)).
Proof.
  apply (macd_flat_is_zero flat_series 10).
  repeat constructor.
Defined.

(** ** Bollinger Bands: shape *)

Lemma nadd_Fin_inv (x y : num) (u : Q) :
  nadd x y = Fin u -> exists a b, x = Fin a /\ y = Fin b /\ u = a + b.
Proof.
  destruct x as [a| | |], y as [b| | |]; simpl; try discriminate.
  intro H. injection H as <-. eauto.
Qed.

Lemma nmul_Fin_r_inv (x : num) (k t : Q) :
  nmul x (Fin k) = Fin t -> exists s, x = Fin s /\ t = s * k.
Proof.
  destruct x as [s| | |]; simpl; try discriminate.
  - intro H. injection H as <-. eauto.
  - unfold scale_inf. destruct (k ?= 0); discriminate.
  - unfold scale_inf. destruct (k ?= 0); discriminate.
Qed.

(** X7.  Wherever the upper band has a value, the middle and lower bands
    have one too and the bands are symmetric about the middle one:
    [upper - middle = middle - lower], which is the multiplier times the
    rolling standard deviation; with a zero multiplier the three bands
    coincide. *)
Theorem bollinger_symmetric (sqrtQ : Q -> Q) (prices : list Q)
  (period : nat) (std_dev : Q) (i : nat) (u : Q) :
  (i < length prices)%nat ->
  nth i (upper (calculate_bollinger_bands_fallback sqrtQ prices period std_dev))
    NaN = Fin u ->
  exists m l s,
    nth i (middle (calculate_bollinger_bands_fallback sqrtQ prices period
                     std_dev)) NaN = Fin m /\
    nth i (lower (calculate_bollinger_bands_fallback sqrtQ prices period
                    std_dev)) NaN = Fin l /\
    nth i (rolling_std sqrtQ period (map Fin prices)) NaN = Fin s /\
    u - m == s * std_dev /\ m - l == s * std_dev /\
    (std_dev == 0 -> u == m /\ l == m).
Proof.
  intros Hi Hu.
  destruct (bollinger_at sqrtQ prices period std_dev i Hi) as [Em [Eu El]].
  rewrite Eu in Hu. apply nadd_Fin_inv in Hu.
  destruct Hu as (m & t & HM & HT & ->).
  apply nmul_Fin_r_inv in HT. destruct HT as (s & HS & ->).
  exists m, (m + - (s * std_dev)), s.
  rewrite Em, El, HM, HS. simpl.
  split; [reflexivity|]. split; [reflexivity|]. split; [reflexivity|].
  split; [ring|]. split; [ring|].
  intro Hz. rewrite Hz. split; ring.
Qed.

Lemma bollinger_symmetric_witness :
  exists m l s,
    nth 2 (middle (calculate_bollinger_bands_fallback sqrt_down [1; 2; 4] 2 2))
      NaN = Fin m /\
    nth 2 (lower (calculate_bollinger_bands_fallback sqrt_down [1; 2; 4] 2 2))
      NaN = Fin l /\
    nth 2 (rolling_std sqrt_down 2 (map Fin [1; 2; 4])) NaN = Fin s /\
    (11656852 # 2000000) - m == s * 2 /\ m - l == s * 2 /\
    (2 == 0 -> (11656852 # 2000000) == m /\ l == m).
Proof.
  apply (bollinger_symmetric sqrt_down [1; 2; 4] 2 2 2).
  - simpl. lia.
  - vm_compute. reflexivity.
Defined.

(** X8.  The positions at which the fallback bands have a value: the middle
    band from index [period - 1] on (for a period of at least 1), the upper
    and lower bands from the same index on when the period is at least 2 and
    nowhere otherwise. *)
Theorem bollinger_defined_positions (sqrtQ : Q -> Q) (prices : list Q)
  (period : nat) (std_dev : Q) (i : nat) :
  (i < length prices)%nat ->
  let bb := calculate_bollinger_bands_fallback sqrtQ prices period std_dev in
  is_defined (nth i (middle bb) NaN)
    = ((period <=? i + 1)%nat && (0 <? period)%nat)%bool /\
  is_defined (nth i (upper bb) NaN)
    = ((period <=? i + 1)%nat && (1 <? period)%nat)%bool /\
  is_defined (nth i (lower bb) NaN)
    = ((period <=? i + 1)%nat && (1 <? period)%nat)%bool.
Proof.
  intros Hi bb.
  destruct (bollinger_at sqrtQ prices period std_dev i Hi) as [Em [Eu El]].
  fold bb in Em, Eu, El. rewrite Em, Eu, El.
  rewrite nth_rolling_mean, nth_rolling_std by exact Hi.
  destruct (period <=? i + 1)%nat eqn:E1; simpl.
  - apply Nat.leb_le in E1. destruct (1 <? period)%nat eqn:E2.
    + apply Nat.ltb_lt in E2.
      replace (0 <? period)%nat with true by (symmetry; apply Nat.ltb_lt; lia).
      simpl. auto.
    + destruct (0 <? period)%nat; simpl; auto.
  - auto.
Qed.

Lemma bollinger_defined_positions_witness :
  is_defined (nth 1 (upper (calculate_bollinger_bands_fallback sqrt_down
                              [1; 2; 4] 2 2)) NaN)
  = ((2 <=? 1 + 1)%nat && (1 <? 2)%nat)%bool.
Proof.
  apply (bollinger_defined_positions sqrt_down [1; 2; 4] 2 2 1).
  simpl. lia.
Defined.

(** ** Volume-spike ratio: range *)

Lemma In_le_Qsum (w : list Q) (x : Q) :
  Forall (fun y => 0 <= y) w -> In x w -> x <= Qsum w.
Proof.
  induction 1 as [|y w Hy Hw IH]; intro Hin; [contradiction|].
  pose proof (Qsum_nonneg w Hw) as Hs. unfold Qsum in *. simpl.
  destruct Hin as [->|Hin]; [lra|]. specialize (IH Hin). lra.
Qed.

Lemma last_In {A : Type} (l : list A) (d : A) : l <> [] -> In (last l d) l.
Proof.
  induction l as [|x l IH]; [congruence|]. intros _.
  destruct l as [|y l]; [left; reflexivity|].
  right. apply IH. discriminate.
Qed.

(** X9.  For a non-empty series of non-negative volumes the volume-spike
    ratio is a finite number that is never negative, is 0 when the latest
    volume is 0, and stays below the number of samples plus one (the exact
    quotient is at most the number of samples; the margin of one covers the
    rounding of the float division). *)
Theorem volume_spike_ratio_range (volumes : list Q) :
  volumes <> [] -> Forall (fun v => 0 <= v) volumes ->
  exists r, volume_spike_ratio volumes = Ret (Fin r) /\
            0 <= r /\ r <= Qnat (length volumes) + 1 /\
            (last volumes 0 == 0 -> r == 0).
Proof.
  intros Hne Hpos.
  assert (Hn : 0 < Qnat (length volumes)).
  { apply Qnat_pos. destruct volumes; [congruence | simpl; lia]. }
  pose proof (last_In volumes 0 Hne) as Hin.
  assert (Hl0 : 0 <= last volumes 0).
  { rewrite Forall_forall in Hpos. apply Hpos. exact Hin. }
  pose proof (In_le_Qsum volumes _ Hpos Hin) as Hls.
  unfold volume_spike_ratio.
  rewrite (iloc_last_nonempty volumes 0 Hne), (series_mean_nonempty _ Hne).
  cbn [bind]. unfold num_gtb, num_ltb.
  destruct (Qlt_bool 0 (avgQ volumes)) eqn:E.
  - apply Qlt_bool_iff in E. unfold py_truediv, ndiv.
    replace (Qeq_bool (avgQ volumes) 0) with false
      by (symmetry; apply Qeq_bool_false; lra).
    eexists. split; [reflexivity|].
    assert (Hup : last volumes 0 / avgQ volumes <= Qnat (length volumes)).
    { apply Qle_shift_div_r; [exact E|].
      unfold avgQ. rewrite Qmult_div_r; [exact Hls | lra]. }
    split; [apply Qle_shift_div_l; [exact E | lra]|].
    split; [lra|].
    intro Hz. rewrite Hz. unfold Qdiv. ring.
  - exists 0. split; [reflexivity|]. split; [lra|]. split; [lra|].
    intros _. reflexivity.
Qed.

Lemma volume_spike_ratio_range_witness :
  exists r, volume_spike_ratio [10; 10; 40] = Ret (Fin r) /\
            0 <= r /\ r <= Qnat (length [10; 10; 40]) + 1 /\
            (last [10; 10; 40] 0 == 0 -> r == 0).
Proof.
  apply (volume_spike_ratio_range [10; 10; 40]).
  - discriminate.
  - repeat constructor; vm_compute; intro H; discriminate H.
Defined.

(** * Further properties of the screener *)

Lemma accepted_length_le (TALIB_AVAILABLE : bool)
  (talib_RSI : list Q -> nat -> pyres (list num))
  (history : string -> string -> pyres DataFrame)
  (a b c : json) (tickers : list string) :
  (length (accepted_matches TALIB_AVAILABLE talib_RSI history a b c tickers)
   <= length tickers)%nat.
Proof.
  induction tickers as [|t rest IH]; [simpl; lia|].
  cbn [accepted_matches flat_map].
  fold (accepted_matches TALIB_AVAILABLE talib_RSI history a b c rest).
  rewrite length_app.
  destruct (screen_ticker TALIB_AVAILABLE talib_RSI history a b c t)
    as [[m|]|e]; simpl; lia.
Qed.

(** X10.  In every report the number of matches is at most the number of
    scanned tickers, and the returned list holds exactly the smaller of 10
    and the number of matches. *)
Theorem screener_counts (TALIB_AVAILABLE : bool)
  (talib_RSI : list Q -> nat -> pyres (list num))
  (history : string -> string -> pyres DataFrame)
  (tickers : list string) (criteria : Criteria) :
  let report := run_screener TALIB_AVAILABLE talib_RSI history tickers criteria in
  (matches report <= total_scanned report)%nat /\
  length (results report) = Nat.min 10 (matches report).
Proof.
  cbv zeta.
  destruct (run_screener_results TALIB_AVAILABLE talib_RSI history
              tickers criteria) as [Er [Et Em]].
  cbv zeta in Er, Et, Em. rewrite Er, Et, Em. split.
  - apply accepted_length_le.
  - rewrite length_firstn, sort_desc_length. reflexivity.
Qed.

Lemma StronglySorted_app_cross {A : Type} (R : A -> A -> Prop) (l1 l2 : list A) :
  StronglySorted R (l1 ++ l2) ->
  forall x y, In x l1 -> In y l2 -> R x y.
Proof.
  induction l1 as [|a l1 IH]; intros Hs x y Hx Hy; [contradiction|].
  simpl in Hs. inversion Hs as [|? ? Hs' Ha]; subst.
  destruct Hx as [->|Hx].
  - rewrite Forall_forall in Ha. apply Ha. apply in_or_app. right. exact Hy.
  - apply (IH Hs' x y Hx Hy).
Qed.

(** X11.  The returned list is a top-10: the matches split into the returned
    ones and the left-out ones, and no left-out match has a higher score
    than a returned one. *)
Theorem screener_returns_top_scores (TALIB_AVAILABLE : bool)
  (talib_RSI : list Q -> nat -> pyres (list num))
  (history : string -> string -> pyres DataFrame)
  (tickers : list string) (criteria : Criteria) :
  let found :=
    accepted_matches TALIB_AVAILABLE talib_RSI history
      (dict_get (crit_rsi_min criteria) 30)
      (dict_get (crit_rsi_max criteria) 70)
      (dict_get (crit_volume_spike criteria) 1.5) tickers in
  let report := run_screener TALIB_AVAILABLE talib_RSI history tickers criteria in
  exists left_out,
    Permutation found (results report ++ left_out) /\
    forall m m', In m (results report) -> In m' left_out -> score_ge m m'.
Proof.
  cbv zeta.
  destruct (run_screener_results TALIB_AVAILABLE talib_RSI history
              tickers criteria) as [Er _].
  cbv zeta in Er. rewrite Er.
  set (found := accepted_matches TALIB_AVAILABLE talib_RSI history
                  (dict_get (crit_rsi_min criteria) 30)
                  (dict_get (crit_rsi_max criteria) 70)
                  (dict_get (crit_volume_spike criteria) 1.5) tickers).
  exists (skipn 10 (sort_desc score found)). split.
  - rewrite firstn_skipn. apply sort_desc_perm.
  - apply (StronglySorted_app_cross score_ge). rewrite firstn_skipn.
    apply sort_desc_sorted. apply accepted_scores_defined.
Qed.

Lemma no_match_no_results (TALIB_AVAILABLE : bool)
  (talib_RSI : list Q -> nat -> pyres (list num))
  (history : string -> string -> pyres DataFrame)
  (tickers : list string) (criteria : Criteria) :
  (forall t m,
     screen_ticker TALIB_AVAILABLE talib_RSI history
       (dict_get (crit_rsi_min criteria) 30)
       (dict_get (crit_rsi_max criteria) 70)
       (dict_get (crit_volume_spike criteria) 1.5) t <> Ret (Some m)) ->
  run_screener TALIB_AVAILABLE talib_RSI history tickers criteria
  = mkReport [] (length tickers) 0.
Proof.
  intro Hno.
  assert (E : accepted_matches TALIB_AVAILABLE talib_RSI history
                (dict_get (crit_rsi_min criteria) 30)
                (dict_get (crit_rsi_max criteria) 70)
                (dict_get (crit_volume_spike criteria) 1.5) tickers = []).
  { induction tickers as [|t rest IH]; [reflexivity|].
    cbn [accepted_matches flat_map].
    destruct (screen_ticker TALIB_AVAILABLE talib_RSI history
                (dict_get (crit_rsi_min criteria) 30)
                (dict_get (crit_rsi_max criteria) 70)
                (dict_get (crit_volume_spike criteria) 1.5) t)
      as [[m|]|e] eqn:Es; [exfalso; apply (Hno t m Es) | exact IH | exact IH]. }
  unfold run_screener. rewrite screener_loop_accepted, E. reflexivity.
Qed.

(** ** The endpoint and its error log *)

Section EndpointFacts.

Variable TALIB_AVAILABLE : bool.
Variable talib_RSI : list Q -> nat -> pyres (list num).
Variable history : string -> string -> pyres DataFrame.
Variable print_error : string -> exn -> pyres unit.

Abbreviation screen1 := (screen_ticker TALIB_AVAILABLE talib_RSI history).
Abbreviation found1 := (accepted_matches TALIB_AVAILABLE talib_RSI history).
Abbreviation logged :=
  (screener_loop_logged TALIB_AVAILABLE talib_RSI history print_error).
Abbreviation endpoint :=
  (run_screener_endpoint TALIB_AVAILABLE talib_RSI history print_error).

(** Whatever list the logged loop returns is the accumulator followed by
    the matches of the tickers, in order. *)
Lemma screener_loop_logged_Ret (a b c : json) (tickers : list string) :
  forall acc r, logged a b c tickers acc = Ret r ->
                r = acc ++ found1 a b c tickers.
Proof.
  induction tickers as [|t rest IH]; intros acc r H.
  - simpl in H. injection H as <-. simpl. rewrite app_nil_r. reflexivity.
  - cbn [screener_loop_logged] in H. cbn [accepted_matches flat_map].
    fold (found1 a b c rest).
    destruct (screen1 a b c t) as [[m|]|e].
    + apply IH in H. rewrite H, <- app_assoc. reflexivity.
    + apply IH in H. exact H.
    + destruct (print_error t e) as [u|e']; cbn [bind] in H;
        [|discriminate H].
      apply IH in H. exact H.
Qed.

(** When the error line of every failing ticker is printed, the logged loop
    returns what [screener_loop] computes. *)
Lemma screener_loop_logged_printed (a b c : json) (tickers : list string) :
  (forall t e, In t tickers -> screen1 a b c t = Raise e ->
               print_error t e = Ret tt) ->
  forall acc,
    logged a b c tickers acc
    = Ret (screener_loop TALIB_AVAILABLE talib_RSI history a b c tickers acc).
Proof.
  induction tickers as [|t rest IH]; intros Hp acc; [reflexivity|].
  cbn [screener_loop_logged screener_loop].
  assert (Hrest : forall t' e, In t' rest -> screen1 a b c t' = Raise e ->
                               print_error t' e = Ret tt).
  { intros t' e Hin. apply Hp. right. exact Hin. }
  destruct (screen1 a b c t) as [[m|]|e] eqn:E.
  - apply IH. exact Hrest.
  - apply IH. exact Hrest.
  - rewrite (Hp t e (or_introl eq_refl) E). cbn [bind]. apply IH. exact Hrest.
Qed.

Lemma run_screener_endpoint_printed (tickers : list string)
  (criteria : Criteria) :
  (forall t e, In t tickers ->
     screen1 (dict_get (crit_rsi_min criteria) 30)
       (dict_get (crit_rsi_max criteria) 70)
       (dict_get (crit_volume_spike criteria) 1.5) t = Raise e ->
     print_error t e = Ret tt) ->
  endpoint tickers criteria
  = Ok200 (run_screener TALIB_AVAILABLE talib_RSI history tickers criteria).
Proof.
  intro Hp. unfold run_screener_endpoint, run_screener.
  rewrite (screener_loop_logged_printed _ _ _ tickers Hp). reflexivity.
Qed.

(** A ticker that appends nothing and whose error line, if any, is printed
    leaves the logged loop as it would be without it. *)
Lemma screener_loop_logged_skip (a b c : json) (t : string)
  (before after : list string) :
  (forall m, screen1 a b c t <> Ret (Some m)) ->
  (forall e, screen1 a b c t = Raise e -> print_error t e = Ret tt) ->
  forall acc,
    logged a b c (before ++ t :: after) acc
    = logged a b c (before ++ after) acc.
Proof.
  intros Hno Hp. induction before as [|t0 before IH]; intro acc.
  - cbn [app screener_loop_logged].
    destruct (screen1 a b c t) as [[m|]|e] eqn:E.
    + exfalso. apply (Hno m). reflexivity.
    + reflexivity.
    + rewrite (Hp e eq_refl). reflexivity.
  - cbn [app screener_loop_logged].
    destruct (screen1 a b c t0) as [[m|]|e]; try apply IH.
    destruct (print_error t0 e); cbn [bind]; [apply IH | reflexivity].
Qed.

End EndpointFacts.

(** C6.  The isolation of per-ticker failures is broken by the handler's
    own [print]: in a three-ticker batch whose middle ticker is a lone
    surrogate that cannot be retrieved, the error line cannot be written,
    the exception leaves the loop and the whole batch is answered with 500,
    although ticker A matches and the same batch is answered with 200 and
    A's match by a console that prints the line. *)
Theorem ticker_failure_escalates :
  (exists e, surrogate_history (lone_surrogate ++ ".OL")%string "3mo"%string
             = Raise e) /\
  (exists m,
     screen_ticker false no_talib surrogate_history
       (JNum 30) (JNum 70) (JNum 1.5) "A" = Ret (Some m)) /\
  run_screener_endpoint false no_talib surrogate_history strict_print
    ["A"%string; lone_surrogate; "B"%string] scenario_criteria
  = ServerError500 UnicodeEncodeError /\
  (exists report,
     run_screener_endpoint false no_talib surrogate_history quiet_print
       ["A"%string; lone_surrogate; "B"%string] scenario_criteria
     = Ok200 report /\
     map ticker (results report) = ["A"%string] /\
     total_scanned report = 3%nat /\ matches report = 1%nat).
Proof.
  split; [eexists; vm_compute; reflexivity|].
  split; [eexists; vm_compute; reflexivity|].
  split; [vm_compute; reflexivity|].
  eexists. split; [vm_compute; reflexivity|]. auto.
Qed.

(** X20.  A ticker whose retrieval raises, whose history is empty, or whose
    processing raises contributes nothing, and when its error line is
    printed the endpoint answers as for the batch without it, counting it in
    [total_scanned].  Every 200 answer holds the matches of the other
    tickers: the first 10 of their stable descending sort, all of them when
    there are at most 10; and another ticker with data is among them exactly
    when its own RSI and volume-spike ratio meet the (numeric) criteria. *)
Theorem ticker_failure_isolated (TALIB_AVAILABLE : bool)
  (talib_RSI : list Q -> nat -> pyres (list num))
  (history : string -> string -> pyres DataFrame)
  (print_error : string -> exn -> pyres unit)
  (criteria : Criteria) (before after : list string) (t : string) :
  let rsi_min := dict_get (crit_rsi_min criteria) 30 in
  let rsi_max := dict_get (crit_rsi_max criteria) 70 in
  let spike_min := dict_get (crit_volume_spike criteria) 1.5 in
  let run := run_screener_endpoint TALIB_AVAILABLE talib_RSI history
               print_error in
  let found := accepted_matches TALIB_AVAILABLE talib_RSI history
                 rsi_min rsi_max spike_min (before ++ after) in
  ((exists e, history (t ++ ".OL")%string "3mo"%string = Raise e) \/
   history (t ++ ".OL")%string "3mo"%string = Ret [] \/
   (exists hist e,
      history (t ++ ".OL")%string "3mo"%string = Ret hist /\
      calculate_rsi TALIB_AVAILABLE talib_RSI (map Close hist) 14 = Raise e) \/
   (exists e,
      screen_ticker TALIB_AVAILABLE talib_RSI history
        rsi_min rsi_max spike_min t = Raise e)) ->
  (forall e,
     screen_ticker TALIB_AVAILABLE talib_RSI history
       rsi_min rsi_max spike_min t = Raise e ->
     print_error t e = Ret tt) ->
  (forall m,
     screen_ticker TALIB_AVAILABLE talib_RSI history
       rsi_min rsi_max spike_min t <> Ret (Some m)) /\
  (forall report,
     run (before ++ after) criteria = Ok200 report ->
     run (before ++ t :: after) criteria
     = Ok200 (mkReport (results report) (S (total_scanned report))
                (matches report))) /\
  (forall e,
     run (before ++ after) criteria = ServerError500 e ->
     run (before ++ t :: after) criteria = ServerError500 e) /\
  (forall report,
     run (before ++ t :: after) criteria = Ok200 report ->
     results report = firstn 10 (sort_desc score found) /\
     matches report = length found /\
     total_scanned report = S (length (before ++ after)) /\
     (forall m, In m found -> (length found <= 10)%nat ->
                In m (results report))) /\
  (forall t' hist rs lo hi thr,
     In t' (before ++ after) ->
     rsi_min = JNum lo -> rsi_max = JNum hi -> spike_min = JNum thr ->
     history (t' ++ ".OL")%string "3mo"%string = Ret hist -> hist <> [] ->
     calculate_rsi TALIB_AVAILABLE talib_RSI (map Close hist) 14 = Ret rs ->
     rs <> [] ->
     exists v,
       volume_spike_ratio (map Volume hist) = Ret (Fin v) /\
       ((num_leb (Fin lo) (last rs NaN) && num_leb (last rs NaN) (Fin hi)
         && num_geb (Fin v) (Fin thr))%bool = true <->
        exists m, In m found /\ ticker m = t' /\
                  rsi m = last rs NaN /\ volume_spike m = Fin v)).
Proof.
  cbv zeta. intros Hfail Hprint.
  set (a := dict_get (crit_rsi_min criteria) 30) in *.
  set (b := dict_get (crit_rsi_max criteria) 70) in *.
  set (c := dict_get (crit_volume_spike criteria) 1.5) in *.
  assert (Hno : forall m,
            screen_ticker TALIB_AVAILABLE talib_RSI history a b c t
            <> Ret (Some m)).
  { intros m Hm. destruct Hfail as [[e He]|[He|[[hist [e [Eh He]]]|[e He]]]].
    - unfold screen_ticker in Hm. rewrite He in Hm. discriminate Hm.
    - unfold screen_ticker in Hm. rewrite He in Hm. discriminate Hm.
    - unfold screen_ticker in Hm. rewrite Eh in Hm. cbn [bind] in Hm.
      destruct hist as [|b0 hist]; [discriminate Hm|]. cbn [empty] in Hm.
      rewrite He in Hm. discriminate Hm.
    - rewrite He in Hm. discriminate Hm. }
  assert (Hskip :
    screener_loop_logged TALIB_AVAILABLE talib_RSI history print_error
      a b c (before ++ t :: after) []
    = screener_loop_logged TALIB_AVAILABLE talib_RSI history print_error
        a b c (before ++ after) []).
  { apply screener_loop_logged_skip; assumption. }
  assert (Hlen : length (before ++ t :: after) = S (length (before ++ after))).
  { rewrite !length_app. simpl. lia. }
  split; [exact Hno|].
  assert (Hdata : forall t' hist rs lo hi thr,
    In t' (before ++ after) ->
    a = JNum lo -> b = JNum hi -> c = JNum thr ->
    history (t' ++ ".OL")%string "3mo"%string = Ret hist -> hist <> [] ->
    calculate_rsi TALIB_AVAILABLE talib_RSI (map Close hist) 14 = Ret rs ->
    rs <> [] ->
    exists v,
      volume_spike_ratio (map Volume hist) = Ret (Fin v) /\
      ((num_leb (Fin lo) (last rs NaN) && num_leb (last rs NaN) (Fin hi)
        && num_geb (Fin v) (Fin thr))%bool = true <->
       exists m,
         In m (accepted_matches TALIB_AVAILABLE talib_RSI history a b c
                 (before ++ after)) /\
         ticker m = t' /\ rsi m = last rs NaN /\ volume_spike m = Fin v)).
  { intros t' hist rs lo hi thr Hin Ea Eb Ec Eh Hne Er Hrne.
    destruct (screen_ticker_with_data TALIB_AVAILABLE talib_RSI history
                a b c t' hist rs Eh Hne Er Hrne) as [v [Hv Hs]].
    exists v. split; [exact Hv|].
    assert (Hcc : check_criteria a b c (last rs NaN) (Fin v)
                  = Ret (num_leb (Fin lo) (last rs NaN)
                         && num_leb (last rs NaN) (Fin hi)
                         && num_geb (Fin v) (Fin thr))%bool).
    { rewrite Ea, Eb, Ec. apply check_criteria_numeric. }
    rewrite Hcc in Hs. cbn [bind] in Hs. split.
    - intro Hc. rewrite Hc in Hs. eexists. split.
      + apply accepted_In. exists t'. split; [exact Hin | exact Hs].
      + cbn. auto.
    - intros [m [Hm [Tm _]]]. apply accepted_In in Hm.
      destruct Hm as [t'' [_ Hm]].
      pose proof (accepted_ticker _ _ _ _ _ _ _ _ Hm) as Tm'.
      assert (Et : t'' = t') by congruence. rewrite Et, Hs in Hm.
      destruct (num_leb (Fin lo) (last rs NaN)
                && num_leb (last rs NaN) (Fin hi)
                && num_geb (Fin v) (Fin thr))%bool;
        [reflexivity | discriminate Hm]. }
  unfold run_screener_endpoint. fold a b c. rewrite Hskip, Hlen.
  destruct (screener_loop_logged TALIB_AVAILABLE talib_RSI history print_error
              a b c (before ++ after) []) as [r|e0] eqn:El.
  - apply screener_loop_logged_Ret in El. cbn [app] in El. subst r.
    split; [|split; [|split; [|exact Hdata]]].
    + intros report H.
      match type of H with
      | Ok200 ?x = _ => assert (Hrep : report = x) by congruence
      end.
      rewrite Hrep. reflexivity.
    + intros e H. discriminate H.
    + intros report H.
      match type of H with
      | Ok200 ?x = _ => assert (Hrep : report = x) by congruence
      end.
      rewrite Hrep. cbn [results matches total_scanned].
      rewrite sort_desc_length.
      split; [reflexivity|]. split; [reflexivity|]. split; [reflexivity|].
      intros m Hm Hle. rewrite firstn_all2 by (rewrite sort_desc_length; lia).
      apply (Permutation_in _ (sort_desc_perm score _)). exact Hm.
  - split; [|split; [|split; [|exact Hdata]]].
    + intros report H. discriminate H.
    + intros e H. exact H.
    + intros report H. discriminate H.
Qed.

Lemma ticker_failure_isolated_witness :
  run_screener_endpoint false no_talib scenario_history quiet_print
    (["A"]%string ++ "X"%string :: ["B"]%string) scenario_criteria
  = Ok200 (mkReport [scenario_match_A] 3 1).
Proof.
  apply (proj1 (proj2 (ticker_failure_isolated false no_talib scenario_history
                         quiet_print scenario_criteria
                         ["A"]%string ["B"]%string "X"%string
                         (or_introl (ex_intro _ (LibraryError "request failed")
                                       eq_refl))
                         (fun e _ => eq_refl)))
           (mkReport [scenario_match_A] 2 1)).
  vm_compute. reflexivity.
Defined.

(** X12.  When one of the three criteria (after defaults) cannot be ordered
    against a float (a string, null, an array or an object; numbers and
    booleans can), no ticker is matched: provided the error line of every
    failing ticker is printed, the endpoint answers 200 with an empty list,
    zero matches and every ticker counted. *)
Theorem unorderable_criterion_matches_nothing (TALIB_AVAILABLE : bool)
  (talib_RSI : list Q -> nat -> pyres (list num))
  (history : string -> string -> pyres DataFrame)
  (print_error : string -> exn -> pyres unit)
  (tickers : list string) (criteria : Criteria) :
  (orderable (dict_get (crit_rsi_min criteria) 30)
   && orderable (dict_get (crit_rsi_max criteria) 70)
   && orderable (dict_get (crit_volume_spike criteria) 1.5))%bool = false ->
  (forall t e, In t tickers ->
     screen_ticker TALIB_AVAILABLE talib_RSI history
       (dict_get (crit_rsi_min criteria) 30)
       (dict_get (crit_rsi_max criteria) 70)
       (dict_get (crit_volume_spike criteria) 1.5) t = Raise e ->
     print_error t e = Ret tt) ->
  run_screener_endpoint TALIB_AVAILABLE talib_RSI history print_error
    tickers criteria
  = Ok200 (mkReport [] (length tickers) 0).
Proof.
  intros Hbad Hp. rewrite run_screener_endpoint_printed by exact Hp.
  f_equal. apply no_match_no_results. intros t m Hm.
  apply screen_ticker_Some_inv in Hm.
  destruct Hm as (h & rs & lr & vs & lp & _ & _ & _ & _ & _ & Ec & _).
  apply check_criteria_true_inv in Ec.
  destruct Ec as (lo & hi & thr & Ea & Eb & Ec & _).
  unfold orderable in Hbad. rewrite Ea, Eb, Ec in Hbad. discriminate Hbad.
Qed.

Lemma unorderable_criterion_matches_nothing_witness :
  run_screener_endpoint false no_talib scenario_history quiet_print
    ["A"; "B"]%string (mkCriteria (Some JNull) None (Some (JStr "high")))
  = Ok200 (mkReport [] 2 0).
Proof.
  apply (unorderable_criterion_matches_nothing false no_talib scenario_history
           quiet_print ["A"; "B"]%string
           (mkCriteria (Some JNull) None (Some (JStr "high")))).
  - reflexivity.
  - intros t e _ _. reflexivity.
Defined.

(** X13.  The criteria are not validated: with [rsi_min] greater than
    [rsi_max] the run matches nothing and reports it as an ordinary empty
    result. *)
Theorem inverted_rsi_range_matches_nothing (TALIB_AVAILABLE : bool)
  (talib_RSI : list Q -> nat -> pyres (list num))
  (history : string -> string -> pyres DataFrame)
  (tickers : list string) (criteria : Criteria) (lo hi : Q) :
  dict_get (crit_rsi_min criteria) 30 = JNum lo ->
  dict_get (crit_rsi_max criteria) 70 = JNum hi ->
  hi < lo ->
  run_screener TALIB_AVAILABLE talib_RSI history tickers criteria
  = mkReport [] (length tickers) 0.
Proof.
  intros Ea Eb Hinv. apply no_match_no_results. intros t m Hm.
  apply screen_ticker_Some_inv in Hm.
  destruct Hm as (h & rs & lr & vs & lp & _ & _ & _ & _ & _ & Ec & _).
  apply check_criteria_true_inv in Ec.
  destruct Ec as (lo' & hi' & thr & Ea' & Eb' & _ & L1 & L2 & _).
  rewrite Ea in Ea'. rewrite Eb in Eb'. simpl in Ea', Eb'.
  injection Ea' as <-. injection Eb' as <-.
  destruct lr as [r| | |]; simpl in L1, L2; try discriminate.
  apply Qle_bool_iff in L1, L2. lra.
Qed.

Lemma inverted_rsi_range_matches_nothing_witness :
  run_screener false no_talib scenario_history ["A"; "B"]%string
    (mkCriteria (Some (JNum 70)) (Some (JNum 30)) None)
  = mkReport [] 2 0.
Proof.
  apply (inverted_rsi_range_matches_nothing false no_talib scenario_history
           ["A"; "B"]%string (mkCriteria (Some (JNum 70)) (Some (JNum 30)) None)
           70 30).
  - reflexivity.
  - reflexivity.
  - vm_compute. reflexivity.
Defined.

Lemma iloc_last_In {A : Type} (l : list A) (x : A) :
  iloc_last l = Ret x -> In x l.
Proof.
  induction l as [|y l IH]; [discriminate|].
  destruct l as [|z l].
  - simpl. intro H. injection H as ->. left. reflexivity.
  - change (iloc_last (y :: z :: l)) with (iloc_last (z :: l)).
    intro H. right. apply IH. exact H.
Qed.

Lemma rsi_fallback_member_range (prices : list Q) (period : nat) (q : Q) :
  In (Fin q) (calculate_rsi_fallback prices period) -> 0 <= q /\ q <= 100.
Proof.
  intro Hin. apply (In_nth _ _ NaN) in Hin. destruct Hin as [i [Hi Hn]].
  rewrite calculate_rsi_fallback_length in Hi.
  destruct (rsi_value_cases prices period i Hi) as [E|[r [E Hr]]].
  - rewrite E in Hn. discriminate Hn.
  - rewrite E in Hn. injection Hn as <-. exact Hr.
Qed.

(** X14.  Every match in the returned list comes from an input ticker and
    meets the criteria of the run, each criterion read as the float it is
    compared as: [rsi_min <= rsi <= rsi_max], the volume-spike ratio is a
    finite number that reaches the threshold, and the score is
    [(100 - |50 - rsi|) + volume_spike * 10].  With finite numeric criteria
    the RSI is a finite number between them.  On the fallback path the RSI
    is within [0, 100], so the score lies between [50 + 10 * volume_spike]
    and [100 + 10 * volume_spike]. *)
Theorem returned_matches_meet_criteria (TALIB_AVAILABLE : bool)
  (talib_RSI : list Q -> nat -> pyres (list num))
  (history : string -> string -> pyres DataFrame)
  (tickers : list string) (criteria : Criteria) (m : ScreenerMatch) :
  In m (results (run_screener TALIB_AVAILABLE talib_RSI history
                   tickers criteria)) ->
  exists lo hi thr v,
    as_float (dict_get (crit_rsi_min criteria) 30) = Some lo /\
    as_float (dict_get (crit_rsi_max criteria) 70) = Some hi /\
    as_float (dict_get (crit_volume_spike criteria) 1.5) = Some thr /\
    In (ticker m) tickers /\
    volume_spike m = Fin v /\
    num_leb lo (rsi m) = true /\ num_leb (rsi m) hi = true /\
    num_leb thr (Fin v) = true /\
    score m = nadd (nsub (Fin 100) (nabs (nsub (Fin 50) (rsi m))))
                   (nmul (Fin v) (Fin 10)) /\
    (forall ql qh qt, lo = Fin ql -> hi = Fin qh -> thr = Fin qt ->
     exists r, rsi m = Fin r /\ ql <= r /\ r <= qh /\ qt <= v /\
               score m = Fin (100 + - Qabs (50 + - r) + v * 10)) /\
    (TALIB_AVAILABLE = false ->
     exists r, rsi m = Fin r /\ 0 <= r /\ r <= 100 /\
               score m = Fin (100 + - Qabs (50 + - r) + v * 10) /\
               50 + v * 10 <= 100 + - Qabs (50 + - r) + v * 10 /\
               100 + - Qabs (50 + - r) + v * 10 <= 100 + v * 10).
Proof.
  intro Hin. apply results_In_accepted in Hin. apply accepted_In in Hin.
  destruct Hin as [t [Ht Hm]].
  pose proof (accepted_ticker _ _ _ _ _ _ _ _ Hm) as Tm.
  apply screen_ticker_Some_inv in Hm.
  destruct Hm as (hist & rs & lr & vs & lp & Eh & Hne & Er & El & Ev & Ec & _ & Em).
  apply check_criteria_true_inv in Ec.
  destruct Ec as (lo & hi & thr & Ea & Eb & Et & L1 & L2 & L3).
  destruct (volume_spike_ratio_finite (map Volume hist)) as [v Hv].
  { destruct hist; [congruence | discriminate]. }
  rewrite Hv in Ev. injection Ev as <-.
  exists lo, hi, thr, v. rewrite Tm. subst m. cbn [rsi volume_spike score].
  repeat (split; [first [assumption | reflexivity]|]).
  split.
  - intros ql qh qt -> -> ->.
    destruct (between_finite ql qh lr L1 L2) as [r ->].
    simpl in L1, L2. unfold num_geb in L3. simpl in L3.
    apply Qle_bool_iff in L1, L2, L3.
    exists r. repeat (split; [first [assumption | reflexivity]|]).
    reflexivity.
  - intro Hfb. subst TALIB_AVAILABLE. unfold calculate_rsi in Er.
    injection Er as <-. apply iloc_last_In in El.
    assert (Hd : is_defined lr = true) by (apply (num_leb_defined_r lo); exact L1).
    destruct lr as [r| | |]; try discriminate Hd.
    + apply rsi_fallback_member_range in El. destruct El as [R0 R1].
      assert (A0 : 0 <= Qabs (50 + - r)) by apply Qabs_nonneg.
      assert (A1 : Qabs (50 + - r) <= 50) by (apply Qabs_Qle_condition; lra).
      exists r. repeat split; try assumption; lra.
    + exfalso. apply (In_nth _ _ NaN) in El. destruct El as [i [Hi Hn]].
      rewrite calculate_rsi_fallback_length in Hi.
      destruct (rsi_value_cases (map Close hist) 14 i Hi) as [E|[q [E _]]];
        rewrite E in Hn; discriminate Hn.
    + exfalso. apply (In_nth _ _ NaN) in El. destruct El as [i [Hi Hn]].
      rewrite calculate_rsi_fallback_length in Hi.
      destruct (rsi_value_cases (map Close hist) 14 i Hi) as [E|[q [E _]]];
        rewrite E in Hn; discriminate Hn.
Qed.

Lemma returned_matches_meet_criteria_witness :
  exists r, rsi scenario_match_A = Fin r /\ 0 <= r /\ r <= 100.
Proof.
  destruct (returned_matches_meet_criteria false no_talib scenario_history
              ["A"; "B"]%string scenario_criteria scenario_match_A)
    as (lo & hi & thr & v & _ & _ & _ & _ & _ & _ & _ & _ & _ & _ & Hfb).
  - vm_compute. left. reflexivity.
  - destruct (Hfb eq_refl) as (r & Hr & R0 & R1 & _).
    exists r. repeat split; assumption.
Defined.

(** X15.  Reordering the input tickers changes neither the collection of
    matches nor the counts of the report; only the order among matches of
    equal score can differ. *)
Theorem screener_permutation (TALIB_AVAILABLE : bool)
  (talib_RSI : list Q -> nat -> pyres (list num))
  (history : string -> string -> pyres DataFrame)
  (tickers tickers' : list string) (criteria : Criteria) :
  Permutation tickers tickers' ->
  let rsi_min := dict_get (crit_rsi_min criteria) 30 in
  let rsi_max := dict_get (crit_rsi_max criteria) 70 in
  let volume_spike := dict_get (crit_volume_spike criteria) 1.5 in
  let run := run_screener TALIB_AVAILABLE talib_RSI history in
  Permutation
    (accepted_matches TALIB_AVAILABLE talib_RSI history
       rsi_min rsi_max volume_spike tickers)
    (accepted_matches TALIB_AVAILABLE talib_RSI history
       rsi_min rsi_max volume_spike tickers') /\
  matches (run tickers criteria) = matches (run tickers' criteria) /\
  total_scanned (run tickers criteria) = total_scanned (run tickers' criteria) /\
  length (results (run tickers criteria))
    = length (results (run tickers' criteria)).
Proof.
  intro Hp. cbv zeta.
  assert (Hacc : Permutation
            (accepted_matches TALIB_AVAILABLE talib_RSI history
               (dict_get (crit_rsi_min criteria) 30)
               (dict_get (crit_rsi_max criteria) 70)
               (dict_get (crit_volume_spike criteria) 1.5) tickers)
            (accepted_matches TALIB_AVAILABLE talib_RSI history
               (dict_get (crit_rsi_min criteria) 30)
               (dict_get (crit_rsi_max criteria) 70)
               (dict_get (crit_volume_spike criteria) 1.5) tickers')).
  { unfold accepted_matches. apply Permutation_flat_map. exact Hp. }
  destruct (run_screener_results TALIB_AVAILABLE talib_RSI history
              tickers criteria) as [Er [Et Em]].
  destruct (run_screener_results TALIB_AVAILABLE talib_RSI history
              tickers' criteria) as [Er' [Et' Em']].
  cbv zeta in Er, Et, Em, Er', Et', Em'.
  rewrite Er, Et, Em, Er', Et', Em'.
  pose proof (Permutation_length Hacc) as HL.
  pose proof (Permutation_length Hp) as HT.
  split; [exact Hacc|]. split; [exact HL|]. split; [exact HT|].
  rewrite !length_firstn, !sort_desc_length, HL. reflexivity.
Qed.

Lemma screener_permutation_witness :
  matches (run_screener false no_talib scenario_history
             ["A"; "B"]%string scenario_criteria)
  = matches (run_screener false no_talib scenario_history
               ["B"; "A"]%string scenario_criteria).
Proof.
  apply (screener_permutation false no_talib scenario_history
           ["A"; "B"]%string ["B"; "A"]%string scenario_criteria).
  apply perm_swap.
Defined.

(** * The indicator endpoint *)

Lemma endswith_refl (s : string) : endswith s s = true.
Proof.
  destruct s; simpl; [reflexivity|]. rewrite Ascii.eqb_refl, String.eqb_refl.
  reflexivity.
Qed.

Lemma endswith_app (s suffix : string) :
  endswith (s ++ suffix) suffix = true.
Proof.
  induction s as [|c s IH].
  - apply endswith_refl.
  - cbn [String.append endswith]. rewrite IH.
    destruct (String.eqb (String c (s ++ suffix)) suffix); reflexivity.
Qed.

(** X16.  The symbol that [get_indicators] looks up always ends in [.OL];
    a ticker that already ends in [.OL] is looked up unchanged, and
    normalising twice is the same as normalising once. *)
Theorem indicator_symbol_normalised (ticker : string) :
  endswith (indicator_symbol ticker) ".OL" = true /\
  (endswith ticker ".OL" = true -> indicator_symbol ticker = ticker) /\
  (endswith ticker ".OL" = false ->
   indicator_symbol ticker = (ticker ++ ".OL")%string) /\
  indicator_symbol (indicator_symbol ticker) = indicator_symbol ticker.
Proof.
  assert (H1 : endswith (indicator_symbol ticker) ".OL" = true).
  { unfold indicator_symbol. destruct (endswith ticker ".OL") eqn:E; simpl.
    - exact E.
    - apply endswith_app. }
  split; [exact H1|]. split; [|split].
  - intro E. unfold indicator_symbol. rewrite E. reflexivity.
  - intro E. unfold indicator_symbol. rewrite E. reflexivity.
  - unfold indicator_symbol at 1. rewrite H1. reflexivity.
Qed.

Lemma indicator_symbol_normalised_witness :
  indicator_symbol "EQNR.OL" = "EQNR.OL"%string /\
  indicator_symbol "EQNR" = "EQNR.OL"%string.
Proof.
  split.
  - apply (proj1 (proj2 (indicator_symbol_normalised "EQNR.OL"))).
    reflexivity.
  - apply (proj1 (proj2 (proj2 (indicator_symbol_normalised "EQNR")))).
    reflexivity.
Defined.

Lemma latest_nonempty (s : list num) :
  s <> [] -> latest s = Ret (nan_to_none (last s NaN)).
Proof.
  intro H. unfold latest. rewrite (iloc_last_nonempty s NaN H). reflexivity.
Qed.

Lemma nonempty_by_length {A : Type} (l : list A) (n : nat) :
  length l = n -> (0 < n)%nat -> l <> [].
Proof.
  intros H Hn E. subst l. simpl in H. lia.
Qed.

Lemma last_nth_pred {A : Type} (l : list A) (d : A) :
  last l d = nth (length l - 1) l d.
Proof.
  induction l as [|x l IH]; [reflexivity|].
  destruct l as [|y l]; [reflexivity|].
  change (last (x :: y :: l) d) with (last (y :: l) d). rewrite IH.
  simpl. rewrite Nat.sub_0_r. reflexivity.
Qed.

Lemma macd_fallback_lengths (prices : list Q) :
  length (macd (calculate_macd_fallback prices)) = length prices /\
  length (signal (calculate_macd_fallback prices)) = length prices /\
  length (histogram (calculate_macd_fallback prices)) = length prices.
Proof.
  unfold calculate_macd_fallback. cbn [macd signal histogram].
  rewrite !map2_length, !ewm_mean_length, !map2_length, !ewm_mean_length.
  repeat split; lia.
Qed.

Lemma bollinger_fallback_lengths (sqrtQ : Q -> Q) (prices : list Q)
  (period : nat) (std_dev : Q) :
  let bb := calculate_bollinger_bands_fallback sqrtQ prices period std_dev in
  length (upper bb) = length prices /\
  length (middle bb) = length prices /\
  length (lower bb) = length prices.
Proof.
  cbv zeta. unfold calculate_bollinger_bands_fallback.
  cbn [upper middle lower]. unfold rolling_std, rolling_mean.
  rewrite !map2_length, !length_map, !rolling_length, !length_map.
  repeat split; lia.
Qed.

Section IndicatorFacts.

Variable talib_RSI : list Q -> nat -> pyres (list num).
Variable talib_MACD :
  list Q -> nat -> nat -> nat -> pyres (list num * list num * list num).
Variable talib_BBANDS :
  list Q -> nat -> Q -> Q -> pyres (list num * list num * list num).
Variable sqrtQ : Q -> Q.
Variable history : string -> string -> pyres TimedFrame.

(** The 200 body on the fallback path, field by field. *)
Lemma indicators_body_fallback (ticker : string) (hist : TimedFrame) :
  history (indicator_symbol ticker) "6mo"%string = Ret hist -> hist <> [] ->
  let prices := map (fun row => Close (snd row)) hist in
  let volumes := map (fun row => Volume (snd row)) hist in
  let md := calculate_macd_fallback prices in
  let bb := calculate_bollinger_bands_fallback sqrtQ prices 20 2 in
  exists v,
    volume_spike_ratio volumes = Ret (Fin v) /\
    indicators_body false talib_RSI talib_MACD talib_BBANDS sqrtQ history ticker
    = Ret (Ok200
        (mkIndicatorReport ticker (last prices 0)
           (nan_to_none (last (calculate_rsi_fallback prices 14) NaN))
           (mkLatestMacd
              (nan_to_none (last (map Fin (macd md)) NaN))
              (nan_to_none (last (map Fin (signal md)) NaN))
              (nan_to_none (last (map Fin (histogram md)) NaN)))
           (mkLatestBands
              (nan_to_none (last (upper bb) NaN))
              (nan_to_none (last (middle bb) NaN))
              (nan_to_none (last (lower bb) NaN)))
           (mkVolumeReport (last volumes 0) (Fin (avgQ volumes)) (Fin v))
           (last (map fst hist) ""%string))).
Proof.
  intros Eh Hne. cbv zeta.
  set (prices := map (fun row => Close (snd row)) hist).
  set (volumes := map (fun row => Volume (snd row)) hist).
  assert (Hlen : (0 < length hist)%nat)
    by (destruct hist; [congruence | simpl; lia]).
  assert (Lp : length prices = length hist) by apply length_map.
  assert (Lv : length volumes = length hist) by apply length_map.
  assert (Nv : volumes <> []) by (apply (nonempty_by_length _ _ Lv Hlen)).
  destruct (volume_spike_ratio_finite volumes Nv) as [v Hv].
  exists v. split; [exact Hv|].
  assert (Hfe : frame_empty hist = false)
    by (destruct hist; [congruence | reflexivity]).
  unfold indicators_body. rewrite Eh. cbn [bind]. rewrite Hfe.
  cbv zeta. fold prices. fold volumes.
  unfold calculate_rsi, calculate_macd, calculate_bollinger_bands.
  cbn [bind s_macd s_signal s_histogram].
  destruct (macd_fallback_lengths prices) as [L1 [L2 L3]].
  destruct (bollinger_fallback_lengths sqrtQ prices 20 2) as [B1 [B2 B3]].
  rewrite (latest_nonempty (calculate_rsi_fallback prices 14))
    by (apply (nonempty_by_length _ (length prices));
        [apply calculate_rsi_fallback_length | lia]).
  cbn [bind].
  rewrite (latest_nonempty (map Fin (macd (calculate_macd_fallback prices))))
    by (apply (nonempty_by_length _ (length prices));
        [rewrite length_map; exact L1 | lia]).
  cbn [bind].
  rewrite (latest_nonempty (map Fin (signal (calculate_macd_fallback prices))))
    by (apply (nonempty_by_length _ (length prices));
        [rewrite length_map; exact L2 | lia]).
  cbn [bind].
  rewrite (latest_nonempty
             (map Fin (histogram (calculate_macd_fallback prices))))
    by (apply (nonempty_by_length _ (length prices));
        [rewrite length_map; exact L3 | lia]).
  cbn [bind].
  rewrite (latest_nonempty
             (upper (calculate_bollinger_bands_fallback sqrtQ prices 20 2)))
    by (apply (nonempty_by_length _ (length prices)); [exact B1 | lia]).
  cbn [bind].
  rewrite (latest_nonempty
             (middle (calculate_bollinger_bands_fallback sqrtQ prices 20 2)))
    by (apply (nonempty_by_length _ (length prices)); [exact B2 | lia]).
  cbn [bind].
  rewrite (latest_nonempty
             (lower (calculate_bollinger_bands_fallback sqrtQ prices 20 2)))
    by (apply (nonempty_by_length _ (length prices)); [exact B3 | lia]).
  cbn [bind].
  unfold volume_spike_ratio in Hv.
  rewrite (iloc_last_nonempty volumes 0 Nv) in Hv |- *. cbn [bind] in Hv |- *.
  rewrite (series_mean_nonempty volumes Nv) in Hv |- *.
  rewrite Hv. cbn [bind].
  rewrite (iloc_last_nonempty prices 0)
    by (apply (nonempty_by_length _ _ Lp Hlen)).
  cbn [bind].
  rewrite (iloc_last_nonempty (map fst hist) ""%string)
    by (apply (nonempty_by_length _ (length hist));
        [apply length_map | exact Hlen]).
  reflexivity.
Qed.

End IndicatorFacts.

Lemma last_map_Fin (l : list Q) :
  l <> [] -> last (map Fin l) NaN = Fin (last l 0).
Proof.
  induction l as [|x l IH]; [congruence|]. intros _.
  destruct l as [|y l]; [reflexivity|].
  change (last (map Fin (x :: y :: l)) NaN) with (last (map Fin (y :: l)) NaN).
  change (last (x :: y :: l) 0) with (last (y :: l) 0).
  apply IH. discriminate.
Qed.

Lemma bollinger_values_at (sqrtQ : Q -> Q) (prices : list Q) (period : nat)
  (std_dev : Q) (i : nat) :
  (i < length prices)%nat ->
  let bb := calculate_bollinger_bands_fallback sqrtQ prices period std_dev in
  ((i + 1 < period)%nat ->
   nth i (upper bb) NaN = NaN /\ nth i (middle bb) NaN = NaN /\
   nth i (lower bb) NaN = NaN) /\
  ((2 <= period)%nat -> (period <= i + 1)%nat ->
   let m := avgQ (window period i prices) in
   let s := sqrtQ (varQ (window period i prices)) in
   nth i (upper bb) NaN = Fin (m + s * std_dev) /\
   nth i (middle bb) NaN = Fin m /\
   nth i (lower bb) NaN = Fin (m + - (s * std_dev)) /\
   0 <= varQ (window period i prices)).
Proof.
  intros Hi bb.
  destruct (bollinger_at sqrtQ prices period std_dev i Hi) as [Em [Eu El]].
  fold bb in Em, Eu, El. rewrite Em, Eu, El.
  rewrite nth_rolling_mean, nth_rolling_std by exact Hi. split.
  - intro Hlt.
    replace (period <=? i + 1)%nat with false
      by (symmetry; apply Nat.leb_gt; lia).
    simpl. auto.
  - intros H2 Hle. cbv zeta.
    replace (period <=? i + 1)%nat with true
      by (symmetry; apply Nat.leb_le; lia).
    replace (1 <? period)%nat with true by (symmetry; apply Nat.ltb_lt; lia).
    replace (0 <? period)%nat with true by (symmetry; apply Nat.ltb_lt; lia).
    simpl. repeat split.
    apply varQ_nonneg. rewrite window_length by exact Hi. lia.
Qed.

Ltac split_binds H :=
  repeat match type of H with
         | context [bind ?c _] =>
             let E := fresh "E" in
             destruct c eqn:E; cbn [bind] in H
         end.

(** X17.  Status of [get_indicators]: a failing provider gives 500 with its
    exception, an empty history gives 404 "No data available" and nothing
    else gives 404; on the fallback path every non-empty history gives 200
    with the ticker as sent, the last close, volume and timestamp and the
    mean volume, so that 500 occurs only when the provider fails. *)
Theorem get_indicators_status (TALIB_AVAILABLE : bool)
  (talib_RSI : list Q -> nat -> pyres (list num))
  (talib_MACD :
     list Q -> nat -> nat -> nat -> pyres (list num * list num * list num))
  (talib_BBANDS :
     list Q -> nat -> Q -> Q -> pyres (list num * list num * list num))
  (sqrtQ : Q -> Q) (history : string -> string -> pyres TimedFrame)
  (ticker : string) :
  let resp := get_indicators TALIB_AVAILABLE talib_RSI talib_MACD talib_BBANDS
                sqrtQ history ticker in
  let fetched := history (indicator_symbol ticker) "6mo"%string in
  (forall e, fetched = Raise e -> resp = ServerError500 e) /\
  (fetched = Ret [] -> resp = NotFound404 "No data available") /\
  (forall msg, resp = NotFound404 msg -> fetched = Ret []) /\
  (TALIB_AVAILABLE = false ->
   forall hist, fetched = Ret hist -> hist <> [] ->
   exists body,
     resp = Ok200 body /\ i_ticker body = ticker /\
     i_latest_price body = last (map (fun row => Close (snd row)) hist) 0 /\
     i_timestamp body = last (map fst hist) ""%string /\
     v_current (i_volume body)
       = last (map (fun row => Volume (snd row)) hist) 0 /\
     v_average (i_volume body)
       = Fin (avgQ (map (fun row => Volume (snd row)) hist))) /\
  (TALIB_AVAILABLE = false ->
   forall e, resp = ServerError500 e -> fetched = Raise e).
Proof.
  cbv zeta.
  assert (Hok : TALIB_AVAILABLE = false ->
            forall hist,
              history (indicator_symbol ticker) "6mo"%string = Ret hist ->
              hist <> [] ->
              exists body,
                get_indicators TALIB_AVAILABLE talib_RSI talib_MACD
                  talib_BBANDS sqrtQ history ticker = Ok200 body /\
                i_ticker body = ticker /\
                i_latest_price body
                  = last (map (fun row => Close (snd row)) hist) 0 /\
                i_timestamp body = last (map fst hist) ""%string /\
                v_current (i_volume body)
                  = last (map (fun row => Volume (snd row)) hist) 0 /\
                v_average (i_volume body)
                  = Fin (avgQ (map (fun row => Volume (snd row)) hist))).
  { intros -> hist Eh Hne.
    destruct (indicators_body_fallback talib_RSI talib_MACD talib_BBANDS
                sqrtQ history ticker hist Eh Hne) as [v [_ Hb]].
    cbv zeta in Hb. unfold get_indicators. rewrite Hb.
    eexists. split; [reflexivity|]. cbn. auto. }
  split; [|split; [|split; [|split]]].
  - intros e He. unfold get_indicators, indicators_body. rewrite He.
    reflexivity.
  - intro He. unfold get_indicators, indicators_body. rewrite He.
    reflexivity.
  - intros msg H. unfold get_indicators, indicators_body in H.
    destruct (history (indicator_symbol ticker) "6mo"%string)
      as [hist|e] eqn:Eh; cbn [bind] in H; [|discriminate H].
    destruct hist as [|row hist]; [reflexivity|]. exfalso.
    cbn [frame_empty] in H. cbv zeta in H.
    unfold calculate_macd, calculate_bollinger_bands in H.
    destruct TALIB_AVAILABLE; split_binds H; discriminate H.
  - exact Hok.
  - intros Hfb e H.
    destruct (history (indicator_symbol ticker) "6mo"%string)
      as [hist|e'] eqn:Eh.
    + exfalso. destruct hist as [|row hist].
      * unfold get_indicators, indicators_body in H. rewrite Eh in H.
        discriminate H.
      * destruct (Hok Hfb (row :: hist) eq_refl) as [body [Hb _]];
          [discriminate|]. rewrite Hb in H. discriminate H.
    + unfold get_indicators, indicators_body in H. rewrite Eh in H.
      cbn [bind] in H. injection H as ->. reflexivity.
Qed.

Lemma get_indicators_status_witness :
  get_indicators false no_talib no_talib_MACD no_talib_BBANDS sqrt_down
    example_provider "X" = ServerError500 (LibraryError "request failed") /\
  get_indicators false no_talib no_talib_MACD no_talib_BBANDS sqrt_down
    example_provider "NONE" = NotFound404 "No data available" /\
  exists body,
    get_indicators false no_talib no_talib_MACD no_talib_BBANDS sqrt_down
      example_provider "EQNR" = Ok200 body /\ i_ticker body = "EQNR"%string.
Proof.
  split; [|split].
  - apply (get_indicators_status false no_talib no_talib_MACD no_talib_BBANDS
             sqrt_down example_provider "X"). reflexivity.
  - apply (proj1 (proj2 (get_indicators_status false no_talib no_talib_MACD
                           no_talib_BBANDS sqrt_down example_provider "NONE"))).
    reflexivity.
  - destruct (proj1 (proj2 (proj2 (proj2
                (get_indicators_status false no_talib no_talib_MACD
                   no_talib_BBANDS sqrt_down example_provider "EQNR"))))
                eq_refl example_frame) as [body [Hb [Ht _]]].
    + reflexivity.
    + discriminate.
    + exists body. split; assumption.
Defined.

(** X18.  In a 200 response on the fallback path the RSI is either null or
    a number within [0, 100], and it is null whenever fewer than 14 samples
    were retrieved; the three MACD values are never null, and the reported
    histogram is exactly the reported macd minus the reported signal. *)
Theorem get_indicators_rsi_and_macd
  (talib_RSI : list Q -> nat -> pyres (list num))
  (talib_MACD :
     list Q -> nat -> nat -> nat -> pyres (list num * list num * list num))
  (talib_BBANDS :
     list Q -> nat -> Q -> Q -> pyres (list num * list num * list num))
  (sqrtQ : Q -> Q) (history : string -> string -> pyres TimedFrame)
  (ticker : string) (hist : TimedFrame) :
  history (indicator_symbol ticker) "6mo"%string = Ret hist -> hist <> [] ->
  exists body,
    get_indicators false talib_RSI talib_MACD talib_BBANDS sqrtQ history ticker
    = Ok200 body /\
    (i_rsi body = None \/
     exists r, i_rsi body = Some (Fin r) /\ 0 <= r /\ r <= 100) /\
    ((length hist < 14)%nat -> i_rsi body = None) /\
    exists a b c,
      i_macd body = mkLatestMacd (Some (Fin a)) (Some (Fin b)) (Some (Fin c)) /\
      c = a - b.
Proof.
  intros Eh Hne.
  destruct (indicators_body_fallback talib_RSI talib_MACD talib_BBANDS
              sqrtQ history ticker hist Eh Hne) as [v [_ Hb]].
  cbv zeta in Hb. unfold get_indicators. rewrite Hb.
  eexists. split; [reflexivity|]. cbn [i_rsi i_macd].
  set (prices := map (fun row => Close (snd row)) hist).
  assert (Lp : length prices = length hist) by apply length_map.
  assert (Hlen : (0 < length prices)%nat)
    by (rewrite Lp; destruct hist; [congruence | simpl; lia]).
  split; [|split].
  - rewrite last_nth_pred, calculate_rsi_fallback_length.
    destruct (rsi_value_cases prices 14 (length prices - 1)) as [E|[r [E Hr]]];
      [lia | rewrite E; left; reflexivity |].
    rewrite E. right. exists r. split; [reflexivity | exact Hr].
  - intro Hshort. rewrite last_all_NaN; [reflexivity|].
    apply short_series_undefined. lia.
  - destruct (macd_fallback_lengths prices) as [L1 [L2 L3]].
    rewrite !last_map_Fin
      by (apply (nonempty_by_length _ (length prices)); assumption).
    do 3 eexists. split; [reflexivity|].
    rewrite !last_nth_pred, L1, L2, L3.
    unfold calculate_macd_fallback. cbn [macd signal histogram].
    apply (nth_map2 Qminus).
    + unfold calculate_macd_fallback in L1. cbn [macd] in L1. rewrite L1. lia.
    + unfold calculate_macd_fallback in L2. cbn [signal] in L2. rewrite L2. lia.
Qed.

Lemma get_indicators_rsi_and_macd_witness :
  exists body,
    get_indicators false no_talib no_talib_MACD no_talib_BBANDS sqrt_down
      example_provider "EQNR" = Ok200 body /\ i_rsi body = None.
Proof.
  destruct (get_indicators_rsi_and_macd no_talib no_talib_MACD no_talib_BBANDS
              sqrt_down example_provider "EQNR" example_frame)
    as [body [Hb [_ [Hs _]]]].
  - reflexivity.
  - discriminate.
  - exists body. split; [exact Hb|]. apply Hs. simpl. lia.
Defined.

(** X19.  In a 200 response on the fallback path the three Bollinger values
    are all null when fewer than 20 samples were retrieved; otherwise all
    three are numbers with [lower <= middle <= upper] (for a square root
    with non-negative values). *)
Theorem get_indicators_bollinger
  (talib_RSI : list Q -> nat -> pyres (list num))
  (talib_MACD :
     list Q -> nat -> nat -> nat -> pyres (list num * list num * list num))
  (talib_BBANDS :
     list Q -> nat -> Q -> Q -> pyres (list num * list num * list num))
  (sqrtQ : Q -> Q) (history : string -> string -> pyres TimedFrame)
  (ticker : string) (hist : TimedFrame) :
  (forall x, 0 <= x -> 0 <= sqrtQ x) ->
  history (indicator_symbol ticker) "6mo"%string = Ret hist -> hist <> [] ->
  exists body,
    get_indicators false talib_RSI talib_MACD talib_BBANDS sqrtQ history ticker
    = Ok200 body /\
    ((length hist < 20)%nat ->
     i_bollinger_bands body = mkLatestBands None None None) /\
    ((20 <= length hist)%nat ->
     exists u m l,
       i_bollinger_bands body
       = mkLatestBands (Some (Fin u)) (Some (Fin m)) (Some (Fin l)) /\
       l <= m /\ m <= u).
Proof.
  intros Hsqrt Eh Hne.
  destruct (indicators_body_fallback talib_RSI talib_MACD talib_BBANDS
              sqrtQ history ticker hist Eh Hne) as [v [_ Hb]].
  cbv zeta in Hb. unfold get_indicators. rewrite Hb.
  eexists. split; [reflexivity|]. cbn [i_bollinger_bands].
  set (prices := map (fun row => Close (snd row)) hist).
  assert (Lp : length prices = length hist) by apply length_map.
  assert (Hlen : (0 < length prices)%nat)
    by (rewrite Lp; destruct hist; [congruence | simpl; lia]).
  destruct (bollinger_fallback_lengths sqrtQ prices 20 2) as [B1 [B2 B3]].
  rewrite !last_nth_pred, B1, B2, B3.
  destruct (bollinger_values_at sqrtQ prices 20 2 (length prices - 1))
    as [Hshort Hfull]; [lia|].
  split.
  - intro Hs. destruct Hshort as [Eu [Em El]]; [lia|].
    rewrite Eu, Em, El. reflexivity.
  - intro Hl. destruct Hfull as [Eu [Em [El Hv]]]; [lia | lia |].
    rewrite Eu, Em, El. do 3 eexists. split; [reflexivity|].
    pose proof (Hsqrt _ Hv) as Hs.
    assert (Hp : 0 <= sqrtQ (varQ (window 20 (length prices - 1) prices)) * 2)
      by (apply Qmult_le_0_compat; [exact Hs | lra]).
    split; lra.
Qed.

Lemma get_indicators_bollinger_witness :
  exists body,
    get_indicators false no_talib no_talib_MACD no_talib_BBANDS sqrt_down
      example_provider "EQNR" = Ok200 body /\
    i_bollinger_bands body = mkLatestBands None None None.
Proof.
  destruct (get_indicators_bollinger no_talib no_talib_MACD no_talib_BBANDS
              sqrt_down example_provider "EQNR" example_frame)
    as [body [Hb [Hs _]]].
  - exact sqrt_down_nonneg.
  - reflexivity.
  - discriminate.
  - exists body. split; [exact Hb|]. apply Hs. simpl. lia.
Defined.
